(** * Browser scripts of test-token: inference requester and event logger

    A shallow embedding of the four scripts of the repository:

    - the permissive inference page (first script of [unnamed/part_000]),
      whose [callApi] makes one request and omits the Authorization
      header when no token is given;
    - the retrying inference page (second script of [unnamed/part_000]),
      whose [callApi] refuses to run without a token and repeats a request
      once after a warm-up failure;
    - [lecture_first/app.js], whose [analyzeRandomReview] classifies a
      random review;
    - [lecture_thirdindex/app.js], the event logger ([getUserId],
      [getGasUrl], [sendLogSimple]).

    [unnamed/part_001] is an earlier copy of [lecture_first/app.js] with
    the same request, without the branch for status 401 and with a weaker
    test of the body; it is modelled after the handlers, as [EarlierCopy].

    Modelling conventions.
    - A JavaScript string is a Rocq [string]; every character stands for
      one UTF-16 code unit in the range U+0000..U+00FF, so [length] and
      [slice] count code units as JavaScript does and [toLowerCase] and
      [trim] follow the Unicode rules on that range.
    - Parsed JSON is the inductive type [json]; [None] stands for
      [undefined] when a property is read.  Numbers are integers, printed
      in decimal, which is how JavaScript prints the safe integers (up to
      [2 ^ 53 - 1] in magnitude); statements that depend on the text of a
      number, or of an object, are made for the values [printable] admits.
    - [Math.random()] is a double below one, given by its mantissa and
      exponent; its product with a length is rounded as the
      multiplication of doubles rounds.
    - The network is an oracle: the k-th call of [fetch] receives the k-th
      answer of the oracle, either a rejection or a response.  Requests and
      timer waits are recorded, in order, in a trace.
    - [async] functions are sequential here (every [await] is awaited in
      place), so they are computations in a state-and-exception monad; a
      rejected promise is a thrown error. *)

From Stdlib Require Import ZArith Ascii String List Lia Bool.
From stdpp Require Import base option list strings gmap pretty.

Set Warnings "-register-all".

Local Open Scope Z_scope.

(** ** JavaScript strings *)

Module JsString.

Definition code (c : ascii) : N := N_of_ascii c.

(** White space and line terminators of ECMAScript below U+0100:
    TAB, LF, VT, FF, CR, SPACE and NO-BREAK SPACE. *)
Definition is_space (c : ascii) : bool :=
  let n := code c in
  (((9 <=? n) && (n <=? 13)) || (n =? 32) || (n =? 160))%N.

(** Characters with a lower-case mapping below U+0100: A-Z and the
    Latin-1 capitals U+00C0..U+00DE, the multiplication sign excepted. *)
Definition is_upper (c : ascii) : bool :=
  let n := code c in
  (((65 <=? n) && (n <=? 90))
   || ((192 <=? n) && (n <=? 222) && negb (n =? 215)))%N.

Definition lower_char (c : ascii) : ascii :=
  if is_upper c then ascii_of_N (code c + 32) else c.

Fixpoint toLowerCase (s : string) : string :=
  match s with
  | EmptyString => EmptyString
  | String c r => String (lower_char c) (toLowerCase r)
  end.

Fixpoint trimStart (s : string) : string :=
  match s with
  | EmptyString => EmptyString
  | String c r => if is_space c then trimStart r else s
  end.

Fixpoint trimEnd (s : string) : string :=
  match s with
  | EmptyString => EmptyString
  | String c r =>
      match trimEnd r with
      | EmptyString => if is_space c then EmptyString else String c EmptyString
      | t => String c t
      end
  end.

Definition trim (s : string) : string := trimEnd (trimStart s).

(** [s.split("\n")[0]]: the part of [s] before its first line feed. *)
Definition LF : ascii := ascii_of_N 10.

Fixpoint first_line (s : string) : string :=
  match s with
  | EmptyString => EmptyString
  | String c r => if Ascii.eqb c LF then EmptyString else String c (first_line r)
  end.

(** [s.slice(0, n)] for a non-negative literal [n]. *)
Fixpoint slice0 (n : nat) (s : string) : string :=
  match n, s with
  | S k, String c r => String c (slice0 k r)
  | _, _ => EmptyString
  end.

(** [s.slice(n)] for a non-negative literal [n]. *)
Fixpoint slice_from (n : nat) (s : string) : string :=
  match n, s with
  | S k, String _ r => slice_from k r
  | _, _ => s
  end.

(** [s.includes(needle)]. *)
Fixpoint includes (needle s : string) : bool :=
  String.prefix needle s
  || match s with
     | EmptyString => false
     | String _ r => includes needle r
     end.

Definition is_empty (s : string) : bool :=
  match s with EmptyString => true | _ => false end.

(** Decimal rendering of an integer, as [String(n)] or a template
    literal gives for an integral number. *)
Definition of_Z (n : Z) : string := pretty n.

End JsString.
Export JsString.

(** ** JSON values and the JavaScript conversions applied to them *)

(** A parsed body.  Its numbers are doubles; [JNum n] is the number whose
    value is the integer [n].  Up to [2 ^ 53 - 1] in magnitude, the safe
    integers of JavaScript, every integer is a double of its own and is
    printed in decimal; the conversions below are those of JavaScript on
    that range.  Larger numbers may be printed with rounded digits or an
    exponent, and numbers that are not integers have no value here; an
    object with a [toString] property of its own has no text either.  The
    statements that depend on the text of such a value say so. *)
Inductive json : Type :=
| JNull
| JBool (b : bool)
| JNum (n : Z)
| JStr (s : string)
| JArr (items : list json)
| JObj (fields : list (string * json)).

Module Js.

Definition NL : string := String LF EmptyString.
Definition DQ : string := String (ascii_of_N 34) EmptyString.
Definition BSL : string := String (ascii_of_N 92) EmptyString.

(** Own property [k] of an object literal. *)
Fixpoint lookup_field (k : string) (fields : list (string * json)) : option json :=
  match fields with
  | [] => None
  | (k', v) :: r => if String.eqb k k' then Some v else lookup_field k r
  end.

(** [v.k] for a value [v] other than [null]; [None] is [undefined].
    Only names that are no built-in property of arrays, strings, numbers
    or booleans are read this way. *)
Definition prop (v : json) (k : string) : option json :=
  match v with
  | JObj fields => lookup_field k fields
  | _ => None
  end.

(** [v?.k]. *)
Definition opt_prop (v : option json) (k : string) : option json :=
  match v with
  | None | Some JNull => None
  | Some x => prop x k
  end.

(** [data[0]] for an array. *)
Definition first_item (v : json) : option json :=
  match v with
  | JArr (x :: _) => Some x
  | _ => None
  end.

Definition isArray (v : json) : bool :=
  match v with JArr _ => true | _ => false end.

(** [data.length] is non-zero. *)
Definition nonempty (v : json) : bool :=
  match v with JArr (_ :: _) => true | _ => false end.

Definition typeof_object (v : json) : bool :=
  match v with JNull | JArr _ | JObj _ => true | _ => false end.

(** ToBoolean. *)
Definition truthy (v : json) : bool :=
  match v with
  | JNull => false
  | JBool b => b
  | JNum n => negb (n =? 0)%Z
  | JStr s => negb (is_empty s)
  | JArr _ | JObj _ => true
  end.

Definition truthy_opt (v : option json) : bool :=
  match v with None => false | Some x => truthy x end.

Definition join (sep : string) (parts : list string) : string :=
  match parts with
  | [] => EmptyString
  | p :: r => fold_left (fun acc q => acc +:+ sep +:+ q) r p
  end.

(** [String(v)]; a number is printed in decimal, as JavaScript prints the
    safe integers, and an object by the built-in method. *)
Fixpoint to_String (v : json) : string :=
  match v with
  | JNull => "null"
  | JBool true => "true"
  | JBool false => "false"
  | JNum n => of_Z n
  | JStr s => s
  | JArr items =>
      join ","
        (map (fun x => match x with JNull => EmptyString | _ => to_String x end) items)
  | JObj _ => "[object Object]"
  end.

Definition to_String_opt (v : option json) : string :=
  match v with None => "undefined" | Some x => to_String x end.

Definition hex_digit (n : N) : ascii :=
  ascii_of_N (if (n <? 10)%N then 48 + n else 87 + n).

(** QuoteJSONString on one code unit. *)
Definition quote_char (c : ascii) : string :=
  let n := code c in
  if (n =? 34)%N then BSL +:+ DQ
  else if (n =? 92)%N then BSL +:+ BSL
  else if (n =? 8)%N then BSL +:+ "b"
  else if (n =? 12)%N then BSL +:+ "f"
  else if (n =? 10)%N then BSL +:+ "n"
  else if (n =? 13)%N then BSL +:+ "r"
  else if (n =? 9)%N then BSL +:+ "t"
  else if (n <? 32)%N then
    BSL +:+ "u00" +:+ String (hex_digit (n / 16)) (String (hex_digit (n mod 16)) EmptyString)
  else String c EmptyString.

Fixpoint quote_body (s : string) : string :=
  match s with
  | EmptyString => EmptyString
  | String c r => quote_char c +:+ quote_body r
  end.

Definition quote (s : string) : string := DQ +:+ quote_body s +:+ DQ.

(** [JSON.stringify(v)] without indentation. *)
Fixpoint stringify (v : json) : string :=
  match v with
  | JNull => "null"
  | JBool true => "true"
  | JBool false => "false"
  | JNum n => of_Z n
  | JStr s => quote s
  | JArr items => "[" +:+ join "," (map stringify items) +:+ "]"
  | JObj fields =>
      "{" +:+ join "," (map (fun kv => quote (fst kv) +:+ ":" +:+ stringify (snd kv)) fields)
          +:+ "}"
  end.

End Js.

(** ** Errors, responses and the effect monad *)

(** A thrown value: an [Error] object with its [name] and [message]. *)
Record JsError : Type := mkError { err_name : string; err_message : string }.

Definition Error (msg : string) : JsError := mkError "Error" msg.

(** [String(e)], that is [Error.prototype.toString]. *)
Definition error_to_String (e : JsError) : string :=
  if is_empty (err_name e) then err_message e
  else if is_empty (err_message e) then err_name e
  else err_name e +:+ ": " +:+ err_message e.

(** [String(e.message || e)]. *)
Definition message_or_self (e : JsError) : string :=
  if is_empty (err_message e) then error_to_String e else err_message e.

(** The [TypeError] of reading property [k] of [null]; the wording of the
    message is the engine's and nothing below depends on it. *)
Definition null_read (k : string) : JsError :=
  mkError "TypeError" ("Cannot read properties of null (reading '" +:+ k +:+ "')").

Inductive Result (A : Type) : Type :=
| Ok (a : A)
| Throw (e : JsError).
Arguments Ok {A} a.
Arguments Throw {A} e.

(** An HTTP response: [res.text()] and [res.json()] settle with the given
    results ([Throw]: the promise rejects). *)
Record Response : Type := mkResponse {
  status : Z;
  statusText : string;
  text_result : Result string;
  json_result : Result json
}.

(** [res.ok]. *)
Definition ok (res : Response) : bool :=
  ((200 <=? status res) && (status res <=? 299))%Z.

Inductive Body : Type :=
| BodyText (s : string)
| BodyForm (params : list (string * string)).

Record Request : Type := mkRequest {
  req_url : string;
  req_method : string;
  req_headers : gmap string string;
  req_body : Body
}.

Inductive Event : Type :=
| EvFetch (r : Request)
| EvSleep (ms : Z).

(** The world a script runs in: the network oracle, the number of requests
    made so far, the trace of requests and waits, and the page state. *)
Record World (D : Type) : Type := mkWorld {
  net : nat -> Result Response;
  fetched : nat;
  trace : list Event;
  dom : D
}.
Arguments mkWorld {D} net fetched trace dom.
Arguments net {D} w.
Arguments fetched {D} w.
Arguments trace {D} w.
Arguments dom {D} w.

Definition M (D A : Type) : Type := World D -> Result A * World D.

Module Eff.
Section Ops.
Context {D : Type}.

Definition ret {A} (a : A) : M D A := fun w => (Ok a, w).

Definition throw {A} (e : JsError) : M D A := fun w => (Throw e, w).

Definition bind {A B} (m : M D A) (k : A -> M D B) : M D B :=
fun w => match m w with
       | (Ok a, w') => k a w'
       | (Throw e, w') => (Throw e, w')
       end.

(** [try { m } catch (e) { h e }]. *)
Definition try_catch {A} (m : M D A) (h : JsError -> M D A) : M D A :=
fun w => match m w with
       | (Ok a, w') => (Ok a, w')
       | (Throw e, w') => h e w'
       end.

(** [try { m } finally { f }]: [f] runs whatever [m] did and the
completion of [m] is kept unless [f] throws. *)
Definition try_finally {A} (m : M D A) (f : M D unit) : M D A :=
fun w => match m w with
       | (r, w') => match f w' with
                    | (Ok _, w'') => (r, w'')
                    | (Throw e, w'') => (Throw e, w'')
                    end
       end.

(** [await p] for a promise that settles with [r]; also the embedding
of a computation that touches nothing but may throw. *)
Definition await {A} (r : Result A) : M D A := fun w => (r, w).

Definition read {A} (f : D -> A) : M D A := fun w => (Ok (f (dom w)), w).

Definition update (f : D -> D) : M D unit :=
fun w => (Ok tt, mkWorld (net w) (fetched w) (trace w) (f (dom w))).

Definition emit (ev : Event) : M D unit :=
fun w => (Ok tt, mkWorld (net w) (fetched w) (trace w ++ [ev]) (dom w)).

(** [fetch(url, { method, headers, body })]: the request is recorded and
the oracle's next answer is the settlement of the promise. *)
Definition fetch (url method : string) (headers : gmap string string) (body : Body)
: M D Response :=
fun w => (net w (fetched w),
        mkWorld (net w) (S (fetched w))
                (trace w ++ [EvFetch (mkRequest url method headers body)]) (dom w)).

(** [new Promise(r => setTimeout(r, ms))], awaited. *)
Definition sleep (ms : Z) : M D unit := emit (EvSleep ms).

End Ops.
End Eff.
Import Eff.

Notation "x <- m ;; k" := (bind m (fun x => k))
  (at level 100, m at next level, right associativity, only parsing).
Notation "m ;;; k" := (bind m (fun _ => k))
  (at level 100, right associativity, only parsing).

(** Requests and waits of a trace. *)
Definition requests (t : list Event) : list Request :=
  omap (fun ev => match ev with EvFetch r => Some r | _ => None end) t.

Definition waits (t : list Event) : list Z :=
  omap (fun ev => match ev with EvSleep ms => Some ms | _ => None end) t.

(** ** The inference pages of [unnamed/part_000] *)

(** The elements both scripts read and write. *)
Record Page : Type := mkPage {
  tokenEl_value : string;
  errEl_textContent : string;
  errEl_display : string;
  spinner_display : string
}.

Module InferencePage.

Definition showError (msg : string) : M Page unit :=
  update (fun d => mkPage (tokenEl_value d) msg "block" (spinner_display d)).

Definition showSpin (on : bool) : M Page unit :=
  update (fun d => mkPage (tokenEl_value d) (errEl_textContent d) (errEl_display d)
                          (if on then "grid" else "none")).

(** [String(text).split("\n")[0].toLowerCase().trim()]. *)
Definition firstLine (text : json) : string :=
  trim (toLowerCase (first_line (Js.to_String text))).

Definition request_body (prompt : string) : Body :=
  BodyText (Js.stringify (JObj [("inputs", JStr prompt)])).

(** [typeof v === "string"]. *)
Definition is_string (v : option json) : bool :=
  match v with Some (JStr _) => true | _ => false end.

(** The value of a property already tested to be present. *)
Definition present (v : option json) : json :=
  match v with Some x => x | None => JNull end.

(** [data[0]?.generated_text]. *)
Definition first_generated_text (data : json) : option json :=
  Js.opt_prop (Js.first_item data) "generated_text".

End InferencePage.
Import InferencePage.

(** *** First script: one request, token optional *)
Module Permissive.

Definition url : string :=
  "https://api-inference.huggingface.co/models/tiiuae/falcon-7b-instruct".

Definition safeError (res : Response) : M Page string :=
  try_catch (t <- await (text_result res) ;; ret (slice0 500 t))
            (fun _ => ret EmptyString).

Definition make_headers (tk : string) : gmap string string :=
  let headers : gmap string string := {[ "Content-Type" := "application/json" ]} in
  if is_empty tk then headers else <[ "Authorization" := "Bearer " +:+ tk ]> headers.

(** [typeof data === "object" && typeof data.generated_text === "string"];
    reading a property of [null] throws. *)
Definition own_text_is_string (data : json) : Result bool :=
  if Js.typeof_object data then
    match data with
    | JNull => Throw (null_read "generated_text")
    | _ => Ok (is_string (Js.prop data "generated_text"))
    end
  else Ok false.

(** The chain of tests on the parsed body (lines 102-111); the result is
    the value assigned to [text]. *)
Definition parse_generation (data : json) : Result json :=
  if Js.isArray data && Js.nonempty data && is_string (first_generated_text data)
  then Ok (present (first_generated_text data))
  else
    match own_text_is_string data with
    | Throw e => Throw e
    | Ok true => Ok (present (Js.prop data "generated_text"))
    | Ok false =>
        if Js.truthy data && Js.truthy_opt (Js.prop data "error")
        then Throw (Error (Js.to_String_opt (Js.prop data "error")))
        else Throw (Error "Unexpected API response.")
    end.

Definition callApi (prompt originalText : string) : M Page (option string) :=
  showSpin true ;;;
  try_finally
    (try_catch
       (tk <- read (fun d => trim (tokenEl_value d)) ;;
        res <- fetch url "POST" (make_headers tk) (request_body prompt) ;;
        (if negb (ok res) then
           msg <- safeError res ;;
           if (status res =? 402)%Z then
             throw (Error ("Payment required (402). Provide a valid Hugging Face token or try later."
                           +:+ Js.NL +:+ msg))
           else if (status res =? 429)%Z then
             throw (Error ("Rate limited (429). Please slow down and try again." +:+ Js.NL +:+ msg))
           else throw (Error ("API error " +:+ of_Z (status res) +:+ "." +:+ Js.NL +:+ msg))
         else ret tt) ;;;
        data <- await (json_result res) ;;
        text <- await (parse_generation data) ;;
        ret (Some (firstLine text)))
       (fun e => showError (message_or_self e) ;;; ret None))
    (showSpin false).

End Permissive.

(** *** Second script: token required, one retry after a warm-up failure *)
Module Retrying.

Definition url : string :=
  "https://api-inference.huggingface.co/models/tiiuae/falcon-7b-instruct?wait_for_model=true".

Definition safeText (res : Response) : M Page string :=
  try_catch (t <- await (text_result res) ;; ret (slice0 800 t))
            (fun _ => ret EmptyString).

Definition make_headers (tk : string) : gmap string string :=
  <[ "Content-Type" := "application/json" ]>
    (<[ "Authorization" := "Bearer " +:+ tk ]>
       (<[ "Accept" := "application/json" ]> ∅)).

Definition attempt (headers : gmap string string) (prompt : string) : M Page json :=
  res <- fetch url "POST" headers (request_body prompt) ;;
  if negb (ok res) then
    body <- safeText res ;;
    let msg := "API error " +:+ of_Z (status res) +:+ ". " +:+ body in
    if (status res =? 402)%Z then
      throw (Error ("Payment required (402). Provide a valid HF token or try later."
                    +:+ Js.NL +:+ body))
    else if (status res =? 429)%Z then
      throw (Error ("Rate limited (429). Please slow down and try again." +:+ Js.NL +:+ body))
    else if (status res =? 404)%Z || (status res =? 503)%Z then
      throw (Error ("Model is warming up or temporarily unavailable. " +:+ msg))
    else throw (Error msg)
  else await (json_result res).

(** The test of the inner [catch] (line 261). *)
Definition retry_test (e : JsError) : bool :=
  includes "warming up" (error_to_String e)
  || includes "404" (error_to_String e)
  || includes "503" (error_to_String e).

(** The chain of tests on the parsed body (lines 270-274); the result is
    the value assigned to [text]. *)
Definition parse_generation (data : json) : Result json :=
  if Js.isArray data && Js.truthy_opt (first_generated_text data)
  then Ok (present (first_generated_text data))
  else if Js.truthy_opt (Js.opt_prop (Some data) "generated_text")
  then Ok (present (Js.opt_prop (Some data) "generated_text"))
  else if Js.truthy_opt (Js.opt_prop (Some data) "error")
  then Throw (Error (Js.to_String_opt (Js.opt_prop (Some data) "error")))
  else Throw (Error "Unexpected API response.").

Definition token_required : string :=
  "Hugging Face token is required for this endpoint. Create one at hf.co/settings/tokens and paste here.".

(** Lines 269-277: parsing the generation. *)
Definition conclude (data : json) : M Page (option string) :=
  text <- await (parse_generation data) ;;
  ret (Some (firstLine text)).

(** Lines 278-280: the outer [catch]. *)
Definition handler (e : JsError) : M Page (option string) :=
  showError (message_or_self e) ;;; ret None.

Definition callApi (prompt : string) : M Page (option string) :=
  tk <- read (fun d => trim (tokenEl_value d)) ;;
  if is_empty tk then
    showError token_required ;;; ret None
  else
    showSpin true ;;;
    let headers := make_headers tk in
    try_finally
      (try_catch
         (data <- try_catch (attempt headers prompt)
                    (fun e => if retry_test e
                              then sleep 1200 ;;; attempt headers prompt
                              else throw e) ;;
          conclude data)
         handler)
      (showSpin false).


End Retrying.

(** ** [lecture_first/app.js] *)

Record ReviewPage : Type := mkReviewPage {
  apiTokenInput_value : string;
  analyzeBtn_disabled : bool;
  reviewDisplay_textContent : option string;
  errorDiv_textContent : string;
  errorDiv_hidden : bool;
  resultDiv_hidden : bool;
  loadingDiv_hidden : bool;
  (** the result handed to [displaySentimentResult] and rendered by it *)
  displayed : option json
}.

Module LectureFirst.

Definition url : string :=
  "https://api-inference.huggingface.co/models/siebert/sentiment-roberta-large-english".

Definition showError (message : string) : M ReviewPage unit :=
  update (fun d => mkReviewPage (apiTokenInput_value d) false (reviewDisplay_textContent d)
                     message false (resultDiv_hidden d) true (displayed d)).

Definition hideError : M ReviewPage unit :=
  update (fun d => mkReviewPage (apiTokenInput_value d) (analyzeBtn_disabled d)
                     (reviewDisplay_textContent d) EmptyString true
                     (resultDiv_hidden d) (loadingDiv_hidden d) (displayed d)).

(** Lines 67-69 and 76: the page is put in its loading state and the
    chosen review is shown. *)
Definition start (randomReview : option string) : M ReviewPage unit :=
  update (fun d => mkReviewPage (apiTokenInput_value d) true randomReview
                     (errorDiv_textContent d) (errorDiv_hidden d) true false (displayed d)).

(** Lines 126-127. *)
Definition finish : M ReviewPage unit :=
  update (fun d => mkReviewPage (apiTokenInput_value d) false (reviewDisplay_textContent d)
                     (errorDiv_textContent d) (errorDiv_hidden d) (resultDiv_hidden d)
                     true (displayed d)).

(** The icon and the label are functions of [result]; the page records
    the rendered [result] itself.  Reading [result.label] throws for
    [null]. *)
Definition displaySentimentResult (result : json) : M ReviewPage unit :=
  match result with
  | JNull => throw (null_read "label")
  | _ => update (fun d => mkReviewPage (apiTokenInput_value d) (analyzeBtn_disabled d)
                            (reviewDisplay_textContent d) (errorDiv_textContent d)
                            (errorDiv_hidden d) false (loadingDiv_hidden d) (Some result))
  end.

Definition make_headers (apiToken : string) : gmap string string :=
  let headers : gmap string string := {[ "Content-Type" := "application/json" ]} in
  if is_empty apiToken then headers
  else <[ "Authorization" := "Bearer " +:+ apiToken ]> headers.

(** [JSON.stringify({ inputs: randomReview })]; an [undefined] value
    leaves the property out. *)
Definition request_body (randomReview : option string) : Body :=
  BodyText (Js.stringify (JObj (match randomReview with
                                | Some r => [("inputs", JStr r)]
                                | None => []
                                end))).

(** The test of line 112, negated: an array whose first element is a
    non-empty array; the value is [data[0][0]]. *)
Definition first_result (data : json) : option json :=
  match data with
  | JArr (JArr (result :: _) :: _) => Some result
  | _ => None
  end.

(** [reviews] is the list loaded at start-up and [randomIndex] the index
    drawn by [Math.random]. *)
Definition analyzeRandomReview (reviews : list string) (randomIndex : nat)
  : M ReviewPage unit :=
  hideError ;;;
  let randomReview := reviews !! randomIndex in
  start randomReview ;;;
  apiToken <- read (fun d => trim (apiTokenInput_value d)) ;;
  try_finally
    (try_catch
       (response <- fetch url "POST" (make_headers apiToken) (request_body randomReview) ;;
        (if negb (ok response) then
           if (status response =? 503)%Z then
             throw (Error "Model is loading, please try again in a few moments")
           else if (status response =? 429)%Z then
             throw (Error "Rate limit exceeded. Please add an API token for higher limits")
           else if (status response =? 401)%Z then
             throw (Error "Invalid API token provided")
           else throw (Error ("API error: " +:+ of_Z (status response) +:+ " "
                              +:+ statusText response))
         else ret tt) ;;;
        data <- await (json_result response) ;;
        match first_result data with
        | None => throw (Error "Invalid response from API")
        | Some result => displaySentimentResult result
        end)
       (fun error => showError (err_message error)))
    finish.

End LectureFirst.

(** ** [lecture_thirdindex/app.js]: the event logger *)

Record LoggerPage : Type := mkLoggerPage {
  (** value of the [gasUrl] input, [None] when the page has no such input *)
  gasUrl_value : option string;
  status_textContent : string;
  localStorage : gmap string string
}.

(** What the browser supplies to one call: the result of
    [crypto.randomUUID()] ([None] when the function is missing), the text
    of [Math.random().toString(36)] and the value of [Date.now()]. *)
Record Supply : Type := mkSupply {
  randomUUID : option string;
  random36 : string;
  now : Z
}.

(** The argument of [sendLogSimple]; [None] is a missing property. *)
Record Payload : Type := mkPayload {
  p_event : option json;
  p_variant : option json;
  p_userId : option json;
  p_ts : option json;
  p_meta : option json
}.

Module Logger.

Definition LS_KEY_URL : string := "gas_url".
Definition LS_KEY_UID : string := "uid".

Definition getItem (k : string) : M LoggerPage (option string) :=
  read (fun d => localStorage d !! k).

Definition setItem (k v : string) : M LoggerPage unit :=
  update (fun d => mkLoggerPage (gasUrl_value d) (status_textContent d)
                                (<[ k := v ]> (localStorage d))).

Definition set_status (msg : string) : M LoggerPage unit :=
  update (fun d => mkLoggerPage (gasUrl_value d) msg (localStorage d)).

(** [s || empty] for a string or [null]/[undefined], [empty] being the
    empty string. *)
Definition or_empty (s : option string) : string :=
  match s with Some x => x | None => EmptyString end.

(** [crypto?.randomUUID?.() || Math.random().toString(36).slice(2)]. *)
Definition new_id (env : Supply) : string :=
  match randomUUID env with
  | Some u => if is_empty u then slice_from 2 (random36 env) else u
  | None => slice_from 2 (random36 env)
  end.

Definition getUserId (env : Supply) : M LoggerPage string :=
  stored <- getItem LS_KEY_UID ;;
  if is_empty (or_empty stored) then
    let uid := new_id env in
    setItem LS_KEY_UID uid ;;; ret uid
  else ret (or_empty stored).

Definition getGasUrl : M LoggerPage string :=
  input <- read gasUrl_value ;;
  let entered := trim (or_empty input) in
  if negb (is_empty entered) then ret entered
  else
    item <- getItem LS_KEY_URL ;;
    let saved := trim (or_empty item) in
    (if match input with Some _ => negb (is_empty saved) | None => false end
     then update (fun d => mkLoggerPage (Some saved) (status_textContent d) (localStorage d))
     else ret tt) ;;;
    ret saved.

(** [URLSearchParams.prototype.set]. *)
Fixpoint remove_key (k : string) (params : list (string * string)) : list (string * string) :=
  match params with
  | [] => []
  | (k', v') :: r => if String.eqb k k' then remove_key k r else (k', v') :: remove_key k r
  end.

Fixpoint form_set (k v : string) (params : list (string * string)) : list (string * string) :=
  match params with
  | [] => [(k, v)]
  | (k', v') :: r =>
      if String.eqb k k' then (k, v) :: remove_key k r else (k', v') :: form_set k v r
  end.

(** [v || alt]. *)
Definition or_else (v : option json) (alt : json) : json :=
  match v with
  | Some x => if Js.truthy x then x else alt
  | None => alt
  end.

Definition build_form (env : Supply) (payload : Payload) : list (string * string) :=
  let form := [] in
  let form := form_set "event" (Js.to_String (or_else (p_event payload) (JStr EmptyString))) form in
  let form := form_set "variant" (Js.to_String (or_else (p_variant payload) (JStr EmptyString))) form in
  let form := form_set "userId" (Js.to_String (or_else (p_userId payload) (JStr EmptyString))) form in
  let form := form_set "ts" (Js.to_String (or_else (p_ts payload) (JNum (now env)))) form in
  form_set "meta" (Js.stringify (or_else (p_meta payload) (JObj []))) form.

Definition missing_url : string :=
  "Missing Web App URL. Paste it and click Save URL first.".

(** The check mark of the source is written here in its UTF-8 bytes. *)
Definition logged : string := "Logged ✅".

Definition sendLogSimple (env : Supply) (payload : Payload) : M LoggerPage string :=
  url <- getGasUrl ;;
  if is_empty url then
    set_status missing_url ;;; ret "MISSING_URL"
  else
    let form := build_form env payload in
    try_catch
      (res <- fetch url "POST" ∅ (BodyForm form) ;;
       text <- await (text_result res) ;;
       (if negb (ok res)
        then throw (Error ("HTTP " +:+ of_Z (status res) +:+ ": " +:+ text))
        else ret tt) ;;;
       set_status logged ;;;
       ret text)
      (fun err =>
         set_status ("Log failed: " +:+ error_to_String err) ;;;
         ret ("ERROR: " +:+ error_to_String err)).

End Logger.

(** * Vocabulary of the statements

    Nothing below is code of the repository: these are the closed forms,
    the predicates and the sample inputs in which the facts are stated. *)

(** ** Strings *)

Definition starts_with_space (s : string) : bool :=
  match s with String c _ => is_space c | EmptyString => false end.

Fixpoint ends_with_space (s : string) : bool :=
  match s with
  | EmptyString => false
  | String c EmptyString => is_space c
  | String _ r => ends_with_space r
  end.

(** ** Closed forms of the two [callApi] *)

(** The prefix of the body that [safeError] / [safeText] keep. *)
Definition capture (cap : nat) (res : Response) : string :=
  match text_result res with
  | Ok t => slice0 cap t
  | Throw _ => EmptyString
  end.

(** The page after the outer [catch] and [finally] of [callApi]. *)
Definition settled_page (v : Result json) (d : Page) : Page :=
  match v with
  | Ok _ => mkPage (tokenEl_value d) (errEl_textContent d) (errEl_display d) "none"
  | Throw e => mkPage (tokenEl_value d) (message_or_self e) "block" "none"
  end.

(** The value [callApi] returns. *)
Definition returned (v : Result json) : option string :=
  match v with
  | Ok text => Some (firstLine text)
  | Throw _ => None
  end.

Module PermissiveForm.
Import Permissive.

(** The error thrown for a response that is not [ok] (lines 94-99). *)
Definition failure (res : Response) : JsError :=
  if (status res =? 402)%Z then
    Error ("Payment required (402). Provide a valid Hugging Face token or try later."
           +:+ Js.NL +:+ capture 500 res)
  else if (status res =? 429)%Z then
    Error ("Rate limited (429). Please slow down and try again." +:+ Js.NL +:+ capture 500 res)
  else Error ("API error " +:+ of_Z (status res) +:+ "." +:+ Js.NL +:+ capture 500 res).

(** What the answer of the network amounts to: the text taken from the
    body, or the error that reaches the [catch]. *)
Definition verdict (a : Result Response) : Result json :=
  match a with
  | Throw e => Throw e
  | Ok res =>
      if ok res then
        match json_result res with
        | Ok data => parse_generation data
        | Throw e => Throw e
        end
      else Throw (failure res)
  end.

Definition request (tk prompt : string) : Request :=
  mkRequest url "POST" (make_headers tk) (request_body prompt).

End PermissiveForm.

Module RetryingForm.
Import Retrying.

(** The error thrown by [attempt] for a response that is not [ok]
    (lines 244-251). *)
Definition failure (res : Response) : JsError :=
  let body := capture 800 res in
  let msg := "API error " +:+ of_Z (status res) +:+ ". " +:+ body in
  if (status res =? 402)%Z then
    Error ("Payment required (402). Provide a valid HF token or try later." +:+ Js.NL +:+ body)
  else if (status res =? 429)%Z then
    Error ("Rate limited (429). Please slow down and try again." +:+ Js.NL +:+ body)
  else if (status res =? 404)%Z || (status res =? 503)%Z then
    Error ("Model is warming up or temporarily unavailable. " +:+ msg)
  else Error msg.

(** How [attempt] settles on an answer of the network. *)
Definition answer (a : Result Response) : Result json :=
  match a with
  | Throw e => Throw e
  | Ok res => if ok res then json_result res else Throw (failure res)
  end.

(** What the settled attempt amounts to once its data is parsed. *)
Definition verdict (r : Result json) : Result json :=
  match r with
  | Ok data => parse_generation data
  | Throw e => Throw e
  end.

Definition request (tk prompt : string) : Request :=
  mkRequest url "POST" (make_headers tk) (request_body prompt).

(** The world once [req] has been sent. *)
Definition sent (w : World Page) (req : Request) : World Page :=
  mkWorld (net w) (S (fetched w)) (trace w ++ [EvFetch req]) (dom w).

(** Does the call go through the inner [catch] to a second attempt? *)
Definition retried (a : Result json) : bool :=
  match a with
  | Ok _ => false
  | Throw e => retry_test e
  end.

End RetryingForm.

(** ** Sample worlds of the inference pages *)

Module Samples.

Definition page (token : string) : Page := mkPage token EmptyString "none" "none".

Definition refused : Result Response := Throw (mkError "TypeError" "Failed to fetch").

(** A connection refused on a port whose number holds 503. *)
Definition port_refused : Result Response :=
  Throw (mkError "TypeError" "connect ECONNREFUSED 10.0.0.7:5030").

(** A world whose network gives the listed answers, then refuses. *)
Definition world (token : string) (answers : list (Result Response)) : World Page :=
  mkWorld (fun k => nth k answers refused) 0 [] (page token).

Definition json_reply (data : json) : Result Response :=
  Ok (mkResponse 200 "OK" (Ok (Js.stringify data)) (Ok data)).

Definition error_reply (code : Z) (text : string) : Result Response :=
  Ok (mkResponse code EmptyString (Ok text)
        (Throw (mkError "SyntaxError" "Unexpected token"))).

(** What a run returned, the error text on the page, the waits and the
    number of requests. *)
Definition outcome {A} (r : Result A * World Page) : Result A * string * list Z * nat :=
  (fst r, errEl_textContent (dom (snd r)), waits (trace (snd r)),
   length (requests (trace (snd r)))).

Definition positive_body : json :=
  JObj [("generated_text", JStr ("Positive" +:+ Js.NL +:+ "because..."))].

Definition high_body : json := JArr [JObj [("generated_text", JStr "HIGH")]].


End Samples.

(** ** The two scripts side by side *)

Inductive Script : Type := permissive | retrying.

Definition callApi_of (s : Script) (prompt originalText : string) : M Page (option string) :=
  match s with
  | permissive => Permissive.callApi prompt originalText
  | retrying => Retrying.callApi prompt
  end.

Definition parse_generation_of (s : Script) : json -> Result json :=
  match s with
  | permissive => Permissive.parse_generation
  | retrying => Retrying.parse_generation
  end.

(** The script gets as far as its request: the second one needs a token. *)
Definition sends (s : Script) (w : World Page) : Prop :=
  match s with
  | permissive => True
  | retrying => is_empty (trim (tokenEl_value (dom w))) = false
  end.

(** ** Markers of the retry test *)

(** [mismatch m a]: [m] and [a] differ at a position both have. *)
Fixpoint mismatch (m a : string) : bool :=
  match m, a with
  | String x m', String y a' => if Ascii.eqb x y then mismatch m' a' else true
  | _, _ => false
  end.

(** [clear m a]: no occurrence of [m] starts inside [a], whatever text
    follows [a]. *)
Fixpoint clear (m a : string) : bool :=
  match a with
  | EmptyString => true
  | String _ r => mismatch m a && clear m r
  end.

Module RetryForm.
Import Retrying RetryingForm.

(** The body kept by [safeText] carries none of the three markers. *)
Definition marker_free (body : string) : bool :=
  negb (includes "warming up" body) && negb (includes "404" body)
  && negb (includes "503" body).

(** The message shown for the three statuses. *)
Definition classified_message (res : Response) : string :=
  if (status res =? 402)%Z then
    "Payment required (402). Provide a valid HF token or try later." +:+ Js.NL
    +:+ capture 800 res
  else if (status res =? 429)%Z then
    "Rate limited (429). Please slow down and try again." +:+ Js.NL +:+ capture 800 res
  else "API error " +:+ of_Z (status res) +:+ ". " +:+ capture 800 res.

End RetryForm.

(** ** Network failures *)

(** Every request is rejected at network level. *)
Definition rejects_all (w : World Page) : Prop :=
  forall k, exists e, net w k = Throw e.

(** ** Shapes of the body *)

(** The claim's two shapes, in its own words: the generated-text string of
    the first element of an array of result objects, or of a single result
    object. *)
Definition spec_generated_text (data : json) : option string :=
  match data with
  | JArr (JObj fields :: _) | JObj fields =>
      match Js.lookup_field "generated_text" fields with
      | Some (JStr t) => Some t
      | _ => None
      end
  | _ => None
  end.


(** An array whose only element has an empty [generated_text]. *)
Definition empty_generation : json := JArr [JObj [("generated_text", JStr EmptyString)]].


(** A single object whose [generated_text] is a number. *)
Definition numeric_text : json := JObj [("generated_text", JNum 5)].

(** Neither the first element of the array nor the body itself has a
    [generated_text] property. *)
Definition no_generated_text (data : json) : Prop :=
  first_generated_text data = None /\ Js.prop data "generated_text" = None.

(** The second clause of C4 as it is stated, for one script: a 2xx
    response whose body has neither of the two shapes ends in a failure. *)
Definition refuses_every_other_body (s : Script) : Prop :=
  forall (prompt originalText : string) (w : World Page) (res : Response) (data : json),
    sends s w ->
    net w (fetched w) = Ok res ->
    200 <= status res <= 299 ->
    json_result res = Ok data ->
    spec_generated_text data = None ->
    fst (callApi_of s prompt originalText w) = Ok None.

(** The [generated_text] field of the two places of the claim, whatever
    its value: of the first element of an array when that is an object,
    or of a single object. *)
Definition held_generated_text (data : json) : option json :=
  match data with
  | JArr (JObj fields :: _) | JObj fields => Js.lookup_field "generated_text" fields
  | _ => None
  end.

(** What each script takes for the text: the first one the field when it
    is a string, the second one the field when it is truthy. *)
Definition taken_text (s : Script) (data : json) : option json :=
  match s, held_generated_text data with
  | permissive, Some (JStr t) => Some (JStr t)
  | retrying, Some v => if Js.truthy v then Some v else None
  | _, _ => None
  end.

(** The error a body is refused with when no text is taken. *)
Definition refusal (s : Script) (data : json) : JsError :=
  match s, data with
  | permissive, JNull => null_read "generated_text"
  | _, _ =>
      if Js.truthy_opt (Js.prop data "error")
      then Error (Js.to_String_opt (Js.prop data "error"))
      else Error "Unexpected API response."
  end.

(** [String(v)] is the text [Js.to_String v]: the numbers that are
    printed are safe integers, and no object that is printed has a
    [toString] property of its own, which would be asked for the text in
    place of the built-in method and is no function. *)
Fixpoint printable (v : json) : bool :=
  match v with
  | JNum n => Z.abs n <=? 9007199254740991
  | JArr items => forallb printable items
  | JObj fields =>
      match Js.lookup_field "toString" fields with None => true | Some _ => false end
  | _ => true
  end.

(** The index of the last request a run has sent. *)
Definition last_request {A D} (run : Result A * World D) : nat := Nat.pred (fetched (snd run)).

(** ** Requests of [analyzeRandomReview] and of the logger *)

Module LectureFirstForm.
Import LectureFirst.

Definition request (apiToken : string) (randomReview : option string) : Request :=
  mkRequest url "POST" (make_headers apiToken) (request_body randomReview).

End LectureFirstForm.

Module LoggerForm.
Import Logger.

(** The address typed in the input and the one kept in the store. *)
Definition entered (d : LoggerPage) : string := trim (or_empty (gasUrl_value d)).

Definition saved (d : LoggerPage) : string := trim (or_empty (localStorage d !! LS_KEY_URL)).

(** The page after [getGasUrl]: a saved address is copied into an
    empty input. *)
Definition hydrated (d : LoggerPage) : LoggerPage :=
  if negb (is_empty (entered d)) then d
  else match gasUrl_value d with
       | Some _ => if negb (is_empty (saved d))
                   then mkLoggerPage (Some (saved d)) (status_textContent d) (localStorage d)
                   else d
       | None => d
       end.

(** The address [getGasUrl] returns; empty when none is configured. *)
Definition configured (d : LoggerPage) : string :=
  if negb (is_empty (entered d)) then entered d else saved d.

Definition request (url : string) (env : Supply) (payload : Payload) : Request :=
  mkRequest url "POST" ∅ (BodyForm (build_form env payload)).

(** How the request of the logger settles: the text returned, or the
    error that reaches the [catch]. *)
Definition settle (a : Result Response) : Result string :=
  match a with
  | Throw e => Throw e
  | Ok res =>
      match text_result res with
      | Throw e => Throw e
      | Ok text =>
          if ok res then Ok text
          else Throw (Error ("HTTP " +:+ of_Z (status res) +:+ ": " +:+ text))
      end
  end.

End LoggerForm.

(** The body the logger sends for [payload]: the form with the fields
    [event], [variant], [userId], [ts] and [meta], the last being the JSON
    text of the payload's [meta] (of an empty object when it has none). *)
Definition log_form (env : Supply) (payload : Payload) : Body :=
  BodyForm
    [("event", Js.to_String (Logger.or_else (p_event payload) (JStr EmptyString)));
     ("variant", Js.to_String (Logger.or_else (p_variant payload) (JStr EmptyString)));
     ("userId", Js.to_String (Logger.or_else (p_userId payload) (JStr EmptyString)));
     ("ts", Js.to_String (Logger.or_else (p_ts payload) (JNum (now env))));
     ("meta", Js.stringify (Logger.or_else (p_meta payload) (JObj [])))].

(** ** Sample worlds of the logger *)

Definition sample_logger (input : option string) (store : gmap string string)
  : World LoggerPage :=
  mkWorld (fun _ => Ok (mkResponse 200 "OK" (Ok "ok")
                          (Throw (mkError "SyntaxError" "Unexpected token"))))
          0 [] (mkLoggerPage input EmptyString store).

Definition sample_supply : Supply :=
  mkSupply (Some "3b241101-e2bb-4255-8caf-4136c566a962") "0.4fzyo82mvyr" 1700000000000.

Definition sample_payload : Payload :=
  mkPayload (Some (JStr "cta_click")) (Some (JStr "A")) (Some (JStr "u1"))
            (Some (JNum 1700000000001)) (Some (JObj [("page", JStr "/")])).

(** ** The stored user id *)

(** C10 as it is stated, first part: whatever is stored under [uid] is
    returned and the store is left as it is. *)
Definition returns_whatever_is_stored : Prop :=
  forall (env : Supply) (w : World LoggerPage) (v : string),
    localStorage (dom w) !! Logger.LS_KEY_UID = Some v ->
    Logger.getUserId env w = (Ok v, w).

(** * The rest of the scripts

    The handlers around [callApi], the loading of the reviews and the user
    interface of the logger. *)

(** ** Handlers of the inference pages ([unnamed/part_000])

    Both scripts have the same [init], [loadTSV], [onRandom],
    [onSentiment], [onNouns] and [resetUI]; they differ in [callApi]
    only. *)

(** The page of [callApi] together with the review box, the two badges and
    the variables [reviews] and [ready]. *)
Record App : Type := mkApp {
  page : Page;
  reviewEl_value : string;
  sentEl_textContent : string;
  nounEl_textContent : string;
  reviews : list string;
  ready : bool
}.

(** What [Papa.parse(text, { header: true, ... })] returns, as far as the
    scripts look at it: the [text] property of every row of [data]
    ([None] when the row has none) and the messages of [errors]. *)
Record Parsed : Type := mkParsed {
  data_text : list (option string);
  errors_message : list string
}.

(** A value of [Math.random()]: the double
    [draw_mantissa / 2 ^ draw_exponent].  Every double from zero up to,
    but not including, one has this form with a mantissa of at most 53
    bits and an exponent of at most 1074. *)
Record Draw : Type := mkDraw { draw_mantissa : Z; draw_exponent : Z }.

Definition is_double (r : Draw) : Prop :=
  0 <= draw_mantissa r < 2 ^ 53 /\ 0 <= draw_exponent r <= 1074.

Definition below_one (r : Draw) : Prop :=
  is_double r /\ draw_mantissa r < 2 ^ draw_exponent r.

(** The multiplication of two doubles gives the double nearest to the
    exact product, ties going to the even mantissa.  For the integer [p]
    scaled by a power of two that is [p] rounded to 53 significant bits,
    with the same scale. *)
Definition round53 (p : Z) : Z :=
  let bits := Z.log2 p + 1 in
  if bits <=? 53 then p
  else
    let unit := 2 ^ (bits - 53) in
    let q := p / unit in
    let rest := p mod unit in
    unit * (if 2 * rest <? unit then q
            else if unit <? 2 * rest then q + 1
            else if Z.even q then q else q + 1).

(** [Math.floor(Math.random() * len)]: the floor of the rounded
    product. *)
Definition random_index (r : Draw) (len : nat) : nat :=
  Z.to_nat (round53 (draw_mantissa r * Z.of_nat len) / 2 ^ draw_exponent r).

Module Handlers.

(** The dash, the question mark and the other signs the badges show are
    written in their UTF-8 bytes. *)
Definition DASH : string := "—".
Definition QUESTION : string := "❓".
Definition THUMBS_UP : string := "👍".
Definition THUMBS_DOWN : string := "👎".
Definition GREEN : string := "🟢".
Definition YELLOW : string := "🟡".
Definition RED : string := "🔴".

Definition with_page (d : App) (p : Page) : App :=
  mkApp p (reviewEl_value d) (sentEl_textContent d) (nounEl_textContent d)
        (reviews d) (ready d).

(** A computation on the elements of [callApi], run inside the whole
    page. *)
Definition on_page {A} (m : M Page A) : M App A :=
  fun w =>
    match m (mkWorld (net w) (fetched w) (trace w) (page (dom w))) with
    | (r, w') => (r, mkWorld (net w') (fetched w') (trace w') (with_page (dom w) (dom w')))
    end.

Definition resetUI (clearVals : bool) : M App unit :=
  update (fun d =>
            mkApp (mkPage (tokenEl_value (page d)) EmptyString "none"
                          (spinner_display (page d)))
                  (reviewEl_value d)
                  (if clearVals then DASH else sentEl_textContent d)
                  (if clearVals then DASH else nounEl_textContent d)
                  (reviews d) (ready d)).

Definition set_sent (emoji : string) : M App unit :=
  update (fun d => mkApp (page d) (reviewEl_value d) emoji (nounEl_textContent d)
                         (reviews d) (ready d)).

Definition set_noun (badge : string) : M App unit :=
  update (fun d => mkApp (page d) (reviewEl_value d) (sentEl_textContent d) badge
                         (reviews d) (ready d)).

Definition set_review (value : string) : M App unit :=
  update (fun d => mkApp (page d) value (sentEl_textContent d) (nounEl_textContent d)
                         (reviews d) (ready d)).

Definition set_reviews (l : list string) : M App unit :=
  update (fun d => mkApp (page d) (reviewEl_value d) (sentEl_textContent d)
                         (nounEl_textContent d) l (ready d)).

Definition set_ready (b : bool) : M App unit :=
  update (fun d => mkApp (page d) (reviewEl_value d) (sentEl_textContent d)
                         (nounEl_textContent d) (reviews d) b).

Definition sentiment_prompt (text : string) : string :=
  "Classify this review as positive, negative, or neutral: " +:+ text.

Definition nouns_prompt (text : string) : string :=
  "Count the nouns in this review and return only High (>15), Medium (6-15), or Low (<6). "
  +:+ text.

(** Lines 58-61 (200-203). *)
Definition emoji_of (first : string) : string :=
  if includes "positive" first then THUMBS_UP
  else if includes "negative" first then THUMBS_DOWN
  else if includes "neutral" first then QUESTION
  else QUESTION.

(** Lines 73-76 (215-218). *)
Definition badge_of (first : string) : string :=
  if includes "high" first then GREEN
  else if includes "medium" first then YELLOW
  else if includes "low" first then RED
  else DASH.

(** [if (!out) return;]: [null] and the empty string both stop the
    handler. *)
Definition usable (out : option string) : option string :=
  match out with
  | Some first => if is_empty first then None else Some first
  | None => None
  end.

Definition onSentiment (s : Script) : M App unit :=
  resetUI true ;;;
  text <- read (fun d => trim (reviewEl_value d)) ;;
  if is_empty text then on_page (showError "Please provide review text.")
  else
    out <- on_page (callApi_of s (sentiment_prompt text) text) ;;
    match usable out with
    | None => ret tt
    | Some first => set_sent (emoji_of first)
    end.

Definition onNouns (s : Script) : M App unit :=
  resetUI true ;;;
  text <- read (fun d => trim (reviewEl_value d)) ;;
  if is_empty text then on_page (showError "Please provide review text.")
  else
    out <- on_page (callApi_of s (nouns_prompt text) text) ;;
    match usable out with
    | None => ret tt
    | Some first => set_noun (badge_of first)
    end.

(** [r] is what [Math.random()] gives; an index outside the list reads
    [undefined], which the input shows as text. *)
Definition onRandom (r : Draw) : M App unit :=
  resetUI false ;;;
  loaded <- read (fun d => (ready d, reviews d)) ;;
  if negb (fst loaded) || (length (snd loaded) =? 0)%nat
  then on_page (showError "Data not loaded.")
  else
    let i := random_index r (length (snd loaded)) in
    set_review (match snd loaded !! i with Some v => v | None => "undefined" end).

(** [(r.text ?? empty).toString().trim()] over the rows, then
    [filter(Boolean)]. *)
Definition row_texts (rows : list (option string)) : list string :=
  filter (fun t => is_empty t = false)
         (map (fun t => trim (match t with Some x => x | None => EmptyString end)) rows).

Section Loading.

(** The parser of the TSV library. *)
Variable Papa_parse : string -> Parsed.

(** [file] is how the request for [reviews_test.tsv] settles; that request
    is not entered in the trace, which holds the requests to the
    inference service. *)
Definition loadTSV (file : Result Response) : M App unit :=
  resetUI true ;;;
  try_catch
    (res <- await file ;;
     (if negb (ok res)
      then throw (Error ("TSV load failed: " +:+ of_Z (status res)))
      else ret tt) ;;;
     text <- await (text_result res) ;;
     let parsed := Papa_parse text in
     set_reviews (row_texts (data_text parsed)) ;;;
     loaded <- read reviews ;;
     if (length loaded =? 0)%nat
     then throw (Error "No review texts found in TSV")
     else ret tt)
    (fun e => on_page (showError ("Failed to load TSV." +:+ Js.NL +:+ message_or_self e))).

(** [loadTSV().finally(() => (ready = true))]; the listeners are the three
    handlers above. *)
Definition init (file : Result Response) : M App unit :=
  try_finally (loadTSV file) (set_ready true).

End Loading.

End Handlers.

(** ** Loading the reviews in [lecture_first/app.js] *)

Module LectureFirstLoad.
Import LectureFirst.

Definition set_disabled (b : bool) : M ReviewPage unit :=
  update (fun d => mkReviewPage (apiTokenInput_value d) b (reviewDisplay_textContent d)
                     (errorDiv_textContent d) (errorDiv_hidden d) (resultDiv_hidden d)
                     (loadingDiv_hidden d) (displayed d)).

(** [data.map(row => row.text).filter(text => text && text.trim() !== empty)]. *)
Definition kept_texts (rows : list (option string)) : list string :=
  omap (fun t => match t with
                 | Some x => if negb (is_empty x) && negb (is_empty (trim x))
                             then Some x else None
                 | None => None
                 end) rows.

Section Loading.

Variable Papa_parse : string -> Parsed.

(** Lines 13-54: the value is what the variable [reviews] holds in the
    end; [file] is how the request for [reviews_test.tsv] settles. *)
Definition load (file : Result Response) : M ReviewPage (list string) :=
  set_disabled true ;;;
  try_catch
    (response <- await file ;;
     tsvData <- await (text_result response) ;;
     let parsedData := Papa_parse tsvData in
     match errors_message parsedData with
     | message :: _ => showError ("Error parsing TSV file: " +:+ message) ;;; ret []
     | [] =>
         let reviews := kept_texts (data_text parsedData) in
         if (length reviews =? 0)%nat
         then showError "No reviews found in the TSV file" ;;; ret reviews
         else set_disabled false ;;; ret reviews
     end)
    (fun error => showError ("Error loading TSV file: " +:+ err_message error) ;;; ret []).

End Loading.

End LectureFirstLoad.

(** ** The user interface of the logger ([lecture_thirdindex/app.js]) *)

Module LoggerUI.
Import Logger.

Section Saving.

(** [new URL(url)] succeeds. *)
Variable URL_valid : string -> bool.

Definition saveGasUrl : M LoggerPage unit :=
  input <- read gasUrl_value ;;
  let url := trim (or_empty input) in
  if is_empty url then
    set_status "Please paste your Apps Script Web App URL (ending with /exec)."
  else if negb (URL_valid url) then set_status "Invalid URL format."
  else setItem LS_KEY_URL url ;;; set_status "Saved Web App URL.".

End Saving.

(** The first lines of [init] (96-102) and the call of [getUserId]
    (106); the value is [userId]. *)
Definition init (env : Supply) : M LoggerPage string :=
  saved <- getItem LS_KEY_URL ;;
  (if negb (is_empty (or_empty saved)) then
     update (fun d => mkLoggerPage (match gasUrl_value d with
                                    | Some _ => Some (or_empty saved)
                                    | None => None
                                    end)
                                   "Loaded saved Web App URL." (localStorage d))
   else ret tt) ;;;
  getUserId env.

(** [baseMeta]. *)
Definition baseMeta (pathname userAgent : string) : json :=
  JObj [("page", JStr pathname); ("ua", JStr userAgent)].

(** The three listeners (lines 109-119); [clicked] is the value of
    [Date.now()] in the listener. *)
Definition ctaA (userId : string) (meta : json) (clicked : Z) (env : Supply)
  : M LoggerPage string :=
  sendLogSimple env (mkPayload (Some (JStr "cta_click")) (Some (JStr "A"))
                               (Some (JStr userId)) (Some (JNum clicked)) (Some meta)).

Definition ctaB (userId : string) (meta : json) (clicked : Z) (env : Supply)
  : M LoggerPage string :=
  sendLogSimple env (mkPayload (Some (JStr "cta_click")) (Some (JStr "B"))
                               (Some (JStr userId)) (Some (JNum clicked)) (Some meta)).

Definition heartbeat (userId : string) (meta : json) (clicked : Z) (env : Supply)
  : M LoggerPage string :=
  sendLogSimple env (mkPayload (Some (JStr "heartbeat")) None
                               (Some (JStr userId)) (Some (JNum clicked)) (Some meta)).

End LoggerUI.

(** ** The earlier copy of the page ([unnamed/part_001])

    The same page as [lecture_first/app.js] before its last changes:
    [showError], [hideError] and the body of [displaySentimentResult] are
    the same and are taken from [LectureFirst]. *)

Module EarlierCopy.
Import LectureFirst.

(** The [TypeError] of reading property [k] of [undefined]; as for
    [null_read] the wording is the engine's. *)
Definition undefined_read (k : string) : JsError :=
  mkError "TypeError" ("Cannot read properties of undefined (reading '" +:+ k +:+ "')").

(** [v[0]]; [None] is [undefined].  Reading it throws for [null]; a string
    gives its first code unit, an object its property named [0]. *)
Definition item0 (v : json) : Result (option json) :=
  match v with
  | JNull => Throw (null_read "0")
  | JArr (x :: _) => Ok (Some x)
  | JArr [] => Ok None
  | JStr (String c _) => Ok (Some (JStr (String c EmptyString)))
  | JStr EmptyString => Ok None
  | JObj fields => Ok (Js.lookup_field "0" fields)
  | JNum _ | JBool _ => Ok None
  end.

(** [displaySentimentResult(result, review)]: reading [result.label]
    throws for [undefined] as it does for [null]. *)
Definition displaySentimentResult (result : option json) : M ReviewPage unit :=
  match result with
  | None => throw (undefined_read "label")
  | Some r => LectureFirst.displaySentimentResult r
  end.

Definition analyzeRandomReview (reviews : list string) (randomIndex : nat)
  : M ReviewPage unit :=
  hideError ;;;
  let randomReview := reviews !! randomIndex in
  start randomReview ;;;
  apiToken <- read (fun d => trim (apiTokenInput_value d)) ;;
  try_finally
    (try_catch
       (response <- fetch url "POST" (make_headers apiToken) (request_body randomReview) ;;
        (if negb (ok response) then
           if (status response =? 503)%Z then
             throw (Error "Model is loading, please try again in a few moments")
           else if (status response =? 429)%Z then
             throw (Error "Rate limit exceeded. Please add an API token for higher limits")
           else throw (Error ("API error: " +:+ of_Z (status response) +:+ " "
                              +:+ statusText response))
         else ret tt) ;;;
        data <- await (json_result response) ;;
        if negb (Js.nonempty data) then throw (Error "Invalid response from API")
        else
          result <- await (match Js.first_item data with
                           | Some first => item0 first
                           | None => Ok None
                           end) ;;
          displaySentimentResult result)
       (fun error => showError (err_message error)))
    finish.

Section Loading.

Variable Papa_parse : string -> Parsed.

(** Lines 11-39: as in [lecture_first/app.js], but the button is not
    disabled first. *)
Definition load (file : Result Response) : M ReviewPage (list string) :=
  try_catch
    (response <- await file ;;
     tsvData <- await (text_result response) ;;
     let parsedData := Papa_parse tsvData in
     match errors_message parsedData with
     | message :: _ => showError ("Error parsing TSV file: " +:+ message) ;;; ret []
     | [] =>
         let reviews := LectureFirstLoad.kept_texts (data_text parsedData) in
         if (length reviews =? 0)%nat
         then showError "No reviews found in the TSV file" ;;; ret reviews
         else LectureFirstLoad.set_disabled false ;;; ret reviews
     end)
    (fun error => showError ("Error loading TSV file: " +:+ err_message error) ;;; ret []).

End Loading.

End EarlierCopy.

(** ** Vocabulary of the further facts *)

(** Every character of [s] satisfies [P]. *)
Fixpoint all_chars (P : ascii -> bool) (s : string) : bool :=
  match s with
  | EmptyString => true
  | String c r => P c && all_chars P r
  end.

Definition not_LF (c : ascii) : bool := negb (Ascii.eqb c LF).

Definition not_upper (c : ascii) : bool := negb (is_upper c).

(** A review as the loaders keep it: not blank. *)
Definition not_blank (t : string) : Prop := trim t <> EmptyString.

(** The body [callApi] sends for [prompt], spelled out. *)
Definition inputs_json (prompt : string) : Body :=
  BodyText ("{" +:+ Js.DQ +:+ "inputs" +:+ Js.DQ +:+ ":" +:+ Js.quote prompt +:+ "}").

Module Samples2.

Definition app (token review : string) (loaded : list string) (isReady : bool) : App :=
  mkApp (Samples.page token) review Handlers.DASH Handlers.DASH loaded isReady.

Definition app_world (token review : string) (loaded : list string) (isReady : bool)
           (answers : list (Result Response)) : World App :=
  mkWorld (fun k => nth k answers Samples.refused) 0 [] (app token review loaded isReady).

(** Three values of [Math.random()]: 0.5, 0.6666666666666666 and the
    largest double below one. *)
Definition half : Draw := mkDraw 1 1.

Definition two_thirds : Draw := mkDraw 6004799503160661 53.

Definition largest : Draw := mkDraw 9007199254740991 53.

Definition review_page (token : string) : ReviewPage :=
  mkReviewPage token true None EmptyString true true true None.

Definition review_world (token : string) (answers : list (Result Response))
  : World ReviewPage :=
  mkWorld (fun k => nth k answers Samples.refused) 0 [] (review_page token).

(** A parser that gives one row for every line of the two-line file
    below, and nothing for any other text. *)
Definition two_rows (text : string) : Parsed :=
  if String.eqb text "file"
  then mkParsed [Some " Great phone "; None; Some "  "; Some "Bad battery"] []
  else mkParsed [] [].

Definition tsv_file : Result Response :=
  Ok (mkResponse 200 "OK" (Ok "file") (Throw (mkError "SyntaxError" "Unexpected token"))).

End Samples2.

(** What every request of [callApi] looks like. *)
Definition inference_request (s : Script) (tk prompt : string) (r : Request) : Prop :=
  req_method r = "POST"
  /\ req_body r = inputs_json prompt
  /\ req_headers r !! "Content-Type" = Some "application/json"
  /\ match s with
     | permissive => req_url r = Permissive.url
     | retrying =>
         req_url r = Retrying.url
         /\ req_headers r !! "Authorization" = Some ("Bearer " +:+ tk)
         /\ req_headers r !! "Accept" = Some "application/json"
         /\ (forall k, k <> "Content-Type" -> k <> "Authorization" -> k <> "Accept" ->
                       req_headers r !! k = None)
     end.

Module HandlersForm.
Import Handlers.

(** The page after [resetUI(clearVals)]. *)
Definition reset (clearVals : bool) (d : App) : App :=
  mkApp (mkPage (tokenEl_value (page d)) EmptyString "none" (spinner_display (page d)))
        (reviewEl_value d)
        (if clearVals then DASH else sentEl_textContent d)
        (if clearVals then DASH else nounEl_textContent d)
        (reviews d) (ready d).

(** The world in which a handler calls [callApi]: the one it was started
    in, after [resetUI()], seen through the elements of [callApi]. *)
Definition call_world (w : World App) : World Page :=
  mkWorld (net w) (fetched w) (trace w) (page (reset true (dom w))).

(** The call a handler makes for the review in the box. *)
Definition sentiment_call (s : Script) (w : World App) : Result (option string) * World Page :=
  let text := trim (reviewEl_value (dom w)) in
  callApi_of s (sentiment_prompt text) text (call_world w).

Definition nouns_call (s : Script) (w : World App) : Result (option string) * World Page :=
  let text := trim (reviewEl_value (dom w)) in
  callApi_of s (nouns_prompt text) text (call_world w).

(** The label a call hands to its handler, if any. *)
Definition label_of (call : Result (option string) * World Page) : option string :=
  match fst call with
  | Ok out => usable out
  | Throw _ => None
  end.

End HandlersForm.

(** A review as [loadTSV] keeps it: not empty and already trimmed. *)
Definition clean (t : string) : Prop := t <> EmptyString /\ trim t = t.

Module ReviewForm.
Import LectureFirst.

(** The message for a response that is not [ok] (lines 98-106). *)
Definition status_message (res : Response) : string :=
  if (status res =? 503)%Z then "Model is loading, please try again in a few moments"
  else if (status res =? 429)%Z then
    "Rate limit exceeded. Please add an API token for higher limits"
  else if (status res =? 401)%Z then "Invalid API token provided"
  else "API error: " +:+ of_Z (status res) +:+ " " +:+ statusText res.

(** What an answer of the network amounts to in [analyzeRandomReview]:
    the result that is displayed, or the error that reaches the [catch]. *)
Definition verdict (a : Result Response) : Result json :=
  match a with
  | Throw e => Throw e
  | Ok res =>
      if ok res then
        match json_result res with
        | Throw e => Throw e
        | Ok data =>
            match first_result data with
            | None => Throw (Error "Invalid response from API")
            | Some JNull => Throw (null_read "label")
            | Some result => Ok result
            end
        end
      else Throw (Error (status_message res))
  end.

(** The page after the call. *)
Definition final_page (v : Result json) (randomReview : option string) (d : ReviewPage)
  : ReviewPage :=
  match v with
  | Ok result =>
      mkReviewPage (apiTokenInput_value d) false randomReview EmptyString true false true
                   (Some result)
  | Throw e =>
      mkReviewPage (apiTokenInput_value d) false randomReview (err_message e) false true true
                   (displayed d)
  end.

End ReviewForm.

Module LoggerUIForm.

(** The world when the input of the address holds [v] ([None]: the page
    has no such input). *)
Definition with_input (v : option string) (w : World LoggerPage) : World LoggerPage :=
  mkWorld (net w) (fetched w) (trace w)
          (mkLoggerPage v (status_textContent (dom w)) (localStorage (dom w))).

(** The JSON text of [baseMeta], spelled out. *)
Definition meta_text (pathname userAgent : string) : string :=
  "{" +:+ Js.DQ +:+ "page" +:+ Js.DQ +:+ ":" +:+ Js.quote pathname +:+ ","
      +:+ Js.DQ +:+ "ua" +:+ Js.DQ +:+ ":" +:+ Js.quote userAgent +:+ "}".

(** The event a listener sends. *)
Definition event_request (url event variant userId : string) (clicked : Z)
           (pathname userAgent : string) : Request :=
  mkRequest url "POST" ∅
            (BodyForm [("event", event); ("variant", variant); ("userId", userId);
                       ("ts", of_Z clicked); ("meta", meta_text pathname userAgent)]).

End LoggerUIForm.

Module EarlierForm.
Import LectureFirst EarlierCopy.

(** What an answer of the network amounts to in the earlier
    [analyzeRandomReview]. *)
Definition verdict (a : Result Response) : Result json :=
  match a with
  | Throw e => Throw e
  | Ok res =>
      if ok res then
        match json_result res with
        | Throw e => Throw e
        | Ok (JArr (first :: _)) =>
            match item0 first with
            | Throw e => Throw e
            | Ok None => Throw (undefined_read "label")
            | Ok (Some JNull) => Throw (null_read "label")
            | Ok (Some result) => Ok result
            end
        | Ok _ => Throw (Error "Invalid response from API")
        end
      else
        Throw (Error (if (status res =? 503)%Z then
                        "Model is loading, please try again in a few moments"
                      else if (status res =? 429)%Z then
                        "Rate limit exceeded. Please add an API token for higher limits"
                      else "API error: " +:+ of_Z (status res) +:+ " " +:+ statusText res))
  end.

End EarlierForm.

(** * Facts *)

(** ** Sample evaluations of the conversions *)

Example trim_ex : trim "  Hi there
 " = "Hi there".
Proof. reflexivity. Qed.

Example of_Z_ex : of_Z 404 = "404" /\ of_Z 0 = "0" /\ of_Z (-3) = "-3".
Proof. vm_compute. auto. Qed.

Example includes_ex : includes "404" "API error 404. x" = true /\ includes "503" "abc" = false
  /\ includes EmptyString EmptyString = true.
Proof. vm_compute. auto. Qed.

Example stringify_ex :
  Js.stringify (JObj [("inputs", JStr ("a" +:+ Js.DQ +:+ Js.NL +:+ "b"))])
  = "{" +:+ Js.DQ +:+ "inputs" +:+ Js.DQ +:+ ":" +:+ Js.DQ
    +:+ "a" +:+ Js.BSL +:+ Js.DQ +:+ Js.BSL +:+ "nb" +:+ Js.DQ +:+ "}".
Proof. vm_compute. reflexivity. Qed.

Example to_String_ex :
  Js.to_String (JArr [JNum 1; JNull; JStr "x"; JArr [JBool true; JObj []]])
  = "1,,x,true,[object Object]".
Proof. vm_compute. reflexivity. Qed.

(** ** Strings *)

Section StringFacts.

Lemma slice0_length (n : nat) (s : string) :
  (String.length (slice0 n s) <= n)%nat.
Proof.
  revert s; induction n as [|n IH]; intros [|c r]; simpl; try lia.
  specialize (IH r); lia.
Qed.

Lemma slice0_prefix (n : nat) (s : string) :
  s = slice0 n s +:+ slice_from n s.
Proof.
  revert s; induction n as [|n IH]; intros [|c r]; try reflexivity.
  transitivity (String c (slice0 n r +:+ slice_from n r));
    [f_equal; apply IH | reflexivity].
Qed.

Lemma slice0_short (n : nat) (s : string) :
  (String.length s <= n)%nat -> slice0 n s = s.
Proof.
  revert s; induction n as [|n IH]; intros [|c r]; simpl; intros H;
    try reflexivity; try lia.
  rewrite IH; [reflexivity | lia].
Qed.

Lemma slice0_long (n : nat) (s : string) :
  (n <= String.length s)%nat -> String.length (slice0 n s) = n.
Proof.
  revert s; induction n as [|n IH]; intros [|c r]; simpl; intros H;
    try reflexivity; try lia.
  rewrite IH; [reflexivity | lia].
Qed.

Lemma is_empty_true (s : string) : is_empty s = true <-> s = EmptyString.
Proof. destruct s; simpl; split; congruence. Qed.

Lemma is_empty_false (s : string) : is_empty s = false <-> s <> EmptyString.
Proof. destruct s; simpl; split; congruence. Qed.

Lemma first_line_split (s : string) :
  s = first_line s \/ exists rest, s = first_line s +:+ String LF rest.
Proof.
  induction s as [|c r IH]; simpl; [now left|].
  destruct (Ascii.eqb c LF) eqn:E.
  - apply Ascii.eqb_eq in E; subst c. right. now exists r.
  - destruct IH as [IH | [rest IH]].
    + left. now rewrite <- IH.
    + right. exists rest.
      transitivity (String c (first_line r +:+ String LF rest));
        [f_equal; exact IH | reflexivity].
Qed.

Lemma first_line_no_LF (s : string) : includes (String LF EmptyString) (first_line s) = false.
Proof.
  induction s as [|c r IH]; [reflexivity|].
  simpl first_line. destruct (Ascii.eqb c LF) eqn:E; [reflexivity|].
  change (includes (String LF EmptyString) (String c (first_line r)))
    with (String.prefix (String LF EmptyString) (String c (first_line r))
          || includes (String LF EmptyString) (first_line r)).
  rewrite IH, orb_false_r.
  change (String.prefix (String LF EmptyString) (String c (first_line r)))
    with (if ascii_dec LF c then String.prefix EmptyString (first_line r) else false).
  destruct (ascii_dec LF c) as [<-|]; [|reflexivity].
  now rewrite Ascii.eqb_refl in E.
Qed.

Lemma toLowerCase_length (s : string) :
  String.length (toLowerCase s) = String.length s.
Proof. induction s; simpl; congruence. Qed.

Lemma lower_char_not_upper (c : ascii) : is_upper (lower_char c) = false.
Proof.
  destruct c as [[] [] [] [] [] [] [] []]; vm_compute; reflexivity.
Qed.

(** No character of a lower-cased string has a lower-case mapping left. *)
Lemma toLowerCase_idempotent (s : string) : toLowerCase (toLowerCase s) = toLowerCase s.
Proof.
  induction s as [|c r IH]; simpl; [reflexivity|].
  rewrite IH. f_equal. unfold lower_char at 1. now rewrite lower_char_not_upper.
Qed.

Lemma trimStart_no_space (s : string) : starts_with_space (trimStart s) = false.
Proof.
  induction s as [|c r IH]; simpl; [reflexivity|].
  destruct (is_space c) eqn:E; [exact IH | simpl; exact E].
Qed.

Lemma trimEnd_no_space (s : string) : ends_with_space (trimEnd s) = false.
Proof.
  induction s as [|c r IH]; simpl; [reflexivity|].
  destruct (trimEnd r) as [|c' r'] eqn:E.
  - destruct (is_space c) eqn:Ec; simpl; [reflexivity | exact Ec].
  - exact IH.
Qed.

Lemma trimEnd_keeps_start (s : string) :
  starts_with_space s = false -> starts_with_space (trimEnd s) = false.
Proof.
  destruct s as [|c r]; simpl; [reflexivity|]. intros E.
  destruct (trimEnd r); [rewrite E|]; simpl; auto.
Qed.

(** A trimmed string neither starts nor ends with white space. *)
Lemma trim_no_space (s : string) :
  starts_with_space (trim s) = false /\ ends_with_space (trim s) = false.
Proof.
  unfold trim. split.
  - apply trimEnd_keeps_start, trimStart_no_space.
  - apply trimEnd_no_space.
Qed.

End StringFacts.

(** ** Traces *)

Lemma requests_app (t u : list Event) : requests (t ++ u) = requests t ++ requests u.
Proof. apply omap_app. Qed.

Lemma waits_app (t u : list Event) : waits (t ++ u) = waits t ++ waits u.
Proof. apply omap_app. Qed.

Lemma requests_snoc_fetch (t : list Event) (r : Request) :
  requests (t ++ [EvFetch r]) = requests t ++ [r].
Proof. now rewrite requests_app. Qed.

Lemma waits_snoc_fetch (t : list Event) (r : Request) :
  waits (t ++ [EvFetch r]) = waits t.
Proof. rewrite waits_app. apply List.app_nil_r. Qed.

(** ** Closed forms of the two [callApi] *)

Ltac run_effects :=
  cbv beta iota delta [bind read try_finally try_catch showSpin showError update sleep emit
                       throw ret await fetch];
  cbn [dom net fetched trace fst snd].

Module PermissiveFacts.
Import Permissive.
Import PermissiveForm.

Lemma safeError_eq (res : Response) (w : World Page) :
  safeError res w = (Ok (capture 500 res), w).
Proof. unfold safeError, capture. run_effects. destruct (text_result res); reflexivity. Qed.

Lemma permissive_callApi_eq (prompt originalText : string) (w : World Page) :
  callApi prompt originalText w =
  let v := verdict (net w (fetched w)) in
  (Ok (returned v),
   mkWorld (net w) (S (fetched w))
     (trace w ++ [EvFetch (request (trim (tokenEl_value (dom w))) prompt)])
     (settled_page v (dom w))).
Proof.
  unfold callApi, verdict, request, failure. run_effects.
  destruct (net w (fetched w)) as [res|e]; [|reflexivity].
  destruct (ok res); cbn [negb].
  - destruct (json_result res) as [data|e]; [|reflexivity].
    destruct (parse_generation data); reflexivity.
  - rewrite safeError_eq.
    repeat match goal with |- context [if ?b then _ else _] => destruct b end; reflexivity.
Qed.

End PermissiveFacts.

Module RetryingFacts.
Import Retrying.
Import RetryingForm.

Lemma safeText_eq (res : Response) (w : World Page) :
  safeText res w = (Ok (capture 800 res), w).
Proof. unfold safeText, capture. run_effects. destruct (text_result res); reflexivity. Qed.

Lemma attempt_eq (tk prompt : string) (w : World Page) :
  attempt (make_headers tk) prompt w
  = (answer (net w (fetched w)), sent w (request tk prompt)).
Proof.
  unfold attempt, answer, sent, request, failure. run_effects.
  destruct (net w (fetched w)) as [res|e]; [|reflexivity].
  destruct (ok res); cbn [negb]; [reflexivity|].
  rewrite safeText_eq.
  repeat match goal with |- context [if ?b then _ else _] => destruct b end; reflexivity.
Qed.


Lemma callApi_eq (prompt : string) (w : World Page) :
  let tk := trim (tokenEl_value (dom w)) in
  is_empty tk = false ->
  callApi prompt w =
  let req := request tk prompt in
  let first := answer (net w (fetched w)) in
  let final := if retried first then answer (net w (S (fetched w))) else first in
  let v := verdict final in
  (Ok (returned v),
   mkWorld (net w)
     (if retried first then S (S (fetched w)) else S (fetched w))
     (trace w ++ if retried first then [EvFetch req; EvSleep 1200; EvFetch req]
                 else [EvFetch req])
     (settled_page v (dom w))).
Proof.
  intros tk Htk. unfold callApi, conclude, handler. run_effects.
  fold tk. rewrite Htk. rewrite attempt_eq. unfold sent at 1. cbn [dom net fetched trace].
  destruct (answer (net w (fetched w))) as [data|e] eqn:E1; cbn [retried].
  - unfold verdict. destruct (parse_generation data); reflexivity.
  - destruct (retry_test e).
    + rewrite attempt_eq. unfold sent. cbn [dom net fetched trace].
      rewrite <- !app_assoc. cbn [app].
      unfold verdict.
      destruct (answer (net w (S (fetched w)))) as [data|e2]; [|reflexivity].
      destruct (parse_generation data); reflexivity.
    + reflexivity.
Qed.

Lemma callApi_no_token (prompt : string) (w : World Page) :
  is_empty (trim (tokenEl_value (dom w))) = true ->
  callApi prompt w =
  (Ok None, mkWorld (net w) (fetched w) (trace w)
              (mkPage (tokenEl_value (dom w)) token_required "block"
                      (spinner_display (dom w)))).
Proof. intros H. unfold callApi. run_effects. rewrite H. reflexivity. Qed.

(** A warm-up status always passes the test of the inner [catch]. *)
Lemma warmup_retried (res : Response) :
  status res = 404 \/ status res = 503 ->
  ok res = false /\ retry_test (failure res) = true.
Proof.
  intros [H | H]; unfold ok, failure; rewrite H; split; reflexivity.
Qed.

(** After a warm-up answer the second answer alone decides. *)
Lemma callApi_warmup (prompt : string) (w : World Page) (res : Response) :
  is_empty (trim (tokenEl_value (dom w))) = false ->
  net w (fetched w) = Ok res ->
  status res = 404 \/ status res = 503 ->
  callApi prompt w =
  let req := request (trim (tokenEl_value (dom w))) prompt in
  let v := verdict (answer (net w (S (fetched w)))) in
  (Ok (returned v),
   mkWorld (net w) (S (S (fetched w)))
     (trace w ++ [EvFetch req; EvSleep 1200; EvFetch req])
     (settled_page v (dom w))).
Proof.
  intros Htk Hnet Hst.
  destruct (warmup_retried res Hst) as [Hok Hre].
  assert (E : answer (net w (fetched w)) = Throw (failure res))
    by (unfold answer; now rewrite Hnet, Hok).
  rewrite callApi_eq by exact Htk. cbn zeta.
  rewrite E. cbn [retried]. now rewrite Hre.
Qed.

End RetryingFacts.

Example retry_then_success :
  Samples.outcome
    (Retrying.callApi "p"
       (Samples.world "tok" [Samples.error_reply 503 "loading";
                             Samples.json_reply Samples.high_body]))
  = (Ok (Some "high"), EmptyString, [1200], 2%nat).
Proof. vm_compute. reflexivity. Qed.

Example permissive_first_line :
  Samples.outcome
    (Permissive.callApi "p" "t"
       (Samples.world EmptyString [Samples.json_reply Samples.positive_body]))
  = (Ok (Some "positive"), EmptyString, [], 1%nat).
Proof. vm_compute. reflexivity. Qed.

(** ** The two scripts side by side *)


(** * The inference routine *)

(** ** Retry after a warm-up failure *)



(** The first answer is discarded: two worlds that differ only in a
    warm-up answer to the first request end alike. *)
Corollary warmup_answer_discarded (prompt : string) (w w' : World Page) (res res' : Response) :
  is_empty (trim (tokenEl_value (dom w))) = false ->
  dom w' = dom w -> fetched w' = fetched w -> trace w' = trace w ->
  (forall k, k <> fetched w -> net w' k = net w k) ->
  net w (fetched w) = Ok res -> status res = 404 \/ status res = 503 ->
  net w' (fetched w) = Ok res' -> status res' = 404 \/ status res' = 503 ->
  fst (Retrying.callApi prompt w') = fst (Retrying.callApi prompt w)
  /\ dom (snd (Retrying.callApi prompt w')) = dom (snd (Retrying.callApi prompt w))
  /\ trace (snd (Retrying.callApi prompt w')) = trace (snd (Retrying.callApi prompt w)).
Proof.
  intros Htk Hd Hf Ht Hn Hnet Hst Hnet' Hst'.
  rewrite (RetryingFacts.callApi_warmup prompt w res) by assumption.
  rewrite (RetryingFacts.callApi_warmup prompt w' res') by (rewrite ?Hd, ?Hf; assumption).
  cbn [fst snd dom trace]. rewrite Hd, Hf, Ht.
  rewrite (Hn (S (fetched w))) by lia. repeat split.
Qed.

(** ** Which failures are retried *)

Section Markers.

Lemma mismatch_prefix (m a b : string) :
  mismatch m a = true -> String.prefix m (a +:+ b) = false.
Proof.
  revert a; induction m as [|x m IH]; intros [|y a]; simpl; try discriminate.
  destruct (ascii_dec x y) as [->|Hne].
  - rewrite Ascii.eqb_refl. apply IH.
  - reflexivity.
Qed.

Lemma clear_includes (m a b : string) :
  clear m a = true -> includes m (a +:+ b) = includes m b.
Proof.
  induction a as [|c a IH]; [reflexivity|].
  intros H. apply andb_true_iff in H as [Hm Hc].
  change (includes m (String c a +:+ b))
    with (String.prefix m (String c a +:+ b) || includes m (a +:+ b)).
  now rewrite (mismatch_prefix m (String c a) b Hm), IH.
Qed.

Lemma includes_app_r (m a b : string) :
  includes m b = true -> includes m (a +:+ b) = true.
Proof.
  intros H. induction a as [|c a IH]; [exact H|].
  change (includes m (String c a +:+ b))
    with (String.prefix m (String c a +:+ b) || includes m (a +:+ b)).
  rewrite IH. apply orb_true_r.
Qed.

Lemma error_string_app (a b : string) :
  is_empty a = false -> error_to_String (Error (a +:+ b)) = "Error: " +:+ a +:+ b.
Proof. destruct a; [discriminate | reflexivity]. Qed.

End Markers.

Module RetryFacts.
Import Retrying RetryingForm RetryingFacts.
Import RetryForm.

Lemma marker_free_spec (body : string) :
  marker_free body = true ->
  includes "warming up" body = false /\ includes "404" body = false
  /\ includes "503" body = false.
Proof.
  unfold marker_free. rewrite !andb_true_iff, !negb_true_iff. tauto.
Qed.

Ltac skip_literal lit body H :=
  match goal with
  | |- context [includes ?m ?s] =>
      change s with (lit +:+ body);
      rewrite (clear_includes m lit body) by reflexivity; rewrite H
  end.

(** Status 402, 429 or 401 with a marker-free body: the inner [catch]
    rethrows. *)
Lemma classified_not_retried (res : Response) :
  status res = 402 \/ status res = 429 \/ status res = 401 ->
  marker_free (capture 800 res) = true ->
  retry_test (failure res) = false.
Proof.
  intros Hst Hfree. apply marker_free_spec in Hfree as (H1 & H2 & H3).
  unfold failure, retry_test.
  destruct Hst as [H | [H | H]]; rewrite H; cbn [Z.eqb Pos.eqb orb];
    set (body := capture 800 res) in *.
  - skip_literal ("Error: Payment required (402). Provide a valid HF token or try later."
                  +:+ Js.NL) body H1.
    skip_literal ("Error: Payment required (402). Provide a valid HF token or try later."
                  +:+ Js.NL) body H2.
    skip_literal ("Error: Payment required (402). Provide a valid HF token or try later."
                  +:+ Js.NL) body H3.
    reflexivity.
  - skip_literal ("Error: Rate limited (429). Please slow down and try again." +:+ Js.NL)
                 body H1.
    skip_literal ("Error: Rate limited (429). Please slow down and try again." +:+ Js.NL)
                 body H2.
    skip_literal ("Error: Rate limited (429). Please slow down and try again." +:+ Js.NL)
                 body H3.
    reflexivity.
  - skip_literal "Error: API error 401. " body H1.
    skip_literal "Error: API error 401. " body H2.
    skip_literal "Error: API error 401. " body H3.
    reflexivity.
Qed.

(** What does hold for the three statuses: with a marker-free body the
    call fails at once, with one request and no wait. *)
Lemma classified_fails_at_once (prompt : string) (w : World Page) (res : Response) :
  is_empty (trim (tokenEl_value (dom w))) = false ->
  net w (fetched w) = Ok res ->
  status res = 402 \/ status res = 429 \/ status res = 401 ->
  marker_free (capture 800 res) = true ->
  fst (callApi prompt w) = Ok None
  /\ errEl_textContent (dom (snd (callApi prompt w))) = classified_message res
  /\ trace (snd (callApi prompt w))
     = trace w ++ [EvFetch (request (trim (tokenEl_value (dom w))) prompt)].
Proof.
  intros Htk Hnet Hst Hfree.
  pose proof (classified_not_retried res Hst Hfree) as Hre.
  assert (Hok : ok res = false)
    by (unfold ok; destruct Hst as [H | [H | H]]; rewrite H; reflexivity).
  assert (E : answer (net w (fetched w)) = Throw (failure res))
    by (unfold answer; now rewrite Hnet, Hok).
  rewrite callApi_eq by exact Htk. cbn zeta. rewrite E. cbn [retried]. rewrite Hre.
  cbn [verdict returned settled_page fst snd dom trace errEl_textContent].
  repeat split.
  unfold failure, classified_message.
  destruct Hst as [H | [H | H]]; rewrite H; reflexivity.
Qed.

(** The test of the inner [catch] reads the body too: whatever the
    status of a response that is not [ok], a marker in the kept body makes
    the test succeed. *)
Lemma body_marker_retried (res : Response) :
  marker_free (capture 800 res) = false ->
  retry_test (failure res) = true.
Proof.
  intros Hm. set (body := capture 800 res) in *.
  assert (G : forall a b, is_empty a = false ->
                (forall m, includes m body = true -> includes m b = true) ->
                retry_test (Error (a +:+ b)) = true).
  { intros a b Ha Hb. unfold retry_test. rewrite (error_string_app a b Ha).
    unfold marker_free in Hm.
    destruct (includes "warming up" body) eqn:E1.
    - rewrite (includes_app_r _ "Error: " _ (includes_app_r _ a _ (Hb _ E1))). reflexivity.
    - destruct (includes "404" body) eqn:E2.
      + rewrite (includes_app_r _ "Error: " _ (includes_app_r _ a _ (Hb _ E2))).
        apply orb_true_iff. left. apply orb_true_r.
      + destruct (includes "503" body) eqn:E3; [|discriminate Hm].
        rewrite (includes_app_r _ "Error: " _ (includes_app_r _ a _ (Hb _ E3))).
        apply orb_true_r. }
  unfold failure. fold body.
  repeat match goal with |- context [if ?b then _ else _] => destruct b end;
    apply G; try reflexivity; intros m H; repeat apply includes_app_r; exact H.
Qed.

(** Hence any first answer that is not [ok] and whose kept body holds a
    marker is followed by the wait and a second request. *)
Lemma marked_body_waits (prompt : string) (w : World Page) (res : Response) :
  is_empty (trim (tokenEl_value (dom w))) = false ->
  net w (fetched w) = Ok res ->
  ok res = false ->
  marker_free (capture 800 res) = false ->
  trace (snd (callApi prompt w))
  = trace w ++ [EvFetch (request (trim (tokenEl_value (dom w))) prompt); EvSleep 1200;
                EvFetch (request (trim (tokenEl_value (dom w))) prompt)].
Proof.
  intros Htk Hnet Hok Hm.
  assert (E : answer (net w (fetched w)) = Throw (failure res))
    by (unfold answer; now rewrite Hnet, Hok).
  rewrite callApi_eq by exact Htk. cbn zeta. rewrite E. cbn [retried].
  now rewrite (body_marker_retried res Hm).
Qed.

End RetryFacts.

(** C2 (the code departs from it).  A first answer with status 402 can be
    retried all the same: the test of the inner [catch] looks for the text
    404, 503 or warming up anywhere in the error string, which includes
    the body of the response.  Here the body of a 402 answer mentions 503;
    the routine waits 1200 ms, sends a second request and returns what the
    second answer holds. *)
Lemma payment_required_retried :
  Samples.outcome
    (Retrying.callApi "p"
       (Samples.world "hf_x" [Samples.error_reply 402 "quota exceeded, ticket 5031";
                              Samples.json_reply Samples.high_body]))
  = (Ok (Some "high"), EmptyString, [1200], 2%nat).
Proof. vm_compute. reflexivity. Qed.

(** ** Taking the generated text out of the body *)


Lemma absent_text_parse (s : Script) (data : json) :
  no_generated_text data ->
  parse_generation_of s data =
  match s, data with
  | permissive, JNull => Throw (null_read "generated_text")
  | _, _ =>
      if Js.truthy_opt (Js.prop data "error")
      then Throw (Error (Js.to_String_opt (Js.prop data "error")))
      else Throw (Error "Unexpected API response.")
  end.
Proof.
  intros [H1 H2].
  destruct s; cbn [parse_generation_of];
    unfold Permissive.parse_generation, Retrying.parse_generation, Permissive.own_text_is_string.
  - rewrite H1, H2. cbn [is_string andb]. rewrite andb_false_r.
    destruct data as [|b|n|t|items|fields]; cbn [Js.typeof_object Js.truthy Js.prop Js.truthy_opt];
      rewrite ?andb_false_r; try reflexivity.
  - rewrite H1. cbn [Js.truthy_opt andb]. rewrite andb_false_r.
    destruct data as [|b|n|t|items|fields]; cbn [Js.opt_prop Js.prop Js.truthy_opt] in *;
      rewrite ?H2; try reflexivity.
Qed.

Lemma absent_text_refused (s : Script) (data : json) :
  no_generated_text data ->
  exists e, parse_generation_of s data = Throw e
            /\ (forall msg, Js.prop data "error" = Some (JStr msg) -> msg <> EmptyString ->
                            e = Error msg)
            /\ (Js.truthy_opt (Js.prop data "error") = false -> data <> JNull ->
                e = Error "Unexpected API response.").
Proof.
  intros H. rewrite (absent_text_parse s data H).
  assert (G : exists e,
             (if Js.truthy_opt (Js.prop data "error")
              then Throw (Error (Js.to_String_opt (Js.prop data "error")))
              else Throw (Error "Unexpected API response.")) = @Throw json e
             /\ (forall msg, Js.prop data "error" = Some (JStr msg) -> msg <> EmptyString ->
                             e = Error msg)
             /\ (Js.truthy_opt (Js.prop data "error") = false -> data <> JNull ->
                 e = Error "Unexpected API response.")).
  { destruct (Js.prop data "error") as [v|] eqn:E; cbn [Js.truthy_opt Js.to_String_opt].
    - destruct (Js.truthy v) eqn:Tv; eexists; (split; [reflexivity|]); split.
      + intros msg [= ->] _. reflexivity.
      + discriminate.
      + intros msg [= ->] Hm. apply is_empty_false in Hm. cbn in Tv. now rewrite Hm in Tv.
      + reflexivity.
    - eexists; (split; [reflexivity|]); (split; [intros; discriminate | reflexivity]). }
  destruct s; [destruct data|]; try exact G.
  eexists; split; [reflexivity|]. split; [intros; discriminate | intros; congruence].
Qed.

(** The first place is read in an array only. *)
Lemma first_generated_text_held (data : json) :
  first_generated_text data
  = match data with JArr _ => held_generated_text data | _ => None end.
Proof.
  destruct data as [| | | |[|[| | | | |fields] rest]|fields]; reflexivity.
Qed.

(** The chain of tests of either script, told by the shape of the body:
    the text taken, or the error of the refusal. *)
Lemma parse_generation_taken (s : Script) (data : json) :
  parse_generation_of s data
  = match taken_text s data with
    | Some v => Ok v
    | None => Throw (refusal s data)
    end.
Proof.
  unfold taken_text, refusal.
  destruct s; cbn [parse_generation_of];
    unfold Permissive.parse_generation, Retrying.parse_generation,
      Permissive.own_text_is_string;
    rewrite first_generated_text_held;
    destruct data as [|b|n|t|[|[| | | | |fields'] rest]|fields];
    cbn [Js.isArray Js.nonempty andb Js.typeof_object is_string Js.truthy Js.prop
         Js.opt_prop Js.truthy_opt held_generated_text present];
    rewrite ?andb_false_r; try reflexivity;
    try match goal with
    | |- context [Js.lookup_field "generated_text" ?f] =>
        destruct (Js.lookup_field "generated_text" f) as [[|b'|n'|t'|items'|fields'']|]
    end;
    cbn [is_string present Js.truthy_opt andb]; try reflexivity;
    repeat match goal with |- context [if ?c then _ else _] => destruct c end;
    reflexivity.
Qed.







(** ** Normalising the generated text *)




(** ** Nothing escapes [callApi] *)

(** What does hold of C5.  Whatever the inputs and whatever the network
    does, [callApi] returns a value: it never ends with a thrown error;
    and when the value is [null] an error message is on display.  A
    request rejected at network level ends the call in this way, with
    the message of its error: the first request does, with nothing sent
    after it and no wait, unless, in the retrying script, the text of its
    error passes the test of the inner [catch]; and whenever the last
    request the call has sent is rejected, the call returns [null] and
    shows the message of that rejection.  So it does when every request
    is rejected. *)
Theorem callApi_never_throws (s : Script) (prompt originalText : string) (w : World Page) :
  let run := callApi_of s prompt originalText w in
  (exists v, fst run = Ok v)
  /\ (fst run = Ok None -> errEl_display (dom (snd run)) = "block")
  /\ (sends s w ->
      forall e, net w (fetched w) = Throw e ->
                (s = retrying -> Retrying.retry_test e = false) ->
                fst run = Ok None
                /\ errEl_textContent (dom (snd run)) = message_or_self e
                /\ errEl_display (dom (snd run)) = "block"
                /\ fetched (snd run) = S (fetched w)
                /\ waits (trace (snd run)) = waits (trace w))
  /\ (sends s w ->
      forall e, net w (last_request run) = Throw e ->
                fst run = Ok None
                /\ errEl_textContent (dom (snd run)) = message_or_self e
                /\ errEl_display (dom (snd run)) = "block")
  /\ (rejects_all w ->
      fst run = Ok None /\ errEl_display (dom (snd run)) = "block").
Proof.
  intros run. unfold run, last_request.
  destruct s; cbn [callApi_of sends].
  - rewrite PermissiveFacts.permissive_callApi_eq. cbn zeta. cbn [fst snd dom fetched trace].
    rewrite waits_snoc_fetch.
    split; [eauto|]. split; [|split; [|split]].
    + destruct (PermissiveForm.verdict (net w (fetched w))); [discriminate | reflexivity].
    + intros _ e He _. rewrite He. cbn. repeat split.
    + intros _ e He. cbn [Nat.pred] in He. rewrite He. cbn. repeat split.
    + intros Hrej. destruct (Hrej (fetched w)) as [e He]. rewrite He. now cbn.
  - destruct (is_empty (trim (tokenEl_value (dom w)))) eqn:Htk.
    + rewrite RetryingFacts.callApi_no_token by exact Htk. cbn [fst snd dom errEl_display].
      split; [eauto|]. split; [reflexivity|].
      split; [discriminate|]. split; [discriminate|]. auto.
    + rewrite RetryingFacts.callApi_eq by exact Htk. cbn zeta. cbn [fst snd dom fetched trace].
      split; [eauto|]. split; [|split; [|split]].
      * destruct (RetryingForm.verdict _); [discriminate | reflexivity].
      * intros _ e He Hre. specialize (Hre eq_refl). rewrite He.
        cbn [RetryingForm.answer RetryingForm.retried]. rewrite Hre.
        rewrite waits_snoc_fetch. cbn. repeat split.
      * intros _ e.
        destruct (RetryingForm.retried (RetryingForm.answer (net w (fetched w)))) eqn:R;
          cbn [Nat.pred]; intros He.
        -- rewrite He. cbn. repeat split.
        -- rewrite He in *. cbn. repeat split.
      * intros Hrej.
        destruct (Hrej (fetched w)) as [e He]. destruct (Hrej (S (fetched w))) as [e' He'].
        rewrite He, He'. cbn [RetryingForm.answer RetryingForm.retried].
        destruct (Retrying.retry_test e); now cbn.
Qed.

Lemma callApi_never_throws_witness :
  fst (callApi_of retrying "p" "p"
         (Samples.world "tok" [Samples.refused; Samples.json_reply Samples.high_body]))
  = Ok None
  /\ fetched (snd (callApi_of retrying "p" "p"
                     (Samples.world "tok" [Samples.refused;
                                           Samples.json_reply Samples.high_body])))
     = 1%nat.
Proof.
  destruct (callApi_never_throws retrying "p" "p"
              (Samples.world "tok" [Samples.refused; Samples.json_reply Samples.high_body]))
    as (_ & _ & H & _).
  destruct (H eq_refl (mkError "TypeError" "Failed to fetch") eq_refl)
    as (H1 & _ & _ & H2 & _); [reflexivity|].
  split; [exact H1 | exact H2].
Defined.

(** A warm-up answer followed by a rejected request: the rejection is
    what the call reports. *)
Example warmup_then_rejection :
  Samples.outcome
    (Retrying.callApi "p" (Samples.world "tok" [Samples.error_reply 503 "loading"]))
  = (Ok None, "Failed to fetch", [1200], 2%nat).
Proof. vm_compute. reflexivity. Qed.

(** In the retrying script a rejected first request whose error passes
    the test of the inner [catch] is not reported: the call waits, asks
    again, and is from then on one lone attempt. *)
Lemma marked_rejection_waits (prompt : string) (w : World Page) (e : JsError) :
  is_empty (trim (tokenEl_value (dom w))) = false ->
  net w (fetched w) = Throw e ->
  Retrying.retry_test e = true ->
  let tk := trim (tokenEl_value (dom w)) in
  let req := RetryingForm.request tk prompt in
  let v := RetryingForm.verdict (RetryingForm.answer (net w (S (fetched w)))) in
  Retrying.callApi prompt w
  = (Ok (returned v),
     mkWorld (net w) (S (S (fetched w)))
       (trace w ++ [EvFetch req; EvSleep 1200; EvFetch req])
       (settled_page v (dom w))).
Proof.
  intros Htk Hnet Hre. rewrite RetryingFacts.callApi_eq by exact Htk. cbn zeta.
  rewrite Hnet. cbn [RetryingForm.answer RetryingForm.retried]. now rewrite Hre.
Qed.

(** C5 (the code departs from it).  In the retrying script a request
    rejected at network level is not always reported as a failure: the
    test of the inner [catch] looks for 404, 503 or warming up in the text
    of any error, that of a rejected request included.  Here the first
    request is refused with an error that names port 5030; the routine
    waits 1200 ms, asks again and returns what the second answer holds.
    The permissive script reports the same rejection.  This is the defect
    shown for C2. *)
Lemma marked_rejection_retried :
  Samples.outcome
    (Retrying.callApi "p"
       (Samples.world "hf_x" [Samples.port_refused; Samples.json_reply Samples.high_body]))
  = (Ok (Some "high"), EmptyString, [1200], 2%nat)
  /\ Samples.outcome
       (Permissive.callApi "p" "p"
          (Samples.world "hf_x" [Samples.port_refused; Samples.json_reply Samples.high_body]))
     = (Ok None, "connect ECONNREFUSED 10.0.0.7:5030", [], 1%nat).
Proof. split; vm_compute; reflexivity. Qed.

(** ** Which generated text is taken, and what a body without one gets *)


(** The permissive script does extract it. *)
Example empty_generation_permissive :
  Samples.outcome
    (Permissive.callApi "p" "p" (Samples.world "tok" [Samples.json_reply empty_generation]))
  = (Ok (Some EmptyString), EmptyString, [], 1%nat).
Proof. vm_compute. reflexivity. Qed.

(** The same test lets through what is no string: a body whose
    [generated_text] is the number 5 has neither shape, the permissive
    script refuses it, the retrying script returns the text of the
    number. *)
Example number_taken_for_text :
  spec_generated_text numeric_text = None
  /\ Samples.outcome
       (Permissive.callApi "p" "p" (Samples.world "tok" [Samples.json_reply numeric_text]))
     = (Ok None, "Unexpected API response.", [], 1%nat)
  /\ Samples.outcome
       (Retrying.callApi "p" (Samples.world "tok" [Samples.json_reply numeric_text]))
     = (Ok (Some "5"), EmptyString, [], 1%nat)
  /\ ~ refuses_every_other_body retrying.
Proof.
  split; [reflexivity|]. split; [vm_compute; reflexivity|]. split; [vm_compute; reflexivity|].
  intros H.
  specialize (H "p" "p" (Samples.world "tok" [Samples.json_reply numeric_text])
                (mkResponse 200 "OK" (Ok (Js.stringify numeric_text)) (Ok numeric_text))
                numeric_text eq_refl eq_refl).
  assert (B : 200 <= 200 <= 299) by lia.
  specialize (H B eq_refl eq_refl). vm_compute in H. discriminate H.
Qed.



(** ** The Authorization header *)

Lemma optional_bearer (tk : string) (headers : gmap string string) :
  headers = (let h : gmap string string := {[ "Content-Type" := "application/json" ]} in
             if is_empty tk then h else <[ "Authorization" := "Bearer " +:+ tk ]> h) ->
  headers !! "Content-Type" = Some "application/json"
  /\ (tk = EmptyString -> headers !! "Authorization" = None)
  /\ (tk <> EmptyString -> headers !! "Authorization" = Some ("Bearer " +:+ tk)).
Proof.
  intros ->. cbn zeta. destruct tk as [|c r]; cbn [is_empty].
  - split; [apply lookup_singleton_eq|]. split; [|congruence].
    intros _. now apply lookup_singleton_ne.
  - split; [rewrite lookup_insert_ne by done; apply lookup_singleton_eq|].
    split; [discriminate|]. intros _. apply lookup_insert_eq.
Qed.

Module LectureFirstFacts.
Import LectureFirst.
Import LectureFirstForm.

(** The call never throws and sends exactly one request. *)
Lemma analyzeRandomReview_trace (reviews : list string) (randomIndex : nat)
      (w : World ReviewPage) :
  fst (analyzeRandomReview reviews randomIndex w) = Ok tt
  /\ trace (snd (analyzeRandomReview reviews randomIndex w))
     = trace w ++ [EvFetch (request (trim (apiTokenInput_value (dom w)))
                                    (reviews !! randomIndex))]
  /\ waits (trace (snd (analyzeRandomReview reviews randomIndex w))) = waits (trace w).
Proof.
  assert (G : fst (analyzeRandomReview reviews randomIndex w) = Ok tt
              /\ trace (snd (analyzeRandomReview reviews randomIndex w))
                 = trace w ++ [EvFetch (request (trim (apiTokenInput_value (dom w)))
                                                (reviews !! randomIndex))]).
  { unfold analyzeRandomReview, request.
    cbv beta iota delta [bind read try_finally try_catch hideError start finish showError
                         displaySentimentResult update throw ret await fetch].
    cbn [dom net fetched trace fst snd apiTokenInput_value].
    destruct (net w (fetched w)) as [res|e]; [|now cbn].
    destruct (ok res); cbn [negb].
    - destruct (json_result res) as [data|e]; [|now cbn].
      destruct (first_result data) as [[| | | | |]|]; now cbn.
    - repeat match goal with |- context [if ?b then _ else _] => destruct b end; now cbn. }
  destruct G as [G1 G2]. rewrite G1, G2. repeat split. apply waits_snoc_fetch.
Qed.

End LectureFirstFacts.

(** C6. In the scripts that accept a missing token (the permissive
    [callApi] and [analyzeRandomReview]), every call sends its request,
    exactly one, whatever the token field holds; when the field is empty
    or holds white space only the request has no Authorization header, and
    otherwise the header is [Bearer] followed by the trimmed token. *)
Theorem authorization_only_with_token :
  (forall (prompt originalText : string) (w : World Page),
      let tk := trim (tokenEl_value (dom w)) in
      exists req,
        trace (snd (Permissive.callApi prompt originalText w)) = trace w ++ [EvFetch req]
        /\ req_method req = "POST" /\ req_url req = Permissive.url
        /\ (tk = EmptyString -> req_headers req !! "Authorization" = None)
        /\ (tk <> EmptyString ->
            req_headers req !! "Authorization" = Some ("Bearer " +:+ tk)))
  /\ (forall (reviews : list string) (randomIndex : nat) (w : World ReviewPage),
      let tk := trim (apiTokenInput_value (dom w)) in
      exists req,
        trace (snd (LectureFirst.analyzeRandomReview reviews randomIndex w))
        = trace w ++ [EvFetch req]
        /\ req_method req = "POST" /\ req_url req = LectureFirst.url
        /\ (tk = EmptyString -> req_headers req !! "Authorization" = None)
        /\ (tk <> EmptyString ->
            req_headers req !! "Authorization" = Some ("Bearer " +:+ tk))).
Proof.
  split.
  - intros prompt originalText w tk.
    exists (PermissiveForm.request tk prompt).
    rewrite PermissiveFacts.permissive_callApi_eq. cbn zeta. cbn [snd trace].
    destruct (optional_bearer tk (Permissive.make_headers tk) eq_refl) as (_ & H1 & H2).
    repeat split; assumption.
  - intros reviews randomIndex w tk.
    exists (LectureFirstForm.request tk (reviews !! randomIndex)).
    destruct (LectureFirstFacts.analyzeRandomReview_trace reviews randomIndex w) as (_ & T & _).
    destruct (optional_bearer tk (LectureFirst.make_headers tk) eq_refl) as (_ & H1 & H2).
    repeat split; assumption.
Qed.

Lemma authorization_only_with_token_witness :
  exists req,
    trace (snd (Permissive.callApi "p" "p" (Samples.world "  " []))) = [EvFetch req]
    /\ req_headers req !! "Authorization" = None.
Proof.
  destruct (proj1 authorization_only_with_token "p" "p" (Samples.world "  " []))
    as (req & T & _ & _ & H & _).
  exists req. split; [exact T | exact (H eq_refl)].
Defined.

(** ** Failures carrying the status and the start of the body *)

(** What [safeError] and [safeText] keep is a prefix of the body, at most
    [cap] code units long, and the whole body when that is short. *)
Lemma capture_bounded (cap : nat) (res : Response) :
  (String.length (capture cap res) <= cap)%nat
  /\ (forall t, text_result res = Ok t ->
                t = capture cap res +:+ slice_from cap t
                /\ ((String.length t <= cap)%nat -> capture cap res = t)
                /\ ((cap <= String.length t)%nat -> String.length (capture cap res) = cap)).
Proof.
  unfold capture. split.
  - destruct (text_result res); [apply slice0_length | simpl; lia].
  - intros t ->. split; [apply slice0_prefix|]. split; [apply slice0_short | apply slice0_long].
Qed.

(** In the permissive script every response that is not [ok] and has
    neither status 402 nor 429 ends the call with a failure whose message
    holds the status and at most 500 code units of the body. *)
Lemma permissive_other_status (prompt originalText : string) (w : World Page) (res : Response) :
  net w (fetched w) = Ok res ->
  ok res = false -> status res <> 402 -> status res <> 429 ->
  fst (Permissive.callApi prompt originalText w) = Ok None
  /\ errEl_textContent (dom (snd (Permissive.callApi prompt originalText w)))
     = "API error " +:+ of_Z (status res) +:+ "." +:+ Js.NL +:+ capture 500 res
  /\ (String.length (capture 500 res) <= 500)%nat.
Proof.
  intros Hnet Hok H402 H429.
  rewrite PermissiveFacts.permissive_callApi_eq. cbn zeta. unfold PermissiveForm.verdict.
  rewrite Hnet, Hok. unfold PermissiveForm.failure.
  apply Z.eqb_neq in H402, H429. rewrite H402, H429.
  cbn [fst snd dom returned settled_page errEl_textContent].
  repeat split. apply capture_bounded.
Qed.

(** In the retrying script [attempt] throws, for every response that is
    not [ok] and has none of the statuses 402, 429, 404 and 503, an error
    whose message holds the status and at most 800 code units of the
    body; the call ends with that failure when the test of the inner
    [catch] fails on it. *)
Lemma retrying_other_status (prompt : string) (w : World Page) (res : Response) :
  is_empty (trim (tokenEl_value (dom w))) = false ->
  net w (fetched w) = Ok res ->
  ok res = false ->
  status res <> 402 -> status res <> 429 -> status res <> 404 -> status res <> 503 ->
  let msg := "API error " +:+ of_Z (status res) +:+ ". " +:+ capture 800 res in
  fst (Retrying.attempt (Retrying.make_headers (trim (tokenEl_value (dom w)))) prompt w)
  = Throw (Error msg)
  /\ (String.length (capture 800 res) <= 800)%nat
  /\ (Retrying.retry_test (Error msg) = false ->
      fst (Retrying.callApi prompt w) = Ok None
      /\ errEl_textContent (dom (snd (Retrying.callApi prompt w))) = msg
      /\ waits (trace (snd (Retrying.callApi prompt w))) = waits (trace w)).
Proof.
  intros Htk Hnet Hok H402 H429 H404 H503 msg.
  apply Z.eqb_neq in H402, H429, H404, H503.
  assert (F : RetryingForm.failure res = Error msg)
    by (unfold RetryingForm.failure; now rewrite H402, H429, H404, H503).
  assert (E : RetryingForm.answer (net w (fetched w)) = Throw (Error msg))
    by (unfold RetryingForm.answer; now rewrite Hnet, Hok, F).
  split; [now rewrite RetryingFacts.attempt_eq|].
  split; [apply capture_bounded|].
  intros Hre. rewrite RetryingFacts.callApi_eq by exact Htk. cbn zeta.
  rewrite E. cbn [RetryingForm.retried]. rewrite Hre.
  cbn [RetryingForm.verdict fst snd dom trace returned settled_page errEl_textContent].
  repeat split. apply waits_snoc_fetch.
Qed.

(** C7 (the code departs from it).  In the retrying script a response
    with another status, here 500, whose body mentions 404 passes the test
    of the inner [catch]: the failure that carries its status and body is
    dropped, the routine waits, asks again and returns what the second
    answer holds.  This is the defect shown for C2. *)
Lemma other_status_retried :
  Samples.outcome
    (Retrying.callApi "p"
       (Samples.world "hf_x" [Samples.error_reply 500 "upstream said 404";
                              Samples.json_reply Samples.high_body]))
  = (Ok (Some "high"), EmptyString, [1200], 2%nat).
Proof. vm_compute. reflexivity. Qed.

(** * The event logger *)

Module LoggerFacts.
Import Logger.
Import LoggerForm.

Ltac run_logger :=
  cbv beta iota delta [bind read try_catch update throw ret await fetch getItem setItem
                       set_status];
  cbn [dom net fetched trace fst snd gasUrl_value status_textContent localStorage].

Lemma getGasUrl_eq (w : World LoggerPage) :
  getGasUrl w
  = (Ok (configured (dom w)), mkWorld (net w) (fetched w) (trace w) (hydrated (dom w))).
Proof.
  unfold getGasUrl, configured, hydrated, entered, saved. run_logger.
  destruct w as [n f t [input st ls]].
  cbn [dom net fetched trace gasUrl_value status_textContent localStorage].
  destruct (negb (is_empty (trim (or_empty input)))); [reflexivity|].
  cbn [dom net fetched trace gasUrl_value status_textContent localStorage].
  destruct input; [|reflexivity].
  destruct (negb (is_empty (trim (or_empty (ls !! LS_KEY_URL))))); reflexivity.
Qed.

(** The five fields of the form, in the order they are set. *)
Lemma build_form_eq (env : Supply) (payload : Payload) :
  build_form env payload =
  [("event", Js.to_String (or_else (p_event payload) (JStr EmptyString)));
   ("variant", Js.to_String (or_else (p_variant payload) (JStr EmptyString)));
   ("userId", Js.to_String (or_else (p_userId payload) (JStr EmptyString)));
   ("ts", Js.to_String (or_else (p_ts payload) (JNum (now env))));
   ("meta", Js.stringify (or_else (p_meta payload) (JObj [])))].
Proof. reflexivity. Qed.

Lemma sendLogSimple_missing (env : Supply) (payload : Payload) (w : World LoggerPage) :
  configured (dom w) = EmptyString ->
  sendLogSimple env payload w
  = (Ok "MISSING_URL",
     mkWorld (net w) (fetched w) (trace w)
       (mkLoggerPage (gasUrl_value (hydrated (dom w))) missing_url
                     (localStorage (hydrated (dom w))))).
Proof.
  intros H. unfold sendLogSimple. unfold bind at 1. rewrite getGasUrl_eq, H.
  cbn [is_empty]. run_logger. reflexivity.
Qed.

Lemma sendLogSimple_sent (env : Supply) (payload : Payload) (w : World LoggerPage) :
  configured (dom w) <> EmptyString ->
  sendLogSimple env payload w =
  let v := settle (net w (fetched w)) in
  (Ok (match v with Ok text => text | Throw e => "ERROR: " +:+ error_to_String e end),
   mkWorld (net w) (S (fetched w))
     (trace w ++ [EvFetch (request (configured (dom w)) env payload)])
     (mkLoggerPage (gasUrl_value (hydrated (dom w)))
        (match v with Ok _ => logged | Throw e => "Log failed: " +:+ error_to_String e end)
        (localStorage (hydrated (dom w))))).
Proof.
  intros H. apply is_empty_false in H.
  unfold sendLogSimple. unfold bind at 1. rewrite getGasUrl_eq, H. unfold request, settle.
  run_logger.
  destruct (net w (fetched w)) as [res|e]; [|reflexivity].
  destruct (text_result res) as [text|e]; [|reflexivity].
  destruct (ok res); reflexivity.
Qed.

End LoggerFacts.

(** ** The request of the logger *)



Example log_form_sample :
  log_form sample_supply sample_payload
  = BodyForm [("event", "cta_click"); ("variant", "A"); ("userId", "u1");
              ("ts", "1700000000001");
              ("meta", "{" +:+ Js.DQ +:+ "page" +:+ Js.DQ +:+ ":" +:+ Js.DQ +:+ "/" +:+ Js.DQ
                       +:+ "}")].
Proof. vm_compute. reflexivity. Qed.

(** ** No address, no request *)

(** C9. When no address is configured, that is when the input is absent,
    empty or blank and nothing but white space, if anything, is saved
    under [gas_url], [sendLogSimple] puts the guidance message in the
    status line and returns [MISSING_URL] without any request: the trace
    and the count of requests are as before. *)
Theorem missing_url_short_circuits (env : Supply) (payload : Payload) (w : World LoggerPage) :
  trim (Logger.or_empty (gasUrl_value (dom w))) = EmptyString ->
  trim (Logger.or_empty (localStorage (dom w) !! Logger.LS_KEY_URL)) = EmptyString ->
  let run := Logger.sendLogSimple env payload w in
  fst run = Ok "MISSING_URL"
  /\ status_textContent (dom (snd run)) = Logger.missing_url
  /\ trace (snd run) = trace w
  /\ fetched (snd run) = fetched w
  /\ requests (trace (snd run)) = requests (trace w).
Proof.
  intros He Hs run.
  assert (C : LoggerForm.configured (dom w) = EmptyString).
  { unfold LoggerForm.configured, LoggerForm.entered, LoggerForm.saved.
    rewrite He, Hs. reflexivity. }
  unfold run. rewrite (LoggerFacts.sendLogSimple_missing env payload w C).
  cbn [fst snd dom trace fetched status_textContent]. repeat split.
Qed.

Lemma missing_url_short_circuits_witness :
  fst (Logger.sendLogSimple sample_supply sample_payload (sample_logger (Some "  ") ∅))
  = Ok "MISSING_URL".
Proof.
  exact (proj1 (missing_url_short_circuits sample_supply sample_payload
                  (sample_logger (Some "  ") ∅) eq_refl eq_refl)).
Defined.

(** ** The stored user id *)

Module UserIdFacts.
Import Logger.

Ltac run_user :=
  cbv beta iota delta [bind read update ret getItem setItem];
  cbn [dom net fetched trace fst snd gasUrl_value status_textContent localStorage].

Lemma getUserId_eq (env : Supply) (w : World LoggerPage) :
  getUserId env w =
  if is_empty (or_empty (localStorage (dom w) !! LS_KEY_UID)) then
    (Ok (new_id env),
     mkWorld (net w) (fetched w) (trace w)
       (mkLoggerPage (gasUrl_value (dom w)) (status_textContent (dom w))
                     (<[ LS_KEY_UID := new_id env ]> (localStorage (dom w)))))
  else (Ok (or_empty (localStorage (dom w) !! LS_KEY_UID)), w).
Proof.
  unfold getUserId. run_user.
  destruct (is_empty (or_empty (localStorage (dom w) !! LS_KEY_UID))); reflexivity.
Qed.

(** When the browser has [crypto.randomUUID] the new id is its result;
    otherwise it is what follows [0.] in the base-36 text of the random
    number, which is empty only for the number zero. *)
Lemma new_id_nonempty (env : Supply) :
  (exists u, randomUUID env = Some u /\ u <> EmptyString)
  \/ (2 < String.length (random36 env))%nat ->
  new_id env <> EmptyString.
Proof.
  unfold new_id. intros [(u & -> & Hu) | Hlen].
  - apply is_empty_false in Hu. rewrite Hu. now apply is_empty_false.
  - assert (G : slice_from 2 (random36 env) <> EmptyString).
    { destruct (random36 env) as [|a [|b [|c r]]]; simpl in *; try lia. discriminate. }
    destruct (randomUUID env) as [u|]; [|exact G].
    destruct (is_empty u) eqn:E; [exact G | now apply is_empty_false].
Qed.

End UserIdFacts.

(** C10, counterexample.  [getUserId] tests the stored value for
    truthiness, so a stored empty string counts as no id: from the store
    that maps [uid] to the empty string the call returns a new id and
    overwrites the entry. *)
Lemma stored_empty_id_replaced :
  let w := sample_logger None {[ Logger.LS_KEY_UID := EmptyString ]} in
  localStorage (dom w) !! Logger.LS_KEY_UID = Some EmptyString
  /\ fst (Logger.getUserId sample_supply w) = Ok "3b241101-e2bb-4255-8caf-4136c566a962"
  /\ localStorage (dom (snd (Logger.getUserId sample_supply w))) !! Logger.LS_KEY_UID
     = Some "3b241101-e2bb-4255-8caf-4136c566a962"
  /\ ~ returns_whatever_is_stored.
Proof.
  intros w. split; [reflexivity|]. split; [reflexivity|]. split; [reflexivity|].
  intros H. specialize (H sample_supply w EmptyString eq_refl).
  apply (f_equal fst) in H. discriminate H.
Qed.

(** C10, amended.  From any store and whatever the browser supplies to
    the two calls, provided the id made by the first call, when it has to
    make one, is not empty: a non-empty stored id is returned as it is and the
    world is left unchanged; with no id or an empty one stored, the call
    returns the new id and stores it under [uid]; and a second call
    returns the id of the first, which is not empty, and changes nothing. *)
Theorem getUserId_stable (env env' : Supply) (w : World LoggerPage) :
  (Logger.or_empty (localStorage (dom w) !! Logger.LS_KEY_UID) = EmptyString ->
   Logger.new_id env <> EmptyString) ->
  let first := Logger.getUserId env w in
  let second := Logger.getUserId env' (snd first) in
  (forall v, localStorage (dom w) !! Logger.LS_KEY_UID = Some v -> v <> EmptyString ->
             first = (Ok v, w))
  /\ (Logger.or_empty (localStorage (dom w) !! Logger.LS_KEY_UID) = EmptyString ->
      fst first = Ok (Logger.new_id env)
      /\ localStorage (dom (snd first))
         = <[ Logger.LS_KEY_UID := Logger.new_id env ]> (localStorage (dom w)))
  /\ (exists id, id <> EmptyString
                 /\ fst first = Ok id
                 /\ localStorage (dom (snd first)) !! Logger.LS_KEY_UID = Some id
                 /\ second = (Ok id, snd first)).
Proof.
  intros Hnew first second. unfold second, first.
  rewrite !UserIdFacts.getUserId_eq.
  destruct (localStorage (dom w) !! Logger.LS_KEY_UID) as [v|] eqn:E; cbn [Logger.or_empty].
  - destruct (is_empty v) eqn:Ev.
    + apply is_empty_true in Ev. subst v. cbn [fst snd dom localStorage].
      rewrite lookup_insert_eq. cbn [Logger.or_empty].
      pose proof (Hnew eq_refl) as Hn. apply is_empty_false in Hn. rewrite Hn.
      split; [intros v [= <-] Hv; congruence|]. split; [auto|].
      exists (Logger.new_id env). auto.
    + cbn [fst snd]. rewrite E. cbn [Logger.or_empty]. rewrite Ev.
      apply is_empty_false in Ev.
      split; [intros v' [= <-] _; reflexivity|]. split; [congruence|].
      exists v. auto.
  - cbn [is_empty fst snd dom localStorage]. rewrite lookup_insert_eq. cbn [Logger.or_empty].
    pose proof (Hnew eq_refl) as Hn. apply is_empty_false in Hn. rewrite Hn.
    split; [intros v [=]|]. split; [auto|].
    exists (Logger.new_id env). auto.
Qed.

Lemma getUserId_stable_witness :
  exists id, id <> EmptyString
             /\ fst (Logger.getUserId sample_supply (sample_logger None ∅)) = Ok id.
Proof.
  destruct (getUserId_stable sample_supply sample_supply (sample_logger None ∅))
    as (_ & _ & id & Hne & Hid & _).
  - intros _. vm_compute. discriminate.
  - exists id. split; [exact Hne | exact Hid].
Defined.


(** * Further facts *)

(** ** More on strings *)

Section MoreStringFacts.

Lemma all_chars_trimStart (P : ascii -> bool) (s : string) :
  all_chars P s = true -> all_chars P (trimStart s) = true.
Proof.
  induction s as [|c r IH]; [auto|]. intros H. simpl.
  destruct (is_space c); [|exact H].
  apply IH. simpl in H. now apply andb_true_iff in H.
Qed.

Lemma all_chars_trimEnd (P : ascii -> bool) (s : string) :
  all_chars P s = true -> all_chars P (trimEnd s) = true.
Proof.
  induction s as [|c r IH]; [auto|]. intros H. simpl in *.
  apply andb_true_iff in H as [Hc Hr]. specialize (IH Hr).
  destruct (trimEnd r) as [|c' r'].
  - destruct (is_space c); simpl; [reflexivity | now rewrite Hc].
  - simpl in *. now rewrite Hc, IH.
Qed.

Lemma all_chars_trim (P : ascii -> bool) (s : string) :
  all_chars P s = true -> all_chars P (trim s) = true.
Proof. intros H. unfold trim. now apply all_chars_trimEnd, all_chars_trimStart. Qed.

Lemma first_line_not_LF (s : string) : all_chars not_LF (first_line s) = true.
Proof.
  induction s as [|c r IH]; [reflexivity|]. simpl.
  destruct (Ascii.eqb c LF) eqn:E; [reflexivity|].
  simpl. unfold not_LF at 1. now rewrite E, IH.
Qed.

Lemma lower_char_not_LF (c : ascii) : not_LF c = true -> not_LF (lower_char c) = true.
Proof. destruct c as [[] [] [] [] [] [] [] []]; vm_compute; auto. Qed.

Lemma toLowerCase_not_LF (s : string) :
  all_chars not_LF s = true -> all_chars not_LF (toLowerCase s) = true.
Proof.
  induction s as [|c r IH]; [auto|]. simpl. intros H.
  apply andb_true_iff in H as [Hc Hr]. now rewrite (lower_char_not_LF c Hc), IH.
Qed.

Lemma toLowerCase_not_upper (s : string) : all_chars not_upper (toLowerCase s) = true.
Proof.
  induction s as [|c r IH]; [reflexivity|]. simpl. unfold not_upper at 1.
  now rewrite lower_char_not_upper, IH.
Qed.

Lemma toLowerCase_fixed (s : string) :
  all_chars not_upper s = true -> toLowerCase s = s.
Proof.
  induction s as [|c r IH]; [auto|]. simpl. intros H.
  apply andb_true_iff in H as [Hc Hr]. rewrite (IH Hr). f_equal.
  unfold lower_char. unfold not_upper in Hc. now destruct (is_upper c).
Qed.

Lemma trimStart_fixed (s : string) : starts_with_space s = false -> trimStart s = s.
Proof. destruct s as [|c r]; simpl; [auto|]. now intros ->. Qed.

Lemma trimEnd_fixed (s : string) : ends_with_space s = false -> trimEnd s = s.
Proof.
  induction s as [|c r IH]; [auto|]. intros H.
  destruct r as [|c' r'].
  - simpl in *. now rewrite H.
  - change (ends_with_space (String c' r') = false) in H. specialize (IH H).
    change (trimEnd (String c (String c' r')))
      with (match trimEnd (String c' r') with
            | EmptyString => if is_space c then EmptyString else String c EmptyString
            | t => String c t
            end).
    now rewrite IH.
Qed.

Lemma trim_idempotent (s : string) : trim (trim s) = trim s.
Proof.
  destruct (trim_no_space s) as [H1 H2].
  unfold trim at 1. now rewrite (trimStart_fixed _ H1), (trimEnd_fixed _ H2).
Qed.

End MoreStringFacts.

(** ** More on the two [callApi] *)

Lemma request_body_spelled (prompt : string) : request_body prompt = inputs_json prompt.
Proof. reflexivity. Qed.

Lemma app_same_nil {A} (l x : list A) : l ++ x = l -> x = [].
Proof.
  intros H. apply (f_equal (@length A)) in H. rewrite length_app in H.
  destruct x; [reflexivity | simpl in H; lia].
Qed.

(** Every run returns a value of the form [returned v]. *)
Lemma callApi_of_returned (s : Script) (prompt originalText : string) (w : World Page) :
  exists v, fst (callApi_of s prompt originalText w) = Ok (returned v).
Proof.
  destruct s; cbn [callApi_of].
  - rewrite PermissiveFacts.permissive_callApi_eq. cbn zeta. eauto.
  - destruct (is_empty (trim (tokenEl_value (dom w)))) eqn:Htk.
    + rewrite RetryingFacts.callApi_no_token by exact Htk.
      now exists (Throw (Error EmptyString)).
    + rewrite RetryingFacts.callApi_eq by exact Htk. cbn zeta. eauto.
Qed.

(** X1. The retrying [callApi] sends a request exactly when the token
    field, trimmed, is not empty.  Without a token it returns [null],
    shows the message asking for one and touches neither the network, the
    timer nor the spinner. *)
Theorem retrying_requests_iff_token (prompt : string) (w : World Page) :
  let run := Retrying.callApi prompt w in
  (requests (trace (snd run)) = requests (trace w)
   <-> trim (tokenEl_value (dom w)) = EmptyString)
  /\ (trim (tokenEl_value (dom w)) = EmptyString ->
      fst run = Ok None
      /\ errEl_textContent (dom (snd run)) = Retrying.token_required
      /\ errEl_display (dom (snd run)) = "block"
      /\ spinner_display (dom (snd run)) = spinner_display (dom w)
      /\ trace (snd run) = trace w
      /\ fetched (snd run) = fetched w).
Proof.
  intros run. unfold run.
  destruct (is_empty (trim (tokenEl_value (dom w)))) eqn:Htk.
  - rewrite RetryingFacts.callApi_no_token by exact Htk. cbn [fst snd dom trace fetched].
    apply is_empty_true in Htk. repeat split; auto.
  - rewrite RetryingFacts.callApi_eq by exact Htk. cbn zeta. cbn [fst snd trace].
    apply is_empty_false in Htk. split; [|intros H; contradiction].
    split; [|intros H; contradiction].
    rewrite requests_app. intros H. apply app_same_nil in H.
    destruct (RetryingForm.retried _); discriminate H.
Qed.

Lemma retrying_requests_iff_token_witness :
  trace (snd (Retrying.callApi "p" (Samples.world "  " [Samples.json_reply Samples.high_body])))
  = [].
Proof.
  exact (proj1 (proj2 (proj2 (proj2 (proj2
           (proj2 (retrying_requests_iff_token "p"
                     (Samples.world "  " [Samples.json_reply Samples.high_body]))
                  eq_refl)))))).
Defined.

(** X2. Whatever the network answers, one call of the retrying [callApi]
    adds to the trace nothing, one request, or one request, one wait of
    1200 ms and the same request again: never more than two requests,
    never more than one wait, and the second request is the first one
    sent again. *)
Theorem retrying_at_most_one_retry (prompt : string) (w : World Page) :
  let run := Retrying.callApi prompt w in
  let req := RetryingForm.request (trim (tokenEl_value (dom w))) prompt in
  exists evs,
    trace (snd run) = trace w ++ evs
    /\ fetched (snd run) = (fetched w + length (requests evs))%nat
    /\ (evs = [] \/ evs = [EvFetch req] \/ evs = [EvFetch req; EvSleep 1200; EvFetch req]).
Proof.
  intros run req. unfold run.
  destruct (is_empty (trim (tokenEl_value (dom w)))) eqn:Htk.
  - exists []. rewrite RetryingFacts.callApi_no_token by exact Htk. cbn [fst snd trace fetched].
    rewrite List.app_nil_r. cbn. repeat split; auto; lia.
  - rewrite RetryingFacts.callApi_eq by exact Htk. cbn zeta. cbn [fst snd trace fetched].
    destruct (RetryingForm.retried _).
    + exists [EvFetch req; EvSleep 1200; EvFetch req]. cbn. repeat split; auto; lia.
    + exists [EvFetch req]. cbn. repeat split; auto; lia.
Qed.

Lemma retrying_request_shape (tk prompt : string) :
  inference_request retrying tk prompt (RetryingForm.request tk prompt).
Proof.
  unfold inference_request, RetryingForm.request, Retrying.make_headers.
  cbn [req_method req_body req_headers req_url].
  split; [reflexivity|]. split; [apply request_body_spelled|].
  split; [apply lookup_insert_eq|]. split; [reflexivity|].
  split; [rewrite lookup_insert_ne by done; apply lookup_insert_eq|].
  split; [rewrite !lookup_insert_ne by done; apply lookup_insert_eq|].
  intros k H1 H2 H3. rewrite !lookup_insert_ne by congruence. apply lookup_empty.
Qed.

Lemma permissive_request_shape (tk prompt : string) :
  inference_request permissive tk prompt (PermissiveForm.request tk prompt).
Proof.
  unfold inference_request, PermissiveForm.request.
  cbn [req_method req_body req_headers req_url].
  split; [reflexivity|]. split; [apply request_body_spelled|].
  split; [|reflexivity].
  now destruct (optional_bearer tk (Permissive.make_headers tk) eq_refl) as (H & _).
Qed.

Lemma callApi_of_requests (s : Script) (prompt originalText : string) (w : World Page) :
  let run := callApi_of s prompt originalText w in
  exists new,
    requests (trace (snd run)) = requests (trace w) ++ new
    /\ Forall (inference_request s (trim (tokenEl_value (dom w))) prompt) new
    /\ (sends s w -> new <> []).
Proof.
  intros run. unfold run. destruct s; cbn [callApi_of sends].
  - rewrite PermissiveFacts.permissive_callApi_eq. cbn zeta. cbn [snd trace].
    eexists. rewrite requests_snoc_fetch. split; [reflexivity|].
    split; [|discriminate].
    constructor; [apply permissive_request_shape | constructor].
  - destruct (is_empty (trim (tokenEl_value (dom w)))) eqn:Htk.
    + exists []. rewrite RetryingFacts.callApi_no_token by exact Htk. cbn [snd trace].
      rewrite List.app_nil_r. split; [reflexivity|]. split; [constructor | discriminate].
    + rewrite RetryingFacts.callApi_eq by exact Htk. cbn zeta. cbn [snd trace].
      rewrite requests_app.
      destruct (RetryingForm.retried _); eexists; (split; [reflexivity|]);
        (split; [|discriminate]);
        repeat (constructor; [apply retrying_request_shape|]); constructor.
Qed.

(** X3. Every request [callApi] sends, in either script and on either
    attempt, is a POST of the JSON object whose only property is [inputs]
    with the prompt as its value, declared as application/json; in the
    retrying script it goes to the address with [wait_for_model=true] and
    has exactly two more headers, the Bearer token and the accepted type.
    A script that gets as far as its request sends at least one. *)
Theorem every_request_posts_the_prompt
        (s : Script) (prompt originalText : string) (w : World Page) :
  let run := callApi_of s prompt originalText w in
  exists new,
    requests (trace (snd run)) = requests (trace w) ++ new
    /\ Forall (inference_request s (trim (tokenEl_value (dom w))) prompt) new
    /\ (sends s w -> new <> []).
Proof. apply callApi_of_requests. Qed.

Lemma every_request_posts_the_prompt_witness :
  exists new,
    requests (trace (snd (callApi_of retrying "p" "p"
                            (Samples.world "tok" [Samples.json_reply Samples.high_body]))))
    = new /\ new <> [].
Proof.
  destruct (every_request_posts_the_prompt retrying "p" "p"
              (Samples.world "tok" [Samples.json_reply Samples.high_body]))
    as (new & T & _ & H).
  exists new. split; [exact T | exact (H eq_refl)].
Defined.

(** X4. [callApi] never fails silently and never leaves the spinner on.
    In both scripts: when it returns [null] the error box is on display;
    when it returns a label the error box is as it was; the token field
    is never written; and whenever the script gets as far as its request
    the spinner is hidden in the end. *)
Theorem callApi_reports_and_hides_spinner
        (s : Script) (prompt originalText : string) (w : World Page) :
  let run := callApi_of s prompt originalText w in
  (fst run = Ok None -> errEl_display (dom (snd run)) = "block")
  /\ (forall r, fst run = Ok (Some r) ->
                errEl_textContent (dom (snd run)) = errEl_textContent (dom w)
                /\ errEl_display (dom (snd run)) = errEl_display (dom w))
  /\ tokenEl_value (dom (snd run)) = tokenEl_value (dom w)
  /\ (sends s w -> spinner_display (dom (snd run)) = "none").
Proof.
  intros run. unfold run.
  assert (G : forall v, let d := settled_page v (dom w) in
              (returned v = None -> errEl_display d = "block")
              /\ (forall r, returned v = Some r ->
                            errEl_textContent d = errEl_textContent (dom w)
                            /\ errEl_display d = errEl_display (dom w))
              /\ tokenEl_value d = tokenEl_value (dom w)
              /\ spinner_display d = "none").
  { intros [text|e]; cbn; repeat split; auto; discriminate. }
  destruct s; cbn [callApi_of sends].
  - rewrite PermissiveFacts.permissive_callApi_eq. cbn zeta. cbn [fst snd dom].
    destruct (G (PermissiveForm.verdict (net w (fetched w)))) as (G1 & G2 & G3 & G4).
    split; [intros X; injection X as X; auto|].
    split; [intros r X; injection X as X; now apply (G2 r)|]. auto.
  - destruct (is_empty (trim (tokenEl_value (dom w)))) eqn:Htk.
    + rewrite RetryingFacts.callApi_no_token by exact Htk. cbn [fst snd dom].
      cbn. repeat split; auto; discriminate.
    + rewrite RetryingFacts.callApi_eq by exact Htk. cbn zeta. cbn [fst snd dom].
      match goal with |- context [settled_page ?v _] =>
        destruct (G v) as (G1 & G2 & G3 & G4) end.
      split; [intros X; injection X as X; auto|].
      split; [intros r X; injection X as X; now apply (G2 r)|]. auto.
Qed.

Lemma callApi_reports_and_hides_spinner_witness :
  errEl_display (dom (snd (callApi_of permissive "p" "p" (Samples.world "tok" [])))) = "block".
Proof.
  exact (proj1 (callApi_reports_and_hides_spinner permissive "p" "p" (Samples.world "tok" []))
               eq_refl).
Defined.

Lemma firstLine_normal (text : json) :
  let r := firstLine text in
  all_chars not_LF r = true /\ all_chars not_upper r = true
  /\ starts_with_space r = false /\ ends_with_space r = false.
Proof.
  unfold firstLine. cbn zeta. split; [|split].
  - apply all_chars_trim, toLowerCase_not_LF, first_line_not_LF.
  - apply all_chars_trim, toLowerCase_not_upper.
  - apply trim_no_space.
Qed.

(** X5. Every label [callApi] returns, in either script and whatever the
    response was, is one line in lower case without white space around
    it: it holds no line feed and no upper-case letter, it neither starts
    nor ends with white space, and lower-casing or trimming it again
    changes nothing. *)
Theorem returned_label_is_normal
        (s : Script) (prompt originalText : string) (w : World Page) (r : string) :
  fst (callApi_of s prompt originalText w) = Ok (Some r) ->
  all_chars not_LF r = true
  /\ all_chars not_upper r = true
  /\ starts_with_space r = false
  /\ ends_with_space r = false
  /\ toLowerCase r = r
  /\ trim r = r.
Proof.
  intros H. destruct (callApi_of_returned s prompt originalText w) as [v Hv].
  rewrite Hv in H. destruct v as [text|e]; [|discriminate H].
  injection H as <-.
  destruct (firstLine_normal text) as (H1 & H2 & H3 & H4).
  repeat split; auto.
  - now apply toLowerCase_fixed.
  - unfold trim at 1. now rewrite (trimStart_fixed _ H3), (trimEnd_fixed _ H4).
Qed.

Lemma returned_label_is_normal_witness :
  trim "high" = "high".
Proof.
  exact (proj2 (proj2 (proj2 (proj2 (proj2
          (returned_label_is_normal retrying "p" "p"
             (Samples.world "tok" [Samples.json_reply Samples.high_body]) "high"
             eq_refl)))))).
Defined.

(** X6. In the retrying script only failures of the attempt itself can be
    retried.  Once a response with an [ok] status has delivered its JSON,
    the call is over after this one request, with no wait, whatever the
    body holds: when no text is taken from the body it returns [null]
    with an error on display, and an error found in the body is reported
    at once, also when its text mentions 503, 404 or a warm-up; when a
    text is taken, it returns its first line, normalised (stated for the
    values whose text is modelled). *)
Theorem delivered_body_is_final (prompt : string) (w : World Page) (res : Response) (data : json) :
  is_empty (trim (tokenEl_value (dom w))) = false ->
  net w (fetched w) = Ok res ->
  ok res = true ->
  json_result res = Ok data ->
  let run := Retrying.callApi prompt w in
  trace (snd run)
  = trace w ++ [EvFetch (RetryingForm.request (trim (tokenEl_value (dom w))) prompt)]
  /\ (taken_text retrying data = None ->
      fst run = Ok None /\ errEl_display (dom (snd run)) = "block")
  /\ (forall v, taken_text retrying data = Some v -> printable v = true ->
                fst run = Ok (Some (firstLine v)))
  /\ (forall msg, Js.prop data "generated_text" = None -> first_generated_text data = None ->
                  Js.prop data "error" = Some (JStr msg) -> msg <> EmptyString ->
                  fst run = Ok None /\ errEl_textContent (dom (snd run)) = msg).
Proof.
  intros Htk Hnet Hok Hjs run. unfold run.
  assert (E : RetryingForm.answer (net w (fetched w)) = Ok data)
    by (unfold RetryingForm.answer; now rewrite Hnet, Hok).
  rewrite RetryingFacts.callApi_eq by exact Htk. cbn zeta. rewrite E.
  cbn [RetryingForm.retried RetryingForm.verdict fst snd trace dom].
  split; [reflexivity|].
  pose proof (parse_generation_taken retrying data) as P. cbn [parse_generation_of] in P.
  split; [intros T; rewrite P, T; now split|].
  split; [intros v T _; now rewrite P, T|].
  intros msg H1 H2 H3 Hne.
  destruct (absent_text_refused retrying data (conj H2 H1)) as (e & He & Hmsg & _).
  cbn [parse_generation_of] in He. rewrite He, (Hmsg msg H3 Hne).
  cbn [returned settled_page errEl_textContent]. split; [reflexivity|].
  unfold message_or_self, Error. cbn [err_message].
  apply is_empty_false in Hne. now rewrite Hne.
Qed.

Lemma delivered_body_is_final_witness :
  waits (trace (snd (Retrying.callApi "p"
                       (Samples.world "tok"
                          [Samples.json_reply (JObj [("error", JStr "503 warming up")])]))))
  = [].
Proof.
  pose proof (proj1 (delivered_body_is_final "p"
                       (Samples.world "tok"
                          [Samples.json_reply (JObj [("error", JStr "503 warming up")])])
                       (mkResponse 200 "OK"
                          (Ok (Js.stringify (JObj [("error", JStr "503 warming up")])))
                          (Ok (JObj [("error", JStr "503 warming up")])))
                       (JObj [("error", JStr "503 warming up")])
                       eq_refl eq_refl eq_refl eq_refl)) as T.
  cbn zeta in T. rewrite T. reflexivity.
Defined.

(** ** The handlers of the inference pages *)

Module HandlersFacts.
Import Handlers HandlersForm.

Lemma on_page_eq {A} (m : M Page A) (w : World App) :
  on_page m w =
  (fst (m (mkWorld (net w) (fetched w) (trace w) (page (dom w)))),
   mkWorld (net (snd (m (mkWorld (net w) (fetched w) (trace w) (page (dom w))))))
           (fetched (snd (m (mkWorld (net w) (fetched w) (trace w) (page (dom w))))))
           (trace (snd (m (mkWorld (net w) (fetched w) (trace w) (page (dom w))))))
           (with_page (dom w)
              (dom (snd (m (mkWorld (net w) (fetched w) (trace w) (page (dom w)))))))).
Proof. unfold on_page. now destruct (m _). Qed.

Ltac run_handler :=
  cbv beta iota delta [bind read update ret resetUI set_sent set_noun set_review set_reviews
                       set_ready];
  cbn [dom net fetched trace fst snd page reviewEl_value sentEl_textContent
       nounEl_textContent reviews ready].

Lemma callApi_of_value (s : Script) (prompt originalText : string) (w : World Page) :
  exists out, fst (callApi_of s prompt originalText w) = Ok out.
Proof.
  destruct (callApi_of_returned s prompt originalText w) as [v Hv]. eauto.
Qed.

Lemma onSentiment_blank (s : Script) (w : World App) :
  is_empty (trim (reviewEl_value (dom w))) = true ->
  onSentiment s w =
  (Ok tt, mkWorld (net w) (fetched w) (trace w)
            (with_page (reset true (dom w))
               (mkPage (tokenEl_value (page (dom w))) "Please provide review text." "block"
                       (spinner_display (page (dom w)))))).
Proof.
  intros H. unfold onSentiment. run_handler. rewrite H. rewrite on_page_eq. reflexivity.
Qed.

Lemma onNouns_blank (s : Script) (w : World App) :
  is_empty (trim (reviewEl_value (dom w))) = true ->
  onNouns s w =
  (Ok tt, mkWorld (net w) (fetched w) (trace w)
            (with_page (reset true (dom w))
               (mkPage (tokenEl_value (page (dom w))) "Please provide review text." "block"
                       (spinner_display (page (dom w)))))).
Proof.
  intros H. unfold onNouns. run_handler. rewrite H. rewrite on_page_eq. reflexivity.
Qed.

Lemma onSentiment_eq (s : Script) (w : World App) :
  is_empty (trim (reviewEl_value (dom w))) = false ->
  let call := sentiment_call s w in
  onSentiment s w =
  (Ok tt, mkWorld (net (snd call)) (fetched (snd call)) (trace (snd call))
            (mkApp (dom (snd call)) (reviewEl_value (dom w))
                   (match label_of call with Some first => emoji_of first | None => DASH end)
                   DASH (reviews (dom w)) (ready (dom w)))).
Proof.
  intros H call. unfold call, sentiment_call, call_world, reset, label_of, onSentiment.
  run_handler. rewrite H. rewrite on_page_eq.
  cbn [dom net fetched trace fst snd page].
  match goal with
  | |- context [fst (callApi_of ?a ?b ?c ?d)] =>
      destruct (callApi_of_value a b c d) as [out Hout]; rewrite Hout
  end.
  destruct (usable out); reflexivity.
Qed.

Lemma onNouns_eq (s : Script) (w : World App) :
  is_empty (trim (reviewEl_value (dom w))) = false ->
  let call := nouns_call s w in
  onNouns s w =
  (Ok tt, mkWorld (net (snd call)) (fetched (snd call)) (trace (snd call))
            (mkApp (dom (snd call)) (reviewEl_value (dom w)) DASH
                   (match label_of call with Some first => badge_of first | None => DASH end)
                   (reviews (dom w)) (ready (dom w)))).
Proof.
  intros H call. unfold call, nouns_call, call_world, reset, label_of, onNouns.
  run_handler. rewrite H. rewrite on_page_eq.
  cbn [dom net fetched trace fst snd page].
  match goal with
  | |- context [fst (callApi_of ?a ?b ?c ?d)] =>
      destruct (callApi_of_value a b c d) as [out Hout]; rewrite Hout
  end.
  destruct (usable out); reflexivity.
Qed.

End HandlersFacts.

(** ** The index drawn *)

Lemma round53_nonneg (p : Z) : 0 <= p -> 0 <= round53 p.
Proof.
  intros Hp. unfold round53.
  destruct (Z.log2 p + 1 <=? 53) eqn:B; [exact Hp|].
  apply Z.leb_gt in B.
  set (unit := 2 ^ (Z.log2 p + 1 - 53)).
  assert (Hu : 0 < unit) by (apply Z.pow_pos_nonneg; lia).
  pose proof (Z.div_pos p unit Hp Hu) as Hq.
  repeat match goal with |- context [if ?b then _ else _] => destruct b end; nia.
Qed.

(** Rounding adds at most half a unit of the last place, which is at most
    the [2 ^ 53]th part of the number. *)
Lemma round53_bound (p : Z) : 0 <= p -> 2 ^ 53 * round53 p <= (2 ^ 53 + 1) * p.
Proof.
  intros Hp. unfold round53.
  destruct (Z.log2 p + 1 <=? 53) eqn:B; [nia|].
  apply Z.leb_gt in B.
  assert (Hpos : 0 < p).
  { destruct (Z.eq_dec p 0) as [->|]; [cbn in B; lia | lia]. }
  set (s := Z.log2 p + 1 - 53) in *.
  set (unit := 2 ^ s).
  assert (Hs : 1 <= s) by (unfold s; lia).
  assert (Hu : 0 < unit) by (apply Z.pow_pos_nonneg; lia).
  assert (Hlog : 2 ^ 52 * unit <= p).
  { unfold unit. rewrite <- Z.pow_add_r by lia.
    replace (52 + s) with (Z.log2 p) by (unfold s; lia).
    apply Z.log2_spec. exact Hpos. }
  pose proof (Z.div_mod p unit ltac:(lia)) as Hdm.
  pose proof (Z.mod_pos_bound p unit Hu) as Hr.
  set (q := p / unit) in *. set (rest := p mod unit) in *.
  change (2 ^ 53) with 9007199254740992 in *. change (2 ^ 52) with 4503599627370496 in *.
  destruct (2 * rest <? unit) eqn:C1.
  - nia.
  - apply Z.ltb_ge in C1.
    assert (H2 : 2 * (unit * (q + 1)) <= 2 * p + unit) by nia.
    destruct (unit <? 2 * rest); [nia|].
    destruct (Z.even q); nia.
Qed.

(** A double below one is at most [1 - 2 ^ -53], and the rounding of its
    product with [len] cannot make up for that: the index stays below
    [len]. *)
Lemma random_index_lt (r : Draw) (len : nat) :
  below_one r -> (0 < len)%nat -> (random_index r len < len)%nat.
Proof.
  intros [[[Hm0 Hm] [Hk0 Hk]] Hlt] Hlen. unfold random_index.
  set (m := draw_mantissa r) in *. set (k := draw_exponent r) in *.
  set (n := Z.of_nat len).
  assert (Hn : 0 < n) by (unfold n; lia).
  assert (H2k : 0 < 2 ^ k) by (apply Z.pow_pos_nonneg; lia).
  assert (Hp : 0 <= m * n) by nia.
  pose proof (round53_bound (m * n) Hp) as Hb.
  pose proof (round53_nonneg (m * n) Hp) as Hr0.
  assert (Hx : 2 ^ 53 * m <= (2 ^ 53 - 1) * 2 ^ k).
  { destruct (Z_le_gt_dec 53 k) as [Hc|Hc].
    - assert (2 ^ 53 <= 2 ^ k) by (apply Z.pow_le_mono_r; lia). nia.
    - assert (2 ^ k <= 2 ^ 53) by (apply Z.pow_le_mono_r; lia). nia. }
  assert (Hlt2 : round53 (m * n) < n * 2 ^ k).
  { set (R := round53 (m * n)) in *. set (K := 2 ^ k) in *. set (A := 2 ^ 53) in *.
    assert (HA : 0 < A) by (unfold A; lia).
    assert (H1 : A * (A * R) <= (A + 1) * ((A * m) * n)) by nia.
    assert (H2 : (A + 1) * ((A * m) * n) <= (A + 1) * (((A - 1) * K) * n)).
    { apply Z.mul_le_mono_nonneg_l; [lia|]. apply Z.mul_le_mono_nonneg_r; lia. }
    assert (H3 : (A + 1) * (((A - 1) * K) * n) < A * (A * (n * K))).
    { replace ((A + 1) * (((A - 1) * K) * n)) with (A * (A * (n * K)) - n * K) by ring.
      assert (0 < n * K) by (apply Z.mul_pos_pos; lia). lia. }
    assert (H4 : A * (A * R) < A * (A * (n * K))) by lia.
    apply Z.mul_lt_mono_pos_l in H4; [|exact HA].
    apply Z.mul_lt_mono_pos_l in H4; [|exact HA]. exact H4. }
  assert (Hd : round53 (m * n) / 2 ^ k < n).
  { apply Z.div_lt_upper_bound; [exact H2k | nia]. }
  assert (Hd0 : 0 <= round53 (m * n) / 2 ^ k) by (apply Z.div_pos; lia).
  unfold n in *. lia.
Qed.

Lemma signs_distinct :
  Handlers.THUMBS_UP <> Handlers.THUMBS_DOWN /\ Handlers.THUMBS_UP <> Handlers.QUESTION
  /\ Handlers.THUMBS_UP <> Handlers.DASH /\ Handlers.THUMBS_DOWN <> Handlers.QUESTION
  /\ Handlers.THUMBS_DOWN <> Handlers.DASH /\ Handlers.QUESTION <> Handlers.DASH
  /\ Handlers.GREEN <> Handlers.YELLOW /\ Handlers.GREEN <> Handlers.RED
  /\ Handlers.GREEN <> Handlers.DASH /\ Handlers.YELLOW <> Handlers.RED
  /\ Handlers.YELLOW <> Handlers.DASH /\ Handlers.RED <> Handlers.DASH.
Proof. repeat split; discriminate. Qed.

Lemma includes_nonempty (m first : string) :
  m <> EmptyString -> includes m first = true -> first <> EmptyString.
Proof. intros Hm H ->. destruct m; [congruence | discriminate H]. Qed.

Lemma usable_Some (out : option string) (first : string) :
  Handlers.usable out = Some first <-> out = Some first /\ first <> EmptyString.
Proof.
  unfold Handlers.usable. destruct out as [f|]; [|split; [discriminate | intros [? _]; discriminate]].
  destruct (is_empty f) eqn:E.
  - apply is_empty_true in E. subst f. split; [discriminate|]. intros [[= <-] H]. congruence.
  - apply is_empty_false in E. split; [intros [= <-]; auto | intros [[= <-] _]; reflexivity].
Qed.

Lemma usable_None (out : option string) :
  Handlers.usable out = None <-> out = None \/ out = Some EmptyString.
Proof.
  unfold Handlers.usable. destruct out as [f|]; [|split; auto].
  destruct (is_empty f) eqn:E.
  - apply is_empty_true in E. subst f. split; auto.
  - apply is_empty_false in E. split; [discriminate|]. intros [H | [= H]]; congruence.
Qed.

(** X7. With an empty or blank review box, [onSentiment] and [onNouns]
    ask nothing of the network: they show the request for a review text,
    put both badges back to the dash and leave the review box, the loaded
    reviews and the trace as they were. *)
Theorem blank_review_stops_handlers (s : Script) (w : World App) :
  trim (reviewEl_value (dom w)) = EmptyString ->
  forall run, run = Handlers.onSentiment s w \/ run = Handlers.onNouns s w ->
    fst run = Ok tt
    /\ trace (snd run) = trace w
    /\ fetched (snd run) = fetched w
    /\ errEl_textContent (page (dom (snd run))) = "Please provide review text."
    /\ errEl_display (page (dom (snd run))) = "block"
    /\ sentEl_textContent (dom (snd run)) = Handlers.DASH
    /\ nounEl_textContent (dom (snd run)) = Handlers.DASH
    /\ reviewEl_value (dom (snd run)) = reviewEl_value (dom w)
    /\ reviews (dom (snd run)) = reviews (dom w).
Proof.
  intros H run Hrun. apply is_empty_true in H.
  destruct Hrun as [-> | ->];
    [rewrite (HandlersFacts.onSentiment_blank s w H)
    | rewrite (HandlersFacts.onNouns_blank s w H)];
    cbn; repeat split.
Qed.

Lemma blank_review_stops_handlers_witness :
  trace (snd (Handlers.onNouns retrying
                (Samples2.app_world "tok" "  " [] true [Samples.json_reply Samples.high_body])))
  = [].
Proof.
  exact (proj1 (proj2 (blank_review_stops_handlers retrying
                         (Samples2.app_world "tok" "  " [] true
                            [Samples.json_reply Samples.high_body])
                         eq_refl _ (or_intror eq_refl)))).
Defined.

(** X8. With a review in the box, [onSentiment] never throws and does to
    the network and to the elements of [callApi] exactly what its one call
    of [callApi] does; it always puts the noun badge back to the dash.
    The sentiment badge is the thumb up exactly when the call returned a
    label containing [positive], the thumb down exactly when the label
    contains [negative] but not [positive], the question mark for every
    other non-empty label, and stays the dash exactly when the call
    returned [null] or an empty label. *)
Theorem sentiment_badge (s : Script) (w : World App) :
  trim (reviewEl_value (dom w)) <> EmptyString ->
  let call := HandlersForm.sentiment_call s w in
  let run := Handlers.onSentiment s w in
  let sent := sentEl_textContent (dom (snd run)) in
  fst run = Ok tt
  /\ trace (snd run) = trace (snd call)
  /\ page (dom (snd run)) = dom (snd call)
  /\ nounEl_textContent (dom (snd run)) = Handlers.DASH
  /\ (sent = Handlers.THUMBS_UP
      <-> exists first, fst call = Ok (Some first) /\ includes "positive" first = true)
  /\ (sent = Handlers.THUMBS_DOWN
      <-> exists first, fst call = Ok (Some first) /\ includes "positive" first = false
                        /\ includes "negative" first = true)
  /\ (sent = Handlers.QUESTION
      <-> exists first, fst call = Ok (Some first) /\ first <> EmptyString
                        /\ includes "positive" first = false
                        /\ includes "negative" first = false)
  /\ (sent = Handlers.DASH <-> fst call = Ok None \/ fst call = Ok (Some EmptyString)).
Proof.
  intros H call run sent. apply is_empty_false in H.
  unfold sent, run. rewrite (HandlersFacts.onSentiment_eq s w H). cbn zeta.
  fold call. cbn [fst snd dom trace page sentEl_textContent nounEl_textContent].
  do 4 (split; [reflexivity|]).
  destruct (HandlersFacts.callApi_of_value s
              (Handlers.sentiment_prompt (trim (reviewEl_value (dom w))))
              (trim (reviewEl_value (dom w))) (HandlersForm.call_world w)) as [out Hout].
  change (fst call = Ok out) in Hout. unfold HandlersForm.label_of. rewrite Hout.
  destruct signs_distinct as (D1 & D2 & D3 & D4 & D5 & D6 & _).
  destruct (Handlers.usable out) as [first|] eqn:U.
  - apply usable_Some in U as [-> Hne]. unfold Handlers.emoji_of.
    destruct (includes "positive" first) eqn:P; [|destruct (includes "negative" first) eqn:N].
    + split; [split; [eauto | reflexivity]|].
      split; [split; [congruence | intros (f & [= <-] & X & _); congruence]|].
      split; [split; [congruence | intros (f & [= <-] & _ & X & _); congruence]|].
      split; [congruence | intros [[=] | [= ->]]; congruence].
    + split; [split; [congruence | intros (f & [= <-] & X); congruence]|].
      split; [split; [eauto | reflexivity]|].
      split; [split; [congruence | intros (f & [= <-] & _ & _ & X); congruence]|].
      split; [congruence | intros [[=] | [= ->]]; congruence].
    + assert (Q : (if includes "neutral" first then Handlers.QUESTION else Handlers.QUESTION)
                  = Handlers.QUESTION) by (destruct (includes "neutral" first); reflexivity).
      rewrite Q.
      split; [split; [congruence | intros (f & [= <-] & X); congruence]|].
      split; [split; [congruence | intros (f & [= <-] & _ & X); congruence]|].
      split; [split; [eauto | reflexivity]|].
      split; [congruence | intros [[=] | [= ->]]; congruence].
  - apply usable_None in U.
    split; [split; [congruence | intros (f & [= ->] & X)]|].
    { destruct U as [[=] | [= ->]]. discriminate X. }
    split; [split; [congruence | intros (f & [= ->] & _ & X)]|].
    { destruct U as [[=] | [= ->]]. discriminate X. }
    split; [split; [congruence | intros (f & [= ->] & X & _)]|].
    { destruct U as [[=] | [= ->]]. congruence. }
    split; [intros _ | reflexivity].
    destruct U as [-> | ->]; auto.
Qed.

Lemma sentiment_badge_witness :
  fst (Handlers.onSentiment retrying
         (Samples2.app_world "tok" "Great phone" [] true
            [Samples.json_reply Samples.positive_body]))
  = Ok tt.
Proof.
  refine (proj1 (sentiment_badge retrying
                   (Samples2.app_world "tok" "Great phone" [] true
                      [Samples.json_reply Samples.positive_body]) _)).
  vm_compute. discriminate.
Defined.

Example sentiment_badge_sample :
  sentEl_textContent
    (dom (snd (Handlers.onSentiment retrying
                 (Samples2.app_world "tok" "Great phone" [] true
                    [Samples.json_reply Samples.positive_body]))))
  = Handlers.THUMBS_UP.
Proof. vm_compute. reflexivity. Qed.

(** X9. With a review in the box, [onNouns] never throws, does to the
    network and to the elements of [callApi] exactly what its one call of
    [callApi] does, and always puts the sentiment badge back to the dash.
    The noun badge is green exactly when the call returned a label
    containing [high], yellow exactly when the label contains [medium] but
    not [high], red exactly when it contains [low] but neither of them;
    in every other case, a failed call and an unrecognised label alike,
    it is the dash. *)
Theorem noun_badge (s : Script) (w : World App) :
  trim (reviewEl_value (dom w)) <> EmptyString ->
  let call := HandlersForm.nouns_call s w in
  let run := Handlers.onNouns s w in
  let noun := nounEl_textContent (dom (snd run)) in
  fst run = Ok tt
  /\ trace (snd run) = trace (snd call)
  /\ page (dom (snd run)) = dom (snd call)
  /\ sentEl_textContent (dom (snd run)) = Handlers.DASH
  /\ (noun = Handlers.GREEN
      <-> exists first, fst call = Ok (Some first) /\ includes "high" first = true)
  /\ (noun = Handlers.YELLOW
      <-> exists first, fst call = Ok (Some first) /\ includes "high" first = false
                        /\ includes "medium" first = true)
  /\ (noun = Handlers.RED
      <-> exists first, fst call = Ok (Some first) /\ includes "high" first = false
                        /\ includes "medium" first = false /\ includes "low" first = true)
  /\ (noun = Handlers.DASH
      <-> forall first, fst call = Ok (Some first) ->
                        includes "high" first = false /\ includes "medium" first = false
                        /\ includes "low" first = false).
Proof.
  intros H call run noun. apply is_empty_false in H.
  unfold noun, run. rewrite (HandlersFacts.onNouns_eq s w H). cbn zeta.
  fold call. cbn [fst snd dom trace page sentEl_textContent nounEl_textContent].
  do 4 (split; [reflexivity|]).
  destruct (HandlersFacts.callApi_of_value s
              (Handlers.nouns_prompt (trim (reviewEl_value (dom w))))
              (trim (reviewEl_value (dom w))) (HandlersForm.call_world w)) as [out Hout].
  change (fst call = Ok out) in Hout. unfold HandlersForm.label_of. rewrite Hout.
  destruct signs_distinct as (_ & _ & _ & _ & _ & _ & D1 & D2 & D3 & D4 & D5 & D6).
  destruct (Handlers.usable out) as [first|] eqn:U.
  - apply usable_Some in U as [-> Hne]. unfold Handlers.badge_of.
    destruct (includes "high" first) eqn:P;
      [|destruct (includes "medium" first) eqn:N; [|destruct (includes "low" first) eqn:L]].
    + split; [split; [eauto | reflexivity]|].
      split; [split; [congruence | intros (f & [= <-] & X & _); congruence]|].
      split; [split; [congruence | intros (f & [= <-] & X & _); congruence]|].
      split; [congruence | intros X; destruct (X first eq_refl); congruence].
    + split; [split; [congruence | intros (f & [= <-] & X); congruence]|].
      split; [split; [eauto | reflexivity]|].
      split; [split; [congruence | intros (f & [= <-] & _ & X & _); congruence]|].
      split; [congruence | intros X; destruct (X first eq_refl) as (_ & ? & _); congruence].
    + split; [split; [congruence | intros (f & [= <-] & X); congruence]|].
      split; [split; [congruence | intros (f & [= <-] & _ & X); congruence]|].
      split; [split; [eauto | reflexivity]|].
      split; [congruence | intros X; destruct (X first eq_refl) as (_ & _ & ?); congruence].
    + split; [split; [congruence | intros (f & [= <-] & X); congruence]|].
      split; [split; [congruence | intros (f & [= <-] & _ & X); congruence]|].
      split; [split; [congruence | intros (f & [= <-] & _ & _ & X); congruence]|].
      split; [intros _ f [= <-]; auto | reflexivity].
  - apply usable_None in U.
    split; [split; [congruence | intros (f & [= ->] & X)]|].
    { destruct U as [[=] | [= ->]]. discriminate X. }
    split; [split; [congruence | intros (f & [= ->] & _ & X)]|].
    { destruct U as [[=] | [= ->]]. discriminate X. }
    split; [split; [congruence | intros (f & [= ->] & _ & _ & X)]|].
    { destruct U as [[=] | [= ->]]. discriminate X. }
    split; [|reflexivity]. intros _ f [= ->].
    destruct U as [[=] | [= ->]]. repeat split.
Qed.

Lemma noun_badge_witness :
  sentEl_textContent
    (dom (snd (Handlers.onNouns permissive
                 (Samples2.app_world EmptyString "Great phone" [] true
                    [Samples.json_reply Samples.high_body]))))
  = Handlers.DASH.
Proof.
  refine (proj1 (proj2 (proj2 (proj2
            (noun_badge permissive
               (Samples2.app_world EmptyString "Great phone" [] true
                  [Samples.json_reply Samples.high_body]) _))))).
  vm_compute. discriminate.
Defined.

Module RandomFacts.
Import Handlers HandlersForm.

Lemma onRandom_eq (r : Draw) (w : World App) :
  onRandom r w =
  (Ok tt,
   mkWorld (net w) (fetched w) (trace w)
     (if negb (ready (dom w)) || (length (reviews (dom w)) =? 0)%nat
      then with_page (reset false (dom w))
             (mkPage (tokenEl_value (page (dom w))) "Data not loaded." "block"
                     (spinner_display (page (dom w))))
      else mkApp (page (reset false (dom w)))
                 (match reviews (dom w) !! random_index r (length (reviews (dom w))) with
                  | Some v => v
                  | None => "undefined"
                  end)
                 (sentEl_textContent (dom w)) (nounEl_textContent (dom w))
                 (reviews (dom w)) (ready (dom w)))).
Proof.
  unfold onRandom. HandlersFacts.run_handler.
  destruct (negb (ready (dom w)) || (length (reviews (dom w)) =? 0)%nat).
  - rewrite HandlersFacts.on_page_eq. reflexivity.
  - reflexivity.
Qed.

End RandomFacts.

(** X10. [onRandom] never touches the network or the badges.  While the
    data are not ready or no review is loaded it shows that the data are
    not loaded and leaves the review box alone; otherwise, the random
    number being a double below one, it hides the error box and puts into
    the review box one of the loaded reviews: the one at the floor of the
    product of the random number and the number of reviews, the product
    being rounded to a double as the multiplication does. *)
Theorem onRandom_picks_a_loaded_review (r : Draw) (w : World App) :
  let run := Handlers.onRandom r w in
  fst run = Ok tt
  /\ trace (snd run) = trace w /\ fetched (snd run) = fetched w
  /\ sentEl_textContent (dom (snd run)) = sentEl_textContent (dom w)
  /\ nounEl_textContent (dom (snd run)) = nounEl_textContent (dom w)
  /\ reviews (dom (snd run)) = reviews (dom w)
  /\ (ready (dom w) = false \/ reviews (dom w) = [] ->
      errEl_textContent (page (dom (snd run))) = "Data not loaded."
      /\ errEl_display (page (dom (snd run))) = "block"
      /\ reviewEl_value (dom (snd run)) = reviewEl_value (dom w))
  /\ (ready (dom w) = true -> reviews (dom w) <> [] -> below_one r ->
      errEl_display (page (dom (snd run))) = "none"
      /\ errEl_textContent (page (dom (snd run))) = EmptyString
      /\ reviews (dom w) !! random_index r (length (reviews (dom w)))
         = Some (reviewEl_value (dom (snd run)))
      /\ In (reviewEl_value (dom (snd run))) (reviews (dom w))).
Proof.
  intros run. unfold run. rewrite RandomFacts.onRandom_eq. cbn [fst snd trace fetched dom].
  split; [reflexivity|]. split; [reflexivity|]. split; [reflexivity|].
  destruct (negb (ready (dom w)) || (length (reviews (dom w)) =? 0)%nat) eqn:G.
  - cbn. do 3 (split; [reflexivity|]). split; [auto|].
    intros Hr Hl _. rewrite Hr in G. cbn in G. apply Nat.eqb_eq in G.
    destruct (reviews (dom w)); [congruence | discriminate G].
  - cbn [sentEl_textContent nounEl_textContent reviews page reviewEl_value].
    do 3 (split; [reflexivity|]).
    apply orb_false_iff in G as [G1 G2]. apply negb_false_iff in G1. apply Nat.eqb_neq in G2.
    split.
    + intros [Hr | Hl]; [congruence | rewrite Hl in G2; cbn in G2; congruence].
    + intros _ _ Hd. cbn.
      destruct (lookup_lt_is_Some_2 (reviews (dom w))
                  (random_index r (length (reviews (dom w))))) as [v Hv].
      { apply random_index_lt; [exact Hd | lia]. }
      rewrite Hv. repeat split. apply list_elem_of_In. eapply list_elem_of_lookup_2. exact Hv.
Qed.

Lemma onRandom_picks_a_loaded_review_witness :
  reviewEl_value
    (dom (snd (Handlers.onRandom Samples2.two_thirds
                 (Samples2.app_world "tok" EmptyString ["a"; "b"; "c"] true []))))
  = "c".
Proof.
  destruct (onRandom_picks_a_loaded_review Samples2.two_thirds
              (Samples2.app_world "tok" EmptyString ["a"; "b"; "c"] true []))
    as (_ & _ & _ & _ & _ & _ & _ & H).
  destruct H as (_ & _ & H & _);
    [reflexivity | discriminate | unfold below_one, is_double; cbn; lia |].
  apply (f_equal (fun o => match o with Some v => v | None => EmptyString end)) in H.
  symmetry. exact H.
Defined.

(** The rounding shows: the exact product of [Samples2.two_thirds] and 3 is
    below 2, the product of the doubles is 2. *)
Example rounded_product_sample :
  (draw_mantissa Samples2.two_thirds * 3 / 2 ^ draw_exponent Samples2.two_thirds = 1
   /\ random_index Samples2.two_thirds 3 = 2%nat)
  /\ random_index Samples2.half 2 = 1%nat
  /\ random_index Samples2.largest 3 = 2%nat.
Proof. vm_compute. repeat split. Qed.

(** ** Loading the reviews *)

Module LoadFacts.
Import Handlers HandlersForm.

Lemma row_texts_clean (rows : list (option string)) : Forall clean (row_texts rows).
Proof.
  apply Forall_forall. intros x Hx. unfold row_texts in Hx.
  apply list_elem_of_filter in Hx as [Hne Hin].
  apply list_elem_of_fmap in Hin as (y & -> & _).
  split; [now apply is_empty_false | apply trim_idempotent].
Qed.

Ltac run_load :=
  cbv beta iota delta [bind read update ret resetUI set_reviews set_ready try_catch
                       try_finally throw await loadTSV init];
  cbn [dom net fetched trace fst snd page reviewEl_value sentEl_textContent
       nounEl_textContent reviews ready].

(** All that [loadTSV] does, from a state without reviews. *)
Lemma loadTSV_outcome (Papa_parse : string -> Parsed) (file : Result Response) (w : World App) :
  reviews (dom w) = [] ->
  let run := loadTSV Papa_parse file w in
  fst run = Ok tt
  /\ trace (snd run) = trace w /\ fetched (snd run) = fetched w /\ net (snd run) = net w
  /\ ready (dom (snd run)) = ready (dom w)
  /\ reviewEl_value (dom (snd run)) = reviewEl_value (dom w)
  /\ tokenEl_value (page (dom (snd run))) = tokenEl_value (page (dom w))
  /\ Forall clean (reviews (dom (snd run)))
  /\ (reviews (dom (snd run)) = [] <-> errEl_display (page (dom (snd run))) = "block")
  /\ (errEl_display (page (dom (snd run))) = "block" ->
      exists m, errEl_textContent (page (dom (snd run)))
                = "Failed to load TSV." +:+ Js.NL +:+ m)
  /\ (reviews (dom (snd run)) <> [] ->
      errEl_display (page (dom (snd run))) = "none"
      /\ exists res text,
          file = Ok res /\ ok res = true /\ text_result res = Ok text
          /\ reviews (dom (snd run)) = row_texts (data_text (Papa_parse text))).
Proof.
  intros H0 run. unfold run. run_load.
  destruct file as [res|e].
  - destruct (ok res) eqn:Hok; cbn [negb].
    + destruct (text_result res) as [text|e] eqn:Ht.
      * cbn [dom net fetched trace fst snd page reviews].
        destruct (length (row_texts (data_text (Papa_parse text))) =? 0)%nat eqn:L.
        -- rewrite HandlersFacts.on_page_eq. cbn.
           apply Nat.eqb_eq in L.
           assert (E : row_texts (data_text (Papa_parse text)) = [])
             by (destruct (row_texts _); [reflexivity | discriminate L]).
           rewrite E. repeat split; auto; try congruence. eauto.
        -- cbn. apply Nat.eqb_neq in L.
           assert (E : row_texts (data_text (Papa_parse text)) <> [])
             by (intros E; rewrite E in L; cbn in L; congruence).
           repeat split; auto; try congruence; try discriminate.
           ++ apply row_texts_clean.
           ++ exists res, text. auto.
      * rewrite HandlersFacts.on_page_eq. cbn. rewrite H0.
        repeat split; auto; try congruence. eauto.
    + rewrite HandlersFacts.on_page_eq. cbn. rewrite H0.
      repeat split; auto; try congruence. eauto.
  - rewrite HandlersFacts.on_page_eq. cbn. rewrite H0.
    repeat split; auto; try congruence. eauto.
Qed.

Lemma init_eq (Papa_parse : string -> Parsed) (file : Result Response) (w : World App) :
  fst (loadTSV Papa_parse file w) = Ok tt ->
  init Papa_parse file w =
  (Ok tt,
   mkWorld (net (snd (loadTSV Papa_parse file w))) (fetched (snd (loadTSV Papa_parse file w)))
           (trace (snd (loadTSV Papa_parse file w)))
           (mkApp (page (dom (snd (loadTSV Papa_parse file w))))
                  (reviewEl_value (dom (snd (loadTSV Papa_parse file w))))
                  (sentEl_textContent (dom (snd (loadTSV Papa_parse file w))))
                  (nounEl_textContent (dom (snd (loadTSV Papa_parse file w))))
                  (reviews (dom (snd (loadTSV Papa_parse file w)))) true)).
Proof.
  intros H. unfold init, try_finally, set_ready, update.
  destruct (loadTSV Papa_parse file w) as [r w']. cbn in *. now rewrite H.
Qed.

End LoadFacts.

(** X11. [loadTSV] never throws and never touches the trace of the
    inference requests, the review box or the token.  Started without
    reviews it ends in one of two states: either no review is loaded and
    the error box shows a message that starts with the notice of the
    failed load; or the error box is hidden and the reviews are the texts
    of the rows of the file, trimmed, in order, the blank ones left out.
    In both states every loaded review is non-empty and trimmed. *)
Theorem loadTSV_keeps_clean_reviews
        (Papa_parse : string -> Parsed) (file : Result Response) (w : World App) :
  reviews (dom w) = [] ->
  let run := Handlers.loadTSV Papa_parse file w in
  fst run = Ok tt
  /\ trace (snd run) = trace w
  /\ reviewEl_value (dom (snd run)) = reviewEl_value (dom w)
  /\ tokenEl_value (page (dom (snd run))) = tokenEl_value (page (dom w))
  /\ Forall clean (reviews (dom (snd run)))
  /\ (reviews (dom (snd run)) = [] <-> errEl_display (page (dom (snd run))) = "block")
  /\ (errEl_display (page (dom (snd run))) = "block" ->
      exists m, errEl_textContent (page (dom (snd run)))
                = "Failed to load TSV." +:+ Js.NL +:+ m)
  /\ (reviews (dom (snd run)) <> [] ->
      errEl_display (page (dom (snd run))) = "none"
      /\ exists res text,
          file = Ok res /\ ok res = true /\ text_result res = Ok text
          /\ reviews (dom (snd run))
             = Handlers.row_texts (data_text (Papa_parse text))).
Proof.
  intros H0 run.
  destruct (LoadFacts.loadTSV_outcome Papa_parse file w H0)
    as (H1 & H2 & _ & _ & _ & H6 & H7 & H8 & H9 & H10 & H11).
  unfold run. tauto.
Qed.

Lemma loadTSV_keeps_clean_reviews_witness :
  reviews (dom (snd (Handlers.loadTSV Samples2.two_rows Samples2.tsv_file
                       (Samples2.app_world "tok" EmptyString [] false []))))
  = ["Great phone"; "Bad battery"].
Proof.
  destruct (loadTSV_keeps_clean_reviews Samples2.two_rows Samples2.tsv_file
              (Samples2.app_world "tok" EmptyString [] false []) eq_refl)
    as (_ & _ & _ & _ & _ & _ & _ & H).
  destruct H as (_ & res & text & Hf & _ & Ht & Hr); [vm_compute; discriminate|].
  injection Hf as <-. injection Ht as <-. rewrite Hr. reflexivity.
Defined.

(** X12. From start-up to the first analysis.  After [init], whatever
    became of the file, [ready] is set.  If no review was loaded,
    [onRandom] says that the data are not loaded and leaves the review box
    alone.  If reviews were loaded, [onRandom] (the random number being
    a double below one) puts one of them into the box, and since every loaded
    review is non-empty and trimmed, [onSentiment] then goes on to
    [callApi]: every request it sends carries the sentiment prompt for
    exactly that review, and it sends at least one when the script gets as
    far as its request. *)
Theorem pick_then_analyse
        (Papa_parse : string -> Parsed) (file : Result Response) (r : Draw)
        (s : Script) (w : World App) :
  reviews (dom w) = [] ->
  below_one r ->
  let w1 := snd (Handlers.init Papa_parse file w) in
  let w2 := snd (Handlers.onRandom r w1) in
  ready (dom w1) = true
  /\ (reviews (dom w1) = [] ->
      errEl_textContent (page (dom w2)) = "Data not loaded."
      /\ reviewEl_value (dom w2) = reviewEl_value (dom w))
  /\ (reviews (dom w1) <> [] ->
      let v := reviewEl_value (dom w2) in
      In v (reviews (dom w1))
      /\ clean v
      /\ exists new,
          requests (trace (snd (Handlers.onSentiment s w2))) = requests (trace w) ++ new
          /\ Forall (inference_request s (trim (tokenEl_value (page (dom w))))
                                       (Handlers.sentiment_prompt v)) new
          /\ (sends s (HandlersForm.call_world w) -> new <> [])).
Proof.
  intros H0 Hr w1 w2.
  destruct (LoadFacts.loadTSV_outcome Papa_parse file w H0)
    as (L1 & L2 & L3 & L4 & L5 & L6 & L7 & L8 & L9 & L10 & L11).
  cbn zeta in *.
  assert (W1 : w1 = mkWorld (net w) (fetched w) (trace w)
                      (mkApp (page (dom (snd (Handlers.loadTSV Papa_parse file w))))
                             (reviewEl_value (dom w))
                             (sentEl_textContent (dom (snd (Handlers.loadTSV Papa_parse file w))))
                             (nounEl_textContent (dom (snd (Handlers.loadTSV Papa_parse file w))))
                             (reviews (dom (snd (Handlers.loadTSV Papa_parse file w)))) true)).
  { unfold w1. rewrite (LoadFacts.init_eq Papa_parse file w L1). cbn [snd].
    now rewrite L2, L3, L4, L6. }
  set (loaded := reviews (dom (snd (Handlers.loadTSV Papa_parse file w)))) in *.
  assert (R1 : reviews (dom w1) = loaded) by (rewrite W1; reflexivity).
  split; [rewrite W1; reflexivity|].
  unfold w2. rewrite RandomFacts.onRandom_eq. cbn [snd dom].
  rewrite R1. replace (ready (dom w1)) with true by (rewrite W1; reflexivity).
  cbn [negb orb]. split.
  - intros E. rewrite E. cbn. split; [reflexivity|]. rewrite W1. reflexivity.
  - intros Hne.
    assert (Hlen : (length loaded =? 0)%nat = false)
      by (apply Nat.eqb_neq; destruct loaded; [congruence | cbn; lia]).
    rewrite Hlen. cbn [reviewEl_value].
    destruct (lookup_lt_is_Some_2 loaded (random_index r (length loaded))) as [v Hv].
    { apply random_index_lt; [exact Hr|]. destruct loaded; [congruence | cbn; lia]. }
    rewrite Hv.
    assert (Hin : v ∈ loaded) by (eapply list_elem_of_lookup_2; exact Hv).
    assert (Hc : clean v) by (rewrite Forall_forall in L8; now apply L8).
    split; [now apply list_elem_of_In|]. split; [exact Hc|].
    destruct Hc as [Hc1 Hc2].
    set (w2' := mkWorld (net w1) (fetched w1) (trace w1) _).
    assert (Hb : is_empty (trim (reviewEl_value (dom w2'))) = false)
      by (unfold w2'; cbn [dom reviewEl_value]; rewrite Hc2; now apply is_empty_false).
    rewrite (HandlersFacts.onSentiment_eq s w2' Hb). cbn zeta. cbn [snd trace].
    unfold HandlersForm.sentiment_call. cbn zeta.
    destruct (callApi_of_requests s
                (Handlers.sentiment_prompt (trim (reviewEl_value (dom w2'))))
                (trim (reviewEl_value (dom w2'))) (HandlersForm.call_world w2'))
      as (new & T & F & N).
    exists new. cbn zeta in T.
    replace (trace (HandlersForm.call_world w2')) with (trace w) in T
      by (unfold w2', HandlersForm.call_world; rewrite W1; reflexivity).
    replace (tokenEl_value (dom (HandlersForm.call_world w2')))
      with (tokenEl_value (page (dom w))) in F
      by (unfold w2', HandlersForm.call_world, HandlersForm.reset; rewrite W1;
          cbn [dom page tokenEl_value]; now rewrite L7).
    replace (trim (reviewEl_value (dom w2'))) with v in *
      by (unfold w2'; cbn [dom reviewEl_value]; now rewrite Hc2).
    split; [exact T|]. split; [exact F|].
    intros Hs. apply N. destruct s; [exact I|].
    unfold sends, w2', HandlersForm.call_world, HandlersForm.reset in *. rewrite W1.
    cbn [dom page tokenEl_value] in *. now rewrite L7.
Qed.

Lemma pick_then_analyse_witness :
  ready (dom (snd (Handlers.init Samples2.two_rows Samples2.tsv_file
                     (Samples2.app_world "tok" EmptyString [] false []))))
  = true.
Proof.
  refine (proj1 (pick_then_analyse Samples2.two_rows Samples2.tsv_file Samples2.half retrying
                   (Samples2.app_world "tok" EmptyString [] false []) eq_refl _)).
  unfold below_one, is_double. cbn. lia.
Defined.

Example pick_then_analyse_sample :
  let w1 := snd (Handlers.init Samples2.two_rows Samples2.tsv_file
                   (Samples2.app_world "tok" EmptyString [] false
                      [Samples.json_reply Samples.positive_body])) in
  let w2 := snd (Handlers.onRandom Samples2.half w1) in
  let w3 := snd (Handlers.onSentiment retrying w2) in
  reviewEl_value (dom w2) = "Bad battery"
  /\ sentEl_textContent (dom w3) = Handlers.THUMBS_UP
  /\ map req_body (requests (trace w3))
     = [inputs_json "Classify this review as positive, negative, or neutral: Bad battery"].
Proof. vm_compute. repeat split. Qed.

(** ** [analyzeRandomReview] and the loading of its reviews *)

Module ReviewFacts.
Import LectureFirst LectureFirstLoad ReviewForm.

Ltac run_review :=
  cbv beta iota delta [bind read try_finally try_catch hideError start finish showError
                       displaySentimentResult set_disabled update throw ret await fetch];
  cbn [dom net fetched trace fst snd apiTokenInput_value analyzeBtn_disabled
       reviewDisplay_textContent errorDiv_textContent errorDiv_hidden resultDiv_hidden
       loadingDiv_hidden displayed].

Lemma analyzeRandomReview_eq (reviews : list string) (randomIndex : nat)
      (w : World ReviewPage) :
  analyzeRandomReview reviews randomIndex w =
  (Ok tt,
   mkWorld (net w) (S (fetched w))
     (trace w ++ [EvFetch (LectureFirstForm.request (trim (apiTokenInput_value (dom w)))
                                                    (reviews !! randomIndex))])
     (final_page (verdict (net w (fetched w))) (reviews !! randomIndex) (dom w))).
Proof.
  unfold analyzeRandomReview, LectureFirstForm.request, verdict, status_message.
  run_review.
  destruct (net w (fetched w)) as [res|e]; [|reflexivity].
  destruct (ok res); cbn [negb].
  - destruct (json_result res) as [data|e]; [|reflexivity].
    destruct (first_result data) as [[| | | | |]|]; reflexivity.
  - repeat match goal with |- context [if ?b then _ else _] => destruct b end; reflexivity.
Qed.

Lemma kept_texts_not_blank (rows : list (option string)) :
  Forall (fun t => t <> EmptyString /\ not_blank t) (kept_texts rows).
Proof.
  apply Forall_forall. intros x Hx. unfold kept_texts in Hx.
  apply list_elem_of_omap in Hx as (y & _ & Hy).
  destruct y as [t|]; [|discriminate Hy].
  destruct (negb (is_empty t) && negb (is_empty (trim t))) eqn:E; [|discriminate Hy].
  injection Hy as <-. apply andb_true_iff in E as [E1 E2].
  apply negb_true_iff in E1, E2. split; [now apply is_empty_false|].
  unfold not_blank. now apply is_empty_false.
Qed.

End ReviewFacts.

(** X13. [analyzeRandomReview] never throws, sends exactly one request
    and always ends with the loading sign hidden and the button enabled
    again; the review drawn is on display and the token field is not
    written.  In the end exactly one of the error box and the result panel
    is visible: the result panel when a result was displayed, which then
    is not [null] and comes with an empty error text, the error box
    otherwise. *)
Theorem analysis_ends_tidy (reviews : list string) (randomIndex : nat)
        (w : World ReviewPage) :
  let run := LectureFirst.analyzeRandomReview reviews randomIndex w in
  let d := dom (snd run) in
  fst run = Ok tt
  /\ length (requests (trace (snd run))) = S (length (requests (trace w)))
  /\ loadingDiv_hidden d = true
  /\ analyzeBtn_disabled d = false
  /\ reviewDisplay_textContent d = reviews !! randomIndex
  /\ apiTokenInput_value d = apiTokenInput_value (dom w)
  /\ errorDiv_hidden d = negb (resultDiv_hidden d)
  /\ (resultDiv_hidden d = false ->
      errorDiv_textContent d = EmptyString
      /\ exists result, displayed d = Some result /\ result <> JNull).
Proof.
  intros run d. unfold d, run. rewrite ReviewFacts.analyzeRandomReview_eq.
  cbn [fst snd dom trace]. rewrite requests_snoc_fetch, length_app.
  split; [reflexivity|]. split; [cbn; lia|].
  destruct (ReviewForm.verdict (net w (fetched w))) as [result|e] eqn:V; cbn.
  - repeat split. exists result. split; [reflexivity|].
    intros ->. unfold ReviewForm.verdict in V.
    destruct (net w (fetched w)) as [res|?]; [|discriminate V].
    destruct (ok res); [|discriminate V].
    destruct (json_result res) as [data|?]; [|discriminate V].
    destruct (LectureFirst.first_result data) as [[| | | | |]|]; discriminate V.
  - repeat split; discriminate.
Qed.

Lemma analysis_ends_tidy_witness :
  errorDiv_textContent
    (dom (snd (LectureFirst.analyzeRandomReview ["Great phone"] 0
                 (Samples2.review_world "tok"
                    [Samples.json_reply
                       (JArr [JArr [JObj [("label", JStr "POSITIVE"); ("score", JNum 1)]]])]))))
  = EmptyString.
Proof.
  refine (proj1 (proj2 (proj2 (proj2 (proj2 (proj2 (proj2 (proj2
            (analysis_ends_tidy ["Great phone"] 0
               (Samples2.review_world "tok"
                  [Samples.json_reply
                     (JArr [JArr [JObj [("label", JStr "POSITIVE"); ("score", JNum 1)]]])]))))))))
            _)).
  reflexivity.
Defined.

(** X14. What [analyzeRandomReview] shows for a response that is not
    [ok]: for status 503 that the model is loading, for 429 that the rate
    limit is exceeded, for 401 that the token is invalid, and for every
    other status, 402 and 404 included, the status and its status text.
    Nothing of the body is shown, the result panel stays hidden and the
    result displayed before stays what it was. *)
Theorem analysis_status_messages (reviews : list string) (randomIndex : nat)
        (w : World ReviewPage) (res : Response) :
  net w (fetched w) = Ok res ->
  ok res = false ->
  let d := dom (snd (LectureFirst.analyzeRandomReview reviews randomIndex w)) in
  errorDiv_hidden d = false
  /\ resultDiv_hidden d = true
  /\ displayed d = displayed (dom w)
  /\ (status res = 503 ->
      errorDiv_textContent d = "Model is loading, please try again in a few moments")
  /\ (status res = 429 ->
      errorDiv_textContent d = "Rate limit exceeded. Please add an API token for higher limits")
  /\ (status res = 401 -> errorDiv_textContent d = "Invalid API token provided")
  /\ (status res <> 503 -> status res <> 429 -> status res <> 401 ->
      errorDiv_textContent d
      = "API error: " +:+ of_Z (status res) +:+ " " +:+ statusText res).
Proof.
  intros Hnet Hok d. unfold d. rewrite ReviewFacts.analyzeRandomReview_eq.
  cbn [snd dom]. unfold ReviewForm.verdict. rewrite Hnet, Hok. cbn.
  unfold ReviewForm.status_message.
  do 3 (split; [reflexivity|]).
  split; [intros ->; reflexivity|]. split; [intros ->; reflexivity|].
  split; [intros ->; reflexivity|].
  intros H1 H2 H3. apply Z.eqb_neq in H1, H2, H3. now rewrite H1, H2, H3.
Qed.

Lemma analysis_status_messages_witness :
  errorDiv_textContent
    (dom (snd (LectureFirst.analyzeRandomReview ["Great phone"] 0
                 (Samples2.review_world "tok"
                    [Ok (mkResponse 402 "Payment Required" (Ok "quota")
                           (Throw (mkError "SyntaxError" "Unexpected token")))]))))
  = "API error: 402 Payment Required".
Proof.
  refine (proj2 (proj2 (proj2 (proj2 (proj2 (proj2
            (analysis_status_messages ["Great phone"] 0
               (Samples2.review_world "tok"
                  [Ok (mkResponse 402 "Payment Required" (Ok "quota")
                         (Throw (mkError "SyntaxError" "Unexpected token")))])
               (mkResponse 402 "Payment Required" (Ok "quota")
                  (Throw (mkError "SyntaxError" "Unexpected token")))
               eq_refl eq_refl)))))) _ _ _); discriminate.
Defined.



Module ReviewLoadFacts.
Import LectureFirst LectureFirstLoad.

Section Loading.

Variable Papa_parse : string -> Parsed.

(** How the loading ends: the reviews kept, or the message shown. *)
Lemma load_outcome (file : Result Response) (w : World ReviewPage) :
  (exists message,
      load Papa_parse file w
      = (Ok [],
         mkWorld (net w) (fetched w) (trace w)
           (mkReviewPage (apiTokenInput_value (dom w)) false
              (reviewDisplay_textContent (dom w)) message false (resultDiv_hidden (dom w))
              true (displayed (dom w))))
      /\ (forall e, file = Throw e -> message = "Error loading TSV file: " +:+ err_message e)
      /\ (forall res text, file = Ok res -> text_result res = Ok text ->
            errors_message (Papa_parse text) = [] ->
            message = "No reviews found in the TSV file"))
  \/ (exists res text,
        file = Ok res /\ text_result res = Ok text
        /\ errors_message (Papa_parse text) = []
        /\ kept_texts (data_text (Papa_parse text)) <> []
        /\ load Papa_parse file w
           = (Ok (kept_texts (data_text (Papa_parse text))),
              mkWorld (net w) (fetched w) (trace w)
                (mkReviewPage (apiTokenInput_value (dom w)) false
                   (reviewDisplay_textContent (dom w)) (errorDiv_textContent (dom w))
                   (errorDiv_hidden (dom w)) (resultDiv_hidden (dom w))
                   (loadingDiv_hidden (dom w)) (displayed (dom w))))).
Proof.
  unfold load. ReviewFacts.run_review.
  destruct file as [res|e].
  - destruct (text_result res) as [text|e] eqn:T.
    + destruct (errors_message (Papa_parse text)) as [|m ms] eqn:E.
      * destruct (kept_texts (data_text (Papa_parse text))) as [|r rs] eqn:K.
        -- left. eexists. split; [reflexivity|]. split; [discriminate|].
           intros res' text' [= <-] T' _. reflexivity.
        -- right. exists res, text. rewrite K, E. repeat split; try discriminate; auto.
      * left. eexists. split; [reflexivity|]. split; [discriminate|].
        intros res' text' [= <-] T'. rewrite T in T'. injection T' as <-.
        rewrite E. discriminate.
    + left. eexists. split; [reflexivity|]. split; [discriminate|].
      intros res' text' [= <-] T'. rewrite T in T'. discriminate.
  - left. eexists. split; [reflexivity|]. split; [now intros e' [= <-]|].
    discriminate.
Qed.

End Loading.

End ReviewLoadFacts.

(** X16. The loading of the reviews in [lecture_first/app.js] never
    throws and never leaves the button disabled: it is enabled after a
    successful load and, because every message goes through [showError],
    after a failed one as well.  The reviews kept are not empty and not
    blank; the list is empty exactly when the load showed a message (the
    error box was hidden before), and a load that keeps reviews leaves the
    error box as it was and keeps the rows that are not blank, in the
    order of the file. *)
Theorem load_enables_the_button (Papa_parse : string -> Parsed) (file : Result Response)
        (w : World ReviewPage) :
  errorDiv_hidden (dom w) = true ->
  let run := LectureFirstLoad.load Papa_parse file w in
  exists reviews,
    fst run = Ok reviews
    /\ analyzeBtn_disabled (dom (snd run)) = false
    /\ trace (snd run) = trace w
    /\ apiTokenInput_value (dom (snd run)) = apiTokenInput_value (dom w)
    /\ Forall (fun t => t <> EmptyString /\ not_blank t) reviews
    /\ (reviews = [] <-> errorDiv_hidden (dom (snd run)) = false)
    /\ (reviews <> [] ->
        errorDiv_textContent (dom (snd run)) = errorDiv_textContent (dom w)
        /\ exists res text,
             file = Ok res /\ text_result res = Ok text
             /\ reviews = LectureFirstLoad.kept_texts (data_text (Papa_parse text))).
Proof.
  intros Hhid run. unfold run.
  destruct (ReviewLoadFacts.load_outcome Papa_parse file w)
    as [(message & -> & _) | (res & text & F & T & E & K & ->)]; cbn [fst snd dom trace].
  - exists []. cbn. repeat split; auto; congruence.
  - eexists. split; [reflexivity|]. cbn.
    repeat split; auto.
    + apply ReviewFacts.kept_texts_not_blank.
    + intros H. now destruct K.
    + rewrite Hhid. discriminate.
    + eauto.
Qed.

Lemma load_enables_the_button_witness :
  exists reviews,
    fst (LectureFirstLoad.load Samples2.two_rows Samples2.tsv_file
           (Samples2.review_world "tok" [])) = Ok reviews
    /\ analyzeBtn_disabled
         (dom (snd (LectureFirstLoad.load Samples2.two_rows Samples2.tsv_file
                      (Samples2.review_world "tok" [])))) = false.
Proof.
  destruct (load_enables_the_button Samples2.two_rows Samples2.tsv_file
              (Samples2.review_world "tok" []) eq_refl) as (reviews & H1 & H2 & _).
  exists reviews. split; [exact H1 | exact H2].
Defined.

Example load_sample :
  fst (LectureFirstLoad.load Samples2.two_rows Samples2.tsv_file
         (Samples2.review_world "tok" []))
  = Ok [" Great phone "; "Bad battery"].
Proof. vm_compute. reflexivity. Qed.

(** X17. A failed load does not stop the analysis: when the loading ends
    with no reviews, the button is enabled, and a click then draws no
    review (the value given to the review display is [undefined]) and
    still sends one request, whose body is the empty object. *)
Theorem analysis_without_reviews (Papa_parse : string -> Parsed) (file : Result Response)
        (randomIndex : nat) (w : World ReviewPage) :
  fst (LectureFirstLoad.load Papa_parse file w) = Ok [] ->
  let loaded := snd (LectureFirstLoad.load Papa_parse file w) in
  let run := LectureFirst.analyzeRandomReview [] randomIndex loaded in
  analyzeBtn_disabled (dom loaded) = false
  /\ reviewDisplay_textContent (dom (snd run)) = None
  /\ exists req,
       requests (trace (snd run)) = requests (trace w) ++ [req]
       /\ req_url req = LectureFirst.url
       /\ req_body req = BodyText "{}".
Proof.
  intros Hload loaded run. unfold run, loaded.
  rewrite ReviewFacts.analyzeRandomReview_eq. cbn [snd dom trace].
  rewrite requests_snoc_fetch.
  destruct (ReviewLoadFacts.load_outcome Papa_parse file w)
    as [(message & E & _) | (res & text & F & T & Er & K & E)];
    rewrite E in *; cbn [fst snd dom trace] in *.
  - split; [reflexivity|]. split.
    + now destruct (ReviewForm.verdict _).
    + eexists. split; [reflexivity|]. split; reflexivity.
  - injection Hload as Hl. now destruct K.
Qed.

Lemma analysis_without_reviews_witness :
  exists req,
    requests (trace (snd (LectureFirst.analyzeRandomReview [] 0
                            (snd (LectureFirstLoad.load Samples2.two_rows Samples.refused
                                    (Samples2.review_world "tok" []))))))
    = [req]
    /\ req_body req = BodyText "{}".
Proof.
  destruct (analysis_without_reviews Samples2.two_rows Samples.refused 0
              (Samples2.review_world "tok" []) eq_refl) as (_ & _ & req & H1 & _ & H2).
  exists req. split; [exact H1 | exact H2].
Defined.

(** ** The logger: outcome of a call, the address, the listeners *)

Module LoggerMoreFacts.
Import Logger LoggerForm LoggerUI LoggerUIForm.

Lemma hydrated_store (d : LoggerPage) : localStorage (hydrated d) = localStorage d.
Proof.
  unfold hydrated. destruct (negb (is_empty (entered d))); [reflexivity|].
  destruct (gasUrl_value d); [|reflexivity].
  destruct (negb (is_empty (saved d))); reflexivity.
Qed.

Lemma hydrated_status (d : LoggerPage) : status_textContent (hydrated d) = status_textContent d.
Proof.
  unfold hydrated. destruct (negb (is_empty (entered d))); [reflexivity|].
  destruct (gasUrl_value d); [|reflexivity].
  destruct (negb (is_empty (saved d))); reflexivity.
Qed.

Lemma configured_trimmed (d : LoggerPage) : trim (configured d) = configured d.
Proof.
  unfold configured, entered, saved.
  destruct (negb (is_empty (trim (or_empty (gasUrl_value d))))); apply trim_idempotent.
Qed.

(** After the hydration the input, when there is one, holds the address
    in use, so that a second reading finds the same address and changes
    nothing. *)
Lemma hydrated_fixed (d : LoggerPage) :
  configured (hydrated d) = configured d /\ hydrated (hydrated d) = hydrated d.
Proof.
  unfold configured, hydrated.
  destruct (negb (is_empty (entered d))) eqn:E.
  - rewrite E. auto.
  - destruct (gasUrl_value d) as [v|] eqn:V.
    + destruct (negb (is_empty (saved d))) eqn:S.
      * assert (E' : entered (mkLoggerPage (Some (saved d)) (status_textContent d)
                                           (localStorage d)) = saved d).
        { unfold entered, saved. cbn [gasUrl_value or_empty]. apply trim_idempotent. }
        rewrite E', S. auto.
      * rewrite E, V, S. unfold saved. auto.
    + rewrite E, V. auto.
Qed.

Lemma world_eta {D} (w : World D) : mkWorld (net w) (fetched w) (trace w) (dom w) = w.
Proof. now destruct w. Qed.



Section Saving.

Variable URL_valid : string -> bool.

Lemma saveGasUrl_eq (w : World LoggerPage) :
  saveGasUrl URL_valid w =
  (Ok tt,
   mkWorld (net w) (fetched w) (trace w)
     (if is_empty (entered (dom w)) then
        mkLoggerPage (gasUrl_value (dom w))
          "Please paste your Apps Script Web App URL (ending with /exec)."
          (localStorage (dom w))
      else if URL_valid (entered (dom w)) then
        mkLoggerPage (gasUrl_value (dom w)) "Saved Web App URL."
          (<[ LS_KEY_URL := entered (dom w) ]> (localStorage (dom w)))
      else mkLoggerPage (gasUrl_value (dom w)) "Invalid URL format." (localStorage (dom w)))).
Proof.
  unfold saveGasUrl, entered. LoggerFacts.run_logger.
  destruct (is_empty (trim (or_empty (gasUrl_value (dom w))))); [reflexivity|].
  destruct (URL_valid (trim (or_empty (gasUrl_value (dom w))))); reflexivity.
Qed.

End Saving.

Lemma logger_init_eq (env : Supply) (w : World LoggerPage) :
  init env w =
  getUserId env
    (if is_empty (or_empty (localStorage (dom w) !! LS_KEY_URL)) then w
     else mkWorld (net w) (fetched w) (trace w)
            (mkLoggerPage (match gasUrl_value (dom w) with
                           | Some _ => Some (or_empty (localStorage (dom w) !! LS_KEY_URL))
                           | None => None
                           end)
                          "Loaded saved Web App URL." (localStorage (dom w)))).
Proof.
  unfold init.
  cbv beta iota delta [bind read update ret getItem].
  cbn [dom net fetched trace fst snd gasUrl_value status_textContent localStorage].
  destruct (is_empty (or_empty (localStorage (dom w) !! LS_KEY_URL))); cbn [negb].
  - reflexivity.
  - reflexivity.
Qed.

Lemma append_assoc (a b c : string) : (a +:+ b) +:+ c = a +:+ b +:+ c.
Proof.
  induction a as [|x a IH]; [reflexivity|].
  transitivity (String x ((a +:+ b) +:+ c)); [reflexivity|]. now rewrite IH.
Qed.

Lemma meta_text_eq (pathname userAgent : string) :
  Js.stringify (baseMeta pathname userAgent) = meta_text pathname userAgent.
Proof.
  unfold baseMeta, meta_text, Js.stringify, Js.join. cbn [map fold_left fst snd].
  rewrite !append_assoc. reflexivity.
Qed.

End LoggerMoreFacts.



(** X19. [getGasUrl] reads the address without throwing, without a
    request and without writing the store or the status line, and what it
    returns is trimmed.  A non-blank input wins over the store and then
    nothing changes at all; with a blank or missing input the saved
    address is returned, and copied into the input when there is an input
    and the saved address is not blank.  Reading a second time gives
    the same address and changes nothing more. *)
Theorem getGasUrl_prefers_the_input (w : World LoggerPage) :
  let run := Logger.getGasUrl w in
  exists url,
    fst run = Ok url
    /\ trim url = url
    /\ trace (snd run) = trace w /\ fetched (snd run) = fetched w
    /\ localStorage (dom (snd run)) = localStorage (dom w)
    /\ status_textContent (dom (snd run)) = status_textContent (dom w)
    /\ (LoggerForm.entered (dom w) <> EmptyString ->
        url = LoggerForm.entered (dom w) /\ snd run = w)
    /\ (LoggerForm.entered (dom w) = EmptyString ->
        url = LoggerForm.saved (dom w)
        /\ (url <> EmptyString -> gasUrl_value (dom w) <> None ->
            gasUrl_value (dom (snd run)) = Some url)
        /\ (url = EmptyString \/ gasUrl_value (dom w) = None -> snd run = w))
    /\ Logger.getGasUrl (snd run) = (Ok url, snd run).
Proof.
  intros run. unfold run. rewrite LoggerFacts.getGasUrl_eq. cbn [fst snd dom trace fetched].
  exists (LoggerForm.configured (dom w)).
  split; [reflexivity|]. split; [apply LoggerMoreFacts.configured_trimmed|].
  split; [reflexivity|]. split; [reflexivity|].
  split; [apply LoggerMoreFacts.hydrated_store|].
  split; [apply LoggerMoreFacts.hydrated_status|].
  split; [|split].
  - intros H. apply is_empty_false in H. unfold LoggerForm.configured, LoggerForm.hydrated.
    rewrite H. cbn [negb]. split; [reflexivity | apply LoggerMoreFacts.world_eta].
  - intros H. unfold LoggerForm.configured, LoggerForm.hydrated. rewrite H.
    cbn [is_empty negb]. split; [reflexivity|]. split.
    + intros Hs Hi. apply is_empty_false in Hs. rewrite Hs. cbn [negb].
      destruct (gasUrl_value (dom w)); [reflexivity | congruence].
    + intros [Hs | Hi].
      * rewrite Hs. cbn [is_empty negb].
        destruct (gasUrl_value (dom w)); apply LoggerMoreFacts.world_eta.
      * rewrite Hi. apply LoggerMoreFacts.world_eta.
  - rewrite LoggerFacts.getGasUrl_eq. cbn [dom net fetched trace].
    destruct (LoggerMoreFacts.hydrated_fixed (dom w)) as [-> ->]. reflexivity.
Qed.

Lemma getGasUrl_prefers_the_input_witness :
  exists url,
    fst (Logger.getGasUrl (sample_logger (Some "  ") {[ Logger.LS_KEY_URL := " https://s/exec " ]}))
    = Ok url
    /\ url = "https://s/exec"
    /\ gasUrl_value
         (dom (snd (Logger.getGasUrl
                      (sample_logger (Some "  ") {[ Logger.LS_KEY_URL := " https://s/exec " ]}))))
       = Some url.
Proof.
  destruct (getGasUrl_prefers_the_input
              (sample_logger (Some "  ") {[ Logger.LS_KEY_URL := " https://s/exec " ]}))
    as (url & H1 & _ & _ & _ & _ & _ & _ & H2 & _).
  destruct (H2 eq_refl) as (H3 & H4 & _).
  exists url. split; [exact H1|]. split; [exact H3|].
  apply H4; [rewrite H3|]; discriminate.
Defined.

(** X20. [saveGasUrl] never throws, sends nothing and leaves the input
    as it is.  It writes the store exactly when the trimmed input is not
    empty and is a valid URL, and says so in the status line; it then
    keeps the trimmed input under [gas_url], and [getGasUrl] returns that
    address from then on even when the input is blank or missing.  A
    blank input or an invalid URL leaves the store as it was. *)
Theorem saved_url_is_used (URL_valid : string -> bool) (w : World LoggerPage) :
  let run := LoggerUI.saveGasUrl URL_valid w in
  let url := LoggerForm.entered (dom w) in
  fst run = Ok tt
  /\ trace (snd run) = trace w /\ fetched (snd run) = fetched w
  /\ gasUrl_value (dom (snd run)) = gasUrl_value (dom w)
  /\ (status_textContent (dom (snd run)) = "Saved Web App URL." <->
      url <> EmptyString /\ URL_valid url = true)
  /\ (url = EmptyString \/ URL_valid url = false ->
      localStorage (dom (snd run)) = localStorage (dom w))
  /\ (url <> EmptyString -> URL_valid url = true ->
      localStorage (dom (snd run)) = <[ Logger.LS_KEY_URL := url ]> (localStorage (dom w))
      /\ forall v, trim (Logger.or_empty v) = EmptyString ->
           fst (Logger.getGasUrl (LoggerUIForm.with_input v (snd run))) = Ok url).
Proof.
  intros run url. unfold run. rewrite LoggerMoreFacts.saveGasUrl_eq.
  cbn [fst snd trace fetched dom]. fold url.
  split; [reflexivity|]. split; [reflexivity|]. split; [reflexivity|].
  destruct (is_empty url) eqn:E.
  - apply is_empty_true in E. cbn [status_textContent localStorage gasUrl_value].
    split; [reflexivity|].
    split; [split; [discriminate | intros [H _]; congruence]|].
    split; [reflexivity|]. congruence.
  - apply is_empty_false in E.
    destruct (URL_valid url) eqn:V; cbn [status_textContent localStorage gasUrl_value].
    + split; [reflexivity|]. split; [split; auto|].
      split; [intros [H | H]; congruence|].
      intros _ _. split; [reflexivity|]. intros v Hv.
      rewrite LoggerFacts.getGasUrl_eq. cbn [fst].
      unfold LoggerForm.configured, LoggerForm.entered, LoggerForm.saved,
        LoggerUIForm.with_input.
      cbn [dom gasUrl_value localStorage]. rewrite Hv. cbn [is_empty negb].
      rewrite lookup_insert_eq. cbn [Logger.or_empty].
      unfold url, LoggerForm.entered. now rewrite trim_idempotent.
    + split; [reflexivity|].
      split; [split; [discriminate | intros [_ H]; discriminate]|].
      split; [reflexivity|]. discriminate.
Qed.

Lemma saved_url_is_used_witness :
  fst (Logger.getGasUrl
         (LoggerUIForm.with_input (Some EmptyString)
            (snd (LoggerUI.saveGasUrl (fun _ => true)
                    (sample_logger (Some " https://s/exec ") ∅)))))
  = Ok "https://s/exec".
Proof.
  destruct (saved_url_is_used (fun _ => true) (sample_logger (Some " https://s/exec ") ∅))
    as (_ & _ & _ & _ & _ & _ & H).
  destruct H as [_ H]; [discriminate | reflexivity |].
  exact (H (Some EmptyString) eq_refl).
Defined.

Lemma to_String_or_empty (s : string) :
  Js.to_String (Logger.or_else (Some (JStr s)) (JStr EmptyString)) = s.
Proof. now destruct s. Qed.

(** The form of an event of the listeners. *)
Lemma listener_form (env : Supply) (event : string) (variant : option json) (userId : string)
      (clicked : Z) (pathname userAgent : string) :
  clicked <> 0 ->
  Logger.build_form env
    (mkPayload (Some (JStr event)) variant (Some (JStr userId)) (Some (JNum clicked))
               (Some (LoggerUI.baseMeta pathname userAgent)))
  = [("event", event);
     ("variant", Js.to_String (Logger.or_else variant (JStr EmptyString)));
     ("userId", userId); ("ts", of_Z clicked);
     ("meta", LoggerUIForm.meta_text pathname userAgent)].
Proof.
  intros Hc. rewrite LoggerFacts.build_form_eq.
  cbn [p_event p_variant p_userId p_ts p_meta]. rewrite !to_String_or_empty.
  rewrite <- LoggerMoreFacts.meta_text_eq.
  apply Z.eqb_neq in Hc.
  unfold Logger.or_else at 2 3. unfold Js.truthy, LoggerUI.baseMeta. rewrite Hc. reflexivity.
Qed.

(** X21. The user id that [init] obtains is the non-empty id of the
    store when there is one, and is in the store afterwards whenever it
    is not empty.  Every event the three listeners send later carries
    that id, whatever the store holds by then: with an address configured,
    a click sends one request, a POST without headers to that address
    whose form has the event name, the variant ([A], [B], or empty for the
    heartbeat), the id, the time of the click and the JSON text of the page
    path and the user agent. *)
Theorem listeners_send_the_session_id (env0 : Supply) (w0 : World LoggerPage) :
  exists userId,
    fst (LoggerUI.init env0 w0) = Ok userId
    /\ (userId <> EmptyString ->
        localStorage (dom (snd (LoggerUI.init env0 w0))) !! Logger.LS_KEY_UID = Some userId)
    /\ (forall v, localStorage (dom w0) !! Logger.LS_KEY_UID = Some v -> v <> EmptyString ->
                  userId = v)
    /\ forall (pathname userAgent : string) (clicked : Z) (env : Supply)
              (w : World LoggerPage),
         LoggerForm.configured (dom w) <> EmptyString -> clicked <> 0 ->
         let meta := LoggerUI.baseMeta pathname userAgent in
         let sent listener :=
           requests (trace (snd (listener userId meta clicked env w))) in
         let event name variant :=
           LoggerUIForm.event_request (LoggerForm.configured (dom w)) name variant userId
                                      clicked pathname userAgent in
         sent LoggerUI.ctaA = requests (trace w) ++ [event "cta_click" "A"]
         /\ sent LoggerUI.ctaB = requests (trace w) ++ [event "cta_click" "B"]
         /\ sent LoggerUI.heartbeat = requests (trace w) ++ [event "heartbeat" EmptyString].
Proof.
  rewrite LoggerMoreFacts.logger_init_eq, UserIdFacts.getUserId_eq.
  set (w1 := if is_empty (Logger.or_empty (localStorage (dom w0) !! Logger.LS_KEY_URL))
             then w0 else _).
  assert (S1 : localStorage (dom w1) = localStorage (dom w0)).
  { unfold w1. now destruct (is_empty _). }
  rewrite S1.
  assert (Sent : forall userId pathname userAgent clicked env w,
             LoggerForm.configured (dom w) <> EmptyString -> clicked <> 0 ->
             forall name variant,
               requests (trace (snd (Logger.sendLogSimple env
                  (mkPayload (Some (JStr name)) variant (Some (JStr userId))
                             (Some (JNum clicked))
                             (Some (LoggerUI.baseMeta pathname userAgent))) w)))
               = requests (trace w)
                 ++ [LoggerUIForm.event_request (LoggerForm.configured (dom w)) name
                       (Js.to_String (Logger.or_else variant (JStr EmptyString)))
                       userId clicked pathname userAgent]).
  { intros userId pathname userAgent clicked env w Hc Hk name variant.
    rewrite (LoggerFacts.sendLogSimple_sent _ _ _ Hc). cbn zeta. cbn [snd trace].
    rewrite requests_snoc_fetch. unfold LoggerForm.request.
    rewrite listener_form by exact Hk. reflexivity. }
  destruct (is_empty (Logger.or_empty (localStorage (dom w0) !! Logger.LS_KEY_UID))) eqn:E.
  - exists (Logger.new_id env0). cbn [fst snd dom localStorage].
    split; [reflexivity|]. split; [intros _; apply lookup_insert_eq|].
    split.
    + intros v Hv Hne. rewrite Hv in E. cbn [Logger.or_empty] in E.
      apply is_empty_true in E. congruence.
    + intros pathname userAgent clicked env w Hc Hk. cbn zeta.
      unfold LoggerUI.ctaA, LoggerUI.ctaB, LoggerUI.heartbeat.
      rewrite !Sent by assumption. auto.
  - exists (Logger.or_empty (localStorage (dom w0) !! Logger.LS_KEY_UID)).
    cbn [fst snd]. rewrite S1.
    split; [reflexivity|]. split.
    + intros _. destruct (localStorage (dom w0) !! Logger.LS_KEY_UID); [reflexivity|].
      discriminate E.
    + split.
      * intros v Hv _. now rewrite Hv.
      * intros pathname userAgent clicked env w Hc Hk. cbn zeta.
        unfold LoggerUI.ctaA, LoggerUI.ctaB, LoggerUI.heartbeat.
        rewrite !Sent by assumption. auto.
Qed.

Lemma listeners_send_the_session_id_witness :
  exists userId,
    fst (LoggerUI.init sample_supply (sample_logger None {[ Logger.LS_KEY_UID := "u7" ]}))
    = Ok userId
    /\ userId = "u7"
    /\ requests (trace (snd (LoggerUI.heartbeat userId (LoggerUI.baseMeta "/" "UA") 5
                               sample_supply
                               (sample_logger (Some "https://s/exec") ∅))))
       = [LoggerUIForm.event_request "https://s/exec" "heartbeat" EmptyString userId 5 "/" "UA"].
Proof.
  destruct (listeners_send_the_session_id sample_supply
              (sample_logger None {[ Logger.LS_KEY_UID := "u7" ]}))
    as (userId & H1 & _ & H2 & H3).
  exists userId. split; [exact H1|]. split.
  - apply (H2 "u7"); [reflexivity | discriminate].
  - refine (proj2 (proj2 (H3 "/" "UA" 5 sample_supply
                             (sample_logger (Some "https://s/exec") ∅) _ _))).
    + vm_compute. discriminate.
    + lia.
Defined.

Example heartbeat_sample :
  LoggerUIForm.event_request "https://s/exec" "heartbeat" EmptyString "u7" 5 "/" "UA"
  = mkRequest "https://s/exec" "POST" ∅
      (BodyForm [("event", "heartbeat"); ("variant", EmptyString); ("userId", "u7");
                 ("ts", "5");
                 ("meta", "{" +:+ Js.DQ +:+ "page" +:+ Js.DQ +:+ ":" +:+ Js.DQ +:+ "/"
                          +:+ Js.DQ +:+ "," +:+ Js.DQ +:+ "ua" +:+ Js.DQ +:+ ":" +:+ Js.DQ
                          +:+ "UA" +:+ Js.DQ +:+ "}")]).
Proof. reflexivity. Qed.

(** X22. At start-up [init] sends nothing and writes the store under
    [uid] only.  When a non-empty address is saved it announces it in the
    status line and puts it, as saved, in the input if there is one,
    replacing what the input held; the address in use afterwards is the
    saved one, trimmed.  With nothing saved, or the empty string, the
    input and the status line stay as they were. *)
Theorem init_loads_the_saved_url (env : Supply) (w : World LoggerPage) :
  let run := LoggerUI.init env w in
  trace (snd run) = trace w /\ fetched (snd run) = fetched w
  /\ (forall k, k <> Logger.LS_KEY_UID ->
                localStorage (dom (snd run)) !! k = localStorage (dom w) !! k)
  /\ (forall s, localStorage (dom w) !! Logger.LS_KEY_URL = Some s -> s <> EmptyString ->
        status_textContent (dom (snd run)) = "Loaded saved Web App URL."
        /\ gasUrl_value (dom (snd run))
           = match gasUrl_value (dom w) with Some _ => Some s | None => None end
        /\ LoggerForm.configured (dom (snd run)) = trim s)
  /\ (Logger.or_empty (localStorage (dom w) !! Logger.LS_KEY_URL) = EmptyString ->
      status_textContent (dom (snd run)) = status_textContent (dom w)
      /\ gasUrl_value (dom (snd run)) = gasUrl_value (dom w)).
Proof.
  intros run. unfold run. rewrite LoggerMoreFacts.logger_init_eq, UserIdFacts.getUserId_eq.
  destruct (localStorage (dom w) !! Logger.LS_KEY_URL) as [s|] eqn:U; cbn [Logger.or_empty].
  - destruct (is_empty s) eqn:Es.
    + apply is_empty_true in Es. subst s.
      destruct (is_empty (Logger.or_empty (localStorage (dom w) !! Logger.LS_KEY_UID)));
        cbn [snd trace fetched dom localStorage status_textContent gasUrl_value];
        repeat split; auto; try congruence.
      intros k Hk. now rewrite lookup_insert_ne by congruence.
    + apply is_empty_false in Es. cbn [dom localStorage].
      assert (C : forall st ls,
                 ls !! Logger.LS_KEY_URL = Some s ->
                 LoggerForm.configured
                   (mkLoggerPage (match gasUrl_value (dom w) with
                                  | Some _ => Some s | None => None end) st ls) = trim s).
      { intros st ls Hls.
        unfold LoggerForm.configured, LoggerForm.entered, LoggerForm.saved.
        cbn [gasUrl_value localStorage]. rewrite Hls. cbn [Logger.or_empty].
        destruct (gasUrl_value (dom w)); cbn [Logger.or_empty].
        - now destruct (negb (is_empty (trim s))).
        - reflexivity. }
      destruct (is_empty (Logger.or_empty (localStorage (dom w) !! Logger.LS_KEY_UID)));
        cbn [snd trace fetched dom localStorage status_textContent gasUrl_value].
      * split; [reflexivity|]. split; [reflexivity|].
        split; [intros k Hk; now rewrite lookup_insert_ne by congruence|].
        split; [|congruence].
        intros s' [= <-] _. split; [reflexivity|]. split; [reflexivity|].
        apply C. rewrite lookup_insert_ne by discriminate. exact U.
      * split; [reflexivity|]. split; [reflexivity|]. split; [reflexivity|].
        split; [|congruence].
        intros s' [= <-] _. split; [reflexivity|]. split; [reflexivity|].
        apply C. exact U.
  - cbn [is_empty].
    destruct (is_empty (Logger.or_empty (localStorage (dom w) !! Logger.LS_KEY_UID)));
      cbn [snd trace fetched dom localStorage status_textContent gasUrl_value];
      repeat split; auto; try congruence.
    intros k Hk. now rewrite lookup_insert_ne by congruence.
Qed.

Lemma init_loads_the_saved_url_witness :
  LoggerForm.configured
    (dom (snd (LoggerUI.init sample_supply
                 (sample_logger (Some "typed") {[ Logger.LS_KEY_URL := " https://s/exec " ]}))))
  = "https://s/exec".
Proof.
  destruct (init_loads_the_saved_url sample_supply
              (sample_logger (Some "typed") {[ Logger.LS_KEY_URL := " https://s/exec " ]}))
    as (_ & _ & _ & H & _).
  destruct (H " https://s/exec " eq_refl) as (_ & _ & H'); [discriminate|].
  exact H'.
Defined.

(** ** The earlier copy of the page and the later one *)

Module EarlierFacts.
Import LectureFirst EarlierCopy.

Lemma earlier_analyzeRandomReview_eq (reviews : list string) (randomIndex : nat)
      (w : World ReviewPage) :
  EarlierCopy.analyzeRandomReview reviews randomIndex w =
  (Ok tt,
   mkWorld (net w) (S (fetched w))
     (trace w ++ [EvFetch (LectureFirstForm.request (trim (apiTokenInput_value (dom w)))
                                                    (reviews !! randomIndex))])
     (ReviewForm.final_page (EarlierForm.verdict (net w (fetched w)))
                            (reviews !! randomIndex) (dom w))).
Proof.
  unfold EarlierCopy.analyzeRandomReview, LectureFirstForm.request, EarlierForm.verdict,
    EarlierCopy.displaySentimentResult.
  ReviewFacts.run_review.
  destruct (net w (fetched w)) as [res|e]; [|reflexivity].
  destruct (ok res); cbn [negb].
  - destruct (json_result res) as [data|e]; [|reflexivity].
    destruct data as [| | | |[|first rest]|]; try reflexivity.
    cbn [Js.nonempty negb Js.first_item].
    destruct (item0 first) as [[[| | | | |]|]|e]; reflexivity.
  - repeat match goal with |- context [if ?b then _ else _] => destruct b end; reflexivity.
Qed.

(** The later validation accepts only what the earlier one accepts, with
    the same result. *)
Lemma verdict_kept (a : Result Response) (result : json) :
  ReviewForm.verdict a = Ok result -> EarlierForm.verdict a = Ok result.
Proof.
  unfold ReviewForm.verdict, EarlierForm.verdict.
  destruct a as [res|e]; [|discriminate].
  destruct (ok res); [|discriminate].
  destruct (json_result res) as [data|e]; [|discriminate].
  destruct data as [| | | |[|[| | | |[|r rest]|] more]|]; try discriminate.
  cbn [first_result item0]. destruct r; try discriminate; auto.
Qed.

Lemma load_eq (Papa_parse : string -> Parsed) (file : Result Response)
      (w : World ReviewPage) :
  EarlierCopy.load Papa_parse file w = LectureFirstLoad.load Papa_parse file w.
Proof.
  unfold EarlierCopy.load, LectureFirstLoad.load. ReviewFacts.run_review.
  destruct file as [res|e]; [|reflexivity].
  destruct (text_result res) as [text|e]; [|reflexivity].
  destruct (errors_message (Papa_parse text)); [|reflexivity].
  destruct (length _ =? 0)%nat; reflexivity.
Qed.

End EarlierFacts.

(** X23. The earlier copy of the page ([unnamed/part_001]) and
    [lecture_first/app.js] behave alike in this much: the loading of the
    reviews ends in the same state with the same reviews (the button that
    the later script disables first is enabled by every path of both);
    [analyzeRandomReview] never throws and sends the same single request
    in both; and whenever the later script displays a result, or the
    request is refused, or the response is not [ok] with a status other
    than 401, the two calls end in the same state.  For status 401, which
    only the later script knows, the earlier one shows the status and its
    text. *)
Theorem earlier_copy_agrees (Papa_parse : string -> Parsed) (file : Result Response)
        (reviews : list string) (randomIndex : nat) (w : World ReviewPage) :
  let earlier := EarlierCopy.analyzeRandomReview reviews randomIndex w in
  let later := LectureFirst.analyzeRandomReview reviews randomIndex w in
  EarlierCopy.load Papa_parse file w = LectureFirstLoad.load Papa_parse file w
  /\ fst earlier = Ok tt
  /\ trace (snd earlier) = trace (snd later)
  /\ fetched (snd earlier) = fetched (snd later)
  /\ (resultDiv_hidden (dom (snd later)) = false -> earlier = later)
  /\ (forall e, net w (fetched w) = Throw e -> earlier = later)
  /\ (forall res, net w (fetched w) = Ok res -> ok res = false -> status res <> 401 ->
        earlier = later)
  /\ (forall res, net w (fetched w) = Ok res -> ok res = false -> status res = 401 ->
        errorDiv_textContent (dom (snd earlier)) = "API error: 401 " +:+ statusText res
        /\ errorDiv_textContent (dom (snd later)) = "Invalid API token provided").
Proof.
  intros earlier later. unfold earlier, later.
  rewrite EarlierFacts.earlier_analyzeRandomReview_eq, ReviewFacts.analyzeRandomReview_eq.
  cbn [fst snd trace fetched dom].
  split; [apply EarlierFacts.load_eq|].
  do 3 (split; [reflexivity|]).
  split; [|split; [|split]].
  - destruct (ReviewForm.verdict (net w (fetched w))) as [result|e] eqn:V.
    + intros _. now rewrite (EarlierFacts.verdict_kept _ _ V).
    + discriminate.
  - intros e ->. reflexivity.
  - intros res -> Hok Hs. unfold ReviewForm.verdict, EarlierForm.verdict,
      ReviewForm.status_message. rewrite Hok.
    apply Z.eqb_neq in Hs. now rewrite Hs.
  - intros res -> Hok Hs. unfold ReviewForm.verdict, EarlierForm.verdict,
      ReviewForm.status_message. rewrite Hok, Hs. split; reflexivity.
Qed.

Lemma earlier_copy_agrees_witness :
  errorDiv_textContent
    (dom (snd (EarlierCopy.analyzeRandomReview ["Great phone"] 0
                 (Samples2.review_world "tok"
                    [Ok (mkResponse 401 "Unauthorized" (Ok "no")
                           (Throw (mkError "SyntaxError" "Unexpected token")))]))))
  = "API error: 401 Unauthorized".
Proof.
  destruct (earlier_copy_agrees Samples2.two_rows Samples2.tsv_file ["Great phone"] 0
              (Samples2.review_world "tok"
                 [Ok (mkResponse 401 "Unauthorized" (Ok "no")
                        (Throw (mkError "SyntaxError" "Unexpected token")))]))
    as (_ & _ & _ & _ & _ & _ & _ & H).
  exact (proj1 (H _ eq_refl eq_refl eq_refl)).
Defined.

(** X24. Where the two copies part on an [ok] response with a parsed
    body.  The earlier copy tests only that the body is a non-empty
    array, and then reads the first item of its first element, whatever
    that element is; so, where the later script answers every body whose
    first element is not a non-empty array with the message of an invalid
    response, the earlier one displays the first character of a first
    element that is a non-empty string as if it were a result, and shows
    the error of reading a property of [undefined] for an empty array, an
    empty string, a number or a boolean, and of [null] for [null].  For a
    body that is not a non-empty array both show the message of an
    invalid response. *)
Theorem earlier_copy_reads_any_first_element (reviews : list string) (randomIndex : nat)
        (w : World ReviewPage) (res : Response) (data : json) :
  net w (fetched w) = Ok res ->
  ok res = true ->
  json_result res = Ok data ->
  LectureFirst.first_result data = None ->
  let earlier := dom (snd (EarlierCopy.analyzeRandomReview reviews randomIndex w)) in
  let later := dom (snd (LectureFirst.analyzeRandomReview reviews randomIndex w)) in
  errorDiv_textContent later = "Invalid response from API"
  /\ resultDiv_hidden later = true
  /\ (Js.nonempty data = false -> earlier = later)
  /\ (forall c r more, data = JArr (JStr (String c r) :: more) ->
        displayed earlier = Some (JStr (String c EmptyString))
        /\ resultDiv_hidden earlier = false /\ errorDiv_hidden earlier = true)
  /\ (forall first more, data = JArr (first :: more) ->
        match first with
        | JArr [] | JStr EmptyString | JNum _ | JBool _ => True
        | _ => False
        end ->
        errorDiv_textContent earlier = err_message (EarlierCopy.undefined_read "label")
        /\ resultDiv_hidden earlier = true)
  /\ (forall more, data = JArr (JNull :: more) ->
        errorDiv_textContent earlier = err_message (null_read "0")
        /\ resultDiv_hidden earlier = true).
Proof.
  intros Hnet Hok Hjs Hnone earlier later. unfold earlier, later.
  rewrite EarlierFacts.earlier_analyzeRandomReview_eq, ReviewFacts.analyzeRandomReview_eq.
  cbn [snd dom]. unfold ReviewForm.verdict, EarlierForm.verdict.
  rewrite Hnet, Hok, Hjs, Hnone.
  split; [reflexivity|]. split; [reflexivity|].
  split; [|split; [|split]].
  - destruct data as [| | | |[|first rest]|]; try reflexivity. discriminate.
  - intros c r more ->. cbn. repeat split.
  - intros first more -> Hf.
    destruct first as [|b|n|[|c r]|[|x xs]|fields]; try contradiction; cbn; split; reflexivity.
  - intros more ->. cbn. split; reflexivity.
Qed.

Lemma earlier_copy_reads_any_first_element_witness :
  displayed
    (dom (snd (EarlierCopy.analyzeRandomReview ["Great phone"] 0
                 (Samples2.review_world "tok"
                    [Samples.json_reply (JArr [JStr "POSITIVE"])]))))
  = Some (JStr "P").
Proof.
  refine (proj1 (proj1 (proj2 (proj2 (proj2
            (earlier_copy_reads_any_first_element ["Great phone"] 0
               (Samples2.review_world "tok" [Samples.json_reply (JArr [JStr "POSITIVE"])])
               (mkResponse 200 "OK" (Ok (Js.stringify (JArr [JStr "POSITIVE"])))
                           (Ok (JArr [JStr "POSITIVE"])))
               (JArr [JStr "POSITIVE"]) eq_refl eq_refl eq_refl eq_refl))))
            "P"%char "OSITIVE" [] eq_refl)).
Defined.
